(** * counterfit-website/src/lib/yoco.ts and the admin analytics route

    A shallow embedding of [verifyWebhookSignature] and
    [validateWebhookTimestamp], together with the parts of the JavaScript
    runtime they call ([String.prototype.split], [parseInt], [Buffer.from],
    base64, the arithmetic of doubles on integers) and what the identifier
    [crypto] denotes; of [generateOrderNumber] and [generateTrackingNumber];
    and of the asynchronous [createYocoCheckout], [registerYocoWebhook] and
    the [GET] handler of the admin analytics route, with [fetch], the
    session and the clock as parameters.  A reference HMAC-SHA256 says what
    a signed request is.

    Conventions.
    - A JavaScript string is a Rocq [string]: the sequence of the bytes of
      its UTF-8 encoding.  [Buffer.from(s)] and [hmac.update(s)] encode a
      string as UTF-8, so both are the identity on this representation.
    - A JavaScript number is a [number]: NaN, an infinity, or a double whose
      value is an integer.  Products and differences are rounded to the
      nearest double, ties to even, and overflow to an infinity.
    - yoco.ts uses the identifier [crypto] and has no import of it.  What
      [crypto.createHmac] does is a parameter of [verifyWebhookSignature];
      [globalThis_crypto] is what it does as the module loads.
    - [console] output and the work done by [crypto] are recorded in a
      trace; exceptions are explicit throw completions. *)

From Stdlib Require Import ZArith List Bool Lia.
From Stdlib.Strings Require Import String Ascii Byte.
From Stdlib.Floats Require Import SpecFloat.
Import ListNotations.
Local Open Scope Z_scope.

(** ** Bytes *)

Definition Z_of_byte (b : byte) : Z := Z.of_N (Byte.to_N b).

Definition byte_of_Z (z : Z) : byte :=
  match Byte.of_N (Z.to_N (z mod 256)) with
  | Some b => b
  | None => x00
  end.

Definition bytes_of_string (s : string) : list byte := list_byte_of_string s.

(** ** Base64 as implemented by Node's [Buffer] *)

Module Base64.

Definition alphabet : list ascii :=
  list_ascii_of_string
    "ABCDEFGHIJKLMNOPQRSTUVWXYZabcdefghijklmnopqrstuvwxyz0123456789+/".

Definition pad : ascii := "="%char.

Definition digit (n : Z) : ascii := nth (Z.to_nat (n mod 64)) alphabet "A"%char.

(** [buf.toString('base64')] / [hmac.digest('base64')]: the standard alphabet
    with [=] padding. *)
Fixpoint encode (bs : list byte) : string :=
  match bs with
  | [] => EmptyString
  | [a] =>
      let x := Z_of_byte a in
      String (digit (Z.shiftr x 2))
        (String (digit (Z.shiftl (Z.land x 3) 4))
           (String pad (String pad EmptyString)))
  | [a; b] =>
      let x := Z_of_byte a in
      let y := Z_of_byte b in
      String (digit (Z.shiftr x 2))
        (String (digit (Z.lor (Z.shiftl (Z.land x 3) 4) (Z.shiftr y 4)))
           (String (digit (Z.shiftl (Z.land y 15) 2))
              (String pad EmptyString)))
  | a :: b :: c :: rest =>
      let x := Z_of_byte a in
      let y := Z_of_byte b in
      let z := Z_of_byte c in
      String (digit (Z.shiftr x 2))
        (String (digit (Z.lor (Z.shiftl (Z.land x 3) 4) (Z.shiftr y 4)))
           (String (digit (Z.lor (Z.shiftl (Z.land y 15) 2) (Z.shiftr z 6)))
              (String (digit (Z.land z 63)) (encode rest))))
  end.

(** The value of a base64 character.  Node accepts the URL-safe characters
    [-] and [_] next to [+] and [/]. *)
Definition unbase64 (c : ascii) : option Z :=
  let n := Z.of_N (N_of_ascii c) in
  if (65 <=? n) && (n <=? 90) then Some (n - 65)
  else if (97 <=? n) && (n <=? 122) then Some (n - 71)
  else if (48 <=? n) && (n <=? 57) then Some (n + 4)
  else if (n =? 43) || (n =? 45) then Some 62
  else if (n =? 47) || (n =? 95) then Some 63
  else None.

Definition low_byte (z : Z) : ascii := ascii_of_N (Z.to_N (z mod 256)).

(** The UTF-16 code units of a text, each reduced modulo 256: Node's decoder
    reads a character of a string as its code unit cast to a byte.  A
    character up to U+007F is itself; one of two or three bytes of UTF-8 is
    one unit; one of four bytes is a pair of surrogates.  A byte that starts
    no complete character (not UTF-8) is kept as it is. *)
Fixpoint units (s : string) : string :=
  match s with
  | EmptyString => EmptyString
  | String c1 s1 =>
      let a := Z.of_N (N_of_ascii c1) in
      if a <? 0xC0 then String c1 (units s1)
      else
        match s1 with
        | EmptyString => String c1 EmptyString
        | String c2 s2 =>
            let b := Z.land (Z.of_N (N_of_ascii c2)) 0x3F in
            if a <? 0xE0 then
              String (low_byte (Z.lor (Z.shiftl (Z.land a 0x1F) 6) b))
                (units s2)
            else
              match s2 with
              | EmptyString => String c1 (units s1)
              | String c3 s3 =>
                  let c := Z.land (Z.of_N (N_of_ascii c3)) 0x3F in
                  if a <? 0xF0 then
                    String (low_byte (Z.lor (Z.shiftl b 6) c)) (units s3)
                  else
                    match s3 with
                    | EmptyString => String c1 (units s1)
                    | String c4 s4 =>
                        let d := Z.land (Z.of_N (N_of_ascii c4)) 0x3F in
                        let point :=
                          Z.lor (Z.shiftl (Z.land a 7) 18)
                            (Z.lor (Z.shiftl b 12) (Z.lor (Z.shiftl c 6) d)) in
                        let v := point - 0x10000 in
                        String (low_byte (0xD800 + Z.shiftr v 10))
                          (String (low_byte (0xDC00 + Z.land v 0x3FF))
                             (units s4))
                    end
              end
        end
  end.

(** Node decodes leniently: characters outside the alphabet are skipped and
    decoding stops at the first [=]. *)
Fixpoint sextets (s : string) : list Z :=
  match s with
  | EmptyString => []
  | String c s' =>
      if Ascii.eqb c pad then []
      else match unbase64 c with
           | Some v => v :: sextets s'
           | None => sextets s'
           end
  end.

Fixpoint octets (l : list Z) : list byte :=
  match l with
  | a :: b :: c :: d :: rest =>
      byte_of_Z (Z.lor (Z.shiftl a 2) (Z.shiftr b 4))
        :: byte_of_Z (Z.lor (Z.shiftl (Z.land b 15) 4) (Z.shiftr c 2))
        :: byte_of_Z (Z.lor (Z.shiftl (Z.land c 3) 6) d)
        :: octets rest
  | [a; b; c] =>
      [byte_of_Z (Z.lor (Z.shiftl a 2) (Z.shiftr b 4));
       byte_of_Z (Z.lor (Z.shiftl (Z.land b 15) 4) (Z.shiftr c 2))]
  | [a; b] => [byte_of_Z (Z.lor (Z.shiftl a 2) (Z.shiftr b 4))]
  | _ => []
  end.

(** [Buffer.from(s, 'base64')] for a string [s]; it never throws. *)
Definition decode (s : string) : list byte := octets (sextets (units s)).

End Base64.

(** ** SHA-256 (FIPS 180-4) and HMAC (RFC 2104)

    The function the provider signs a request with, and the one behind
    [createHmac('sha256', key)] of Node's crypto module.  It is no code of
    the repository: it says what the signature of a request is. *)

Module Sha256.

Definition w32 (x : Z) : Z := Z.land x 0xffffffff.
Definition add32 (x y : Z) : Z := w32 (x + y).
Definition rotr (n x : Z) : Z :=
  Z.lor (Z.shiftr x n) (w32 (Z.shiftl x (32 - n))).
Definition not32 (x : Z) : Z := Z.lxor x 0xffffffff.

Definition Ch (x y z : Z) : Z := Z.lxor (Z.land x y) (Z.land (not32 x) z).
Definition Maj (x y z : Z) : Z :=
  Z.lxor (Z.lxor (Z.land x y) (Z.land x z)) (Z.land y z).
Definition Sigma0 (x : Z) : Z :=
  Z.lxor (Z.lxor (rotr 2 x) (rotr 13 x)) (rotr 22 x).
Definition Sigma1 (x : Z) : Z :=
  Z.lxor (Z.lxor (rotr 6 x) (rotr 11 x)) (rotr 25 x).
Definition sigma0 (x : Z) : Z :=
  Z.lxor (Z.lxor (rotr 7 x) (rotr 18 x)) (Z.shiftr x 3).
Definition sigma1 (x : Z) : Z :=
  Z.lxor (Z.lxor (rotr 17 x) (rotr 19 x)) (Z.shiftr x 10).

(** The constants are fractional parts of roots of the first primes:
    the square roots of the first eight for the initial hash value, the
    cube roots of the first sixty-four for the round constants. *)
Definition is_prime (n : Z) : bool :=
  forallb (fun d => negb (n mod Z.of_nat d =? 0)) (seq 2 (Z.to_nat n - 2)).

Definition primes : list Z :=
  filter is_prime (map Z.of_nat (seq 2 310)).

(** The largest [r + x] with [x < 2 ^ bits] whose cube is at most [n]. *)
Fixpoint cube_root (bits : nat) (n r : Z) : Z :=
  match bits with
  | O => r
  | S bits' =>
      let c := r + Z.shiftl 1 (Z.of_nat bits') in
      if c * c * c <=? n then cube_root bits' n c else cube_root bits' n r
  end.

Definition K : list Z :=
  Eval vm_compute in
    map (fun p => w32 (cube_root 36 (Z.shiftl p 96) 0)) primes.

Definition H0 : list Z :=
  Eval vm_compute in
    map (fun p => w32 (Z.sqrt (Z.shiftl p 64))) (firstn 8 primes).

(** Padding: a 1 bit, zeros up to 56 mod 64 bytes, the bit length on 8 bytes. *)
Definition be_bytes (n : nat) (x : Z) : list Z :=
  map (fun i => Z.land (Z.shiftr x (8 * Z.of_nat i)) 255) (rev (seq 0 n)).

Definition padding (len : Z) : list Z :=
  0x80 :: repeat 0 (Z.to_nat ((55 - len) mod 64)) ++ be_bytes 8 (8 * len).

Fixpoint words (bs : list Z) : list Z :=
  match bs with
  | a :: b :: c :: d :: rest =>
      Z.lor (Z.shiftl a 24) (Z.lor (Z.shiftl b 16) (Z.lor (Z.shiftl c 8) d))
        :: words rest
  | _ => []
  end.

Fixpoint blocks (fuel : nat) (ws : list Z) : list (list Z) :=
  match fuel, ws with
  | S fuel', _ :: _ => firstn 16 ws :: blocks fuel' (skipn 16 ws)
  | _, _ => []
  end.

(** One round; [w] is the sliding window of the sixteen schedule words
    W(t) .. W(t+15). *)
Definition round (st : list Z * list Z) (k : Z) : list Z * list Z :=
  let '(v, w) := st in
  match v with
  | [a; b; c; d; e; f; g; h] =>
      let wt := nth 0 w 0 in
      let t1 := add32 (add32 (add32 (add32 h (Sigma1 e)) (Ch e f g)) k) wt in
      let t2 := add32 (Sigma0 a) (Maj a b c) in
      let next :=
        add32 (add32 (add32 (sigma1 (nth 14 w 0)) (nth 9 w 0))
                 (sigma0 (nth 1 w 0))) wt in
      ([add32 t1 t2; a; b; c; add32 d t1; e; f; g], tl w ++ [next])
  | _ => st
  end.

Definition compress (h : list Z) (block : list Z) : list Z :=
  let '(v, _) := fold_left round K (h, block) in
  map (fun p => add32 (fst p) (snd p)) (combine h v).

Definition sha256 (msg : list byte) : list byte :=
  let bs := map Z_of_byte msg in
  let padded := bs ++ padding (Z.of_nat (List.length bs)) in
  let ws := words padded in
  let h := fold_left compress (blocks (List.length ws) ws) H0 in
  map byte_of_Z (flat_map (be_bytes 4) h).

Definition block_size : nat := 64.

Definition xor_pad (p : Z) (key : list byte) : list byte :=
  map (fun b => byte_of_Z (Z.lxor (Z_of_byte b) p)) key.

Definition hmac (key msg : list byte) : list byte :=
  let k0 := if Nat.ltb block_size (List.length key) then sha256 key else key in
  let k := k0 ++ repeat x00 (block_size - List.length k0) in
  sha256 (xor_pad 0x5c k ++ sha256 (xor_pad 0x36 k ++ msg)).

End Sha256.

Definition hex_digit (n : Z) : ascii :=
  nth (Z.to_nat n) (list_ascii_of_string "0123456789abcdef") "0"%char.

Definition hex (bs : list byte) : string :=
  string_of_list_ascii
    (flat_map (fun b => [hex_digit (Z.shiftr (Z_of_byte b) 4);
                         hex_digit (Z.land (Z_of_byte b) 15)]) bs).

(** ** The JavaScript runtime: completions and observable effects *)

Local Open Scope string_scope.
Local Open Scope Z_scope.

Inductive exn : Type :=
| TypeError (message : string)
| RangeError (message : string)
| Error (message : string).

Inductive completion (A : Type) : Type :=
| Normal (a : A)
| Throw (e : exn).
Arguments Normal {A} a.
Arguments Throw {A} e.

(** The observable events: console output, an HMAC computed by
    [crypto.createHmac(..).update(..).digest(..)], and a call of
    [crypto.timingSafeEqual]. *)
Inductive event : Type :=
| console_warn (args : list string)
| console_log (args : list string)
| console_error (message : string) (error : exn)
| crypto_createHmac (key : list byte) (data : string)
| crypto_timingSafeEqual (a b : list byte).

(** A computation yields the events it performed and how it completed. *)
Definition M (A : Type) : Type := list event * completion A.

Definition ret {A} (a : A) : M A := ([], Normal a).
Definition throw {A} (e : exn) : M A := ([], Throw e).
Definition emit (ev : event) : M unit := ([ev], Normal tt).

Definition bind {A B} (m : M A) (k : A -> M B) : M B :=
  match m with
  | (t, Normal a) => let '(t', r) := k a in ((t ++ t')%list, r)
  | (t, Throw e) => (t, Throw e)
  end.

Definition try_catch {A} (body : M A) (handler : exn -> M A) : M A :=
  match body with
  | (t, Normal a) => (t, Normal a)
  | (t, Throw e) => let '(t', r) := handler e in ((t ++ t')%list, r)
  end.

Definition lift {A} (c : completion A) : M A := ([], c).

Notation "x <- c ;; k" := (bind c (fun x => k))
  (at level 61, c at next level, right associativity).
Notation "c ;; k" := (bind c (fun _ => k))
  (at level 61, right associativity).

Definition trace {A} (m : M A) : list event := fst m.
Definition result {A} (m : M A) : completion A := snd m.

(** ** Strings, buffers and numbers *)

(** [s.split(sep)] for a one-character separator. *)
Fixpoint split (sep : ascii) (s : string) : list string :=
  match s with
  | EmptyString => [EmptyString]
  | String c s' =>
      if Ascii.eqb c sep then EmptyString :: split sep s'
      else match split sep s' with
           | h :: t => String c h :: t
           | [] => [String c EmptyString]
           end
  end.

(** [a[i]]: [None] is [undefined]. *)
Definition index {A} (a : list A) (i : nat) : option A := nth_error a i.
Arguments index : simpl never.

(** [v.split(sep)] where [v] may be [undefined]. *)
Definition split_of (v : option string) (sep : ascii) : M (list string) :=
  match v with
  | Some s => ret (split sep s)
  | None =>
      throw (TypeError
               "Cannot read properties of undefined (reading 'split')")
  end.

(** [!s] is true exactly for the empty string. *)
Definition falsy (s : string) : bool :=
  match s with
  | EmptyString => true
  | String _ _ => false
  end.

(** [process.env.X || ''] *)
Definition or_empty (v : option string) : string :=
  match v with
  | Some s => if falsy s then EmptyString else s
  | None => EmptyString
  end.

Definition ERR_INVALID_ARG_TYPE : exn :=
  TypeError
    ("The first argument must be of type string or an instance of "
     ++ "Buffer, ArrayBuffer, or Array or an Array-like Object. "
     ++ "Received undefined").

(** [Buffer.from(v)] and [Buffer.from(v, 'base64')] throw a TypeError when
    [v] is [undefined]. *)
Definition Buffer_from (v : option string) : M (list byte) :=
  match v with
  | Some s => ret (bytes_of_string s)
  | None => throw ERR_INVALID_ARG_TYPE
  end.

Definition Buffer_from_base64 (v : option string) : M (list byte) :=
  match v with
  | Some s => ret (Base64.decode s)
  | None => throw ERR_INVALID_ARG_TYPE
  end.

Definition bytes_eqb (a b : list byte) : bool :=
  if list_eq_dec Byte.byte_eq_dec a b then true else false.

(** [crypto.timingSafeEqual(a, b)]: a RangeError when the byte lengths
    differ, otherwise whether the buffers hold the same bytes. *)
Definition timingSafeEqual (a b : list byte) : M bool :=
  emit (crypto_timingSafeEqual a b) ;;
  if Nat.eqb (List.length a) (List.length b) then ret (bytes_eqb a b)
  else throw (RangeError "Input buffers must have the same byte length").

(** Numbers: NaN, the infinities, and the doubles whose value is an
    integer.  The two zeros are one value: multiplying, subtracting, taking
    the absolute value and comparing do not tell them apart. *)
Inductive number : Type :=
| NaN
| Infinity (negative : bool)
| Finite (z : Z).

(** The double nearest to the integer [z], ties going to the even
    significand: [z] itself below 2^53, an infinity from 2^1024 - 2^970 on. *)
Definition round_to_double (z : Z) : number :=
  let n := Z.abs z in
  if n <? 2 ^ 53 then Finite z
  else
    let shift := Z.log2 n - 52 in
    let q := Z.shiftr n shift in
    let r := n - Z.shiftl q shift in
    let half := Z.shiftl 1 (shift - 1) in
    let q' := if (half <? r) || ((r =? half) && Z.odd q) then q + 1 else q in
    let m := Z.shiftl q' shift in
    if 2 ^ 1024 <=? m then Infinity (z <? 0) else Finite (Z.sgn z * m).

(** [x * y] *)
Definition num_mul (x y : number) : number :=
  match x, y with
  | NaN, _ | _, NaN => NaN
  | Finite a, Finite b => round_to_double (a * b)
  | Infinity s, Finite b | Finite b, Infinity s =>
      if b =? 0 then NaN else Infinity (xorb s (b <? 0))
  | Infinity s, Infinity t => Infinity (xorb s t)
  end.

(** [x - y] *)
Definition num_sub (x y : number) : number :=
  match x, y with
  | NaN, _ | _, NaN => NaN
  | Finite a, Finite b => round_to_double (a - b)
  | Infinity s, Finite _ => Infinity s
  | Finite _, Infinity t => Infinity (negb t)
  | Infinity s, Infinity t => if Bool.eqb s t then NaN else Infinity s
  end.

Definition Math_abs (x : number) : number :=
  match x with
  | NaN => NaN
  | Infinity _ => Infinity false
  | Finite z => Finite (Z.abs z)
  end.

(** [x <= y]; every comparison with NaN is false. *)
Definition num_le (x y : number) : bool :=
  match x, y with
  | NaN, _ | _, NaN => false
  | Finite a, Finite b => a <=? b
  | Infinity s, Finite _ => s
  | Finite _, Infinity t => negb t
  | Infinity s, Infinity t => s || negb t
  end.

Definition code (c : ascii) : Z := Z.of_N (N_of_ascii c).

(** White space and line terminators skipped by [parseInt], the code
    points above U+007F in their UTF-8 form. *)
Definition white1 (a : Z) : bool :=
  ((9 <=? a) && (a <=? 13)) || (a =? 32).

Definition white2 (a b : Z) : bool := (a =? 0xC2) && (b =? 0xA0).

Definition white3 (a b c : Z) : bool :=
  ((a =? 0xE1) && (b =? 0x9A) && (c =? 0x80))
  || ((a =? 0xE2) && (b =? 0x80)
      && (((0x80 <=? c) && (c <=? 0x8A)) || (c =? 0xA8) || (c =? 0xA9)
          || (c =? 0xAF)))
  || ((a =? 0xE2) && (b =? 0x81) && (c =? 0x9F))
  || ((a =? 0xE3) && (b =? 0x80) && (c =? 0x80))
  || ((a =? 0xEF) && (b =? 0xBB) && (c =? 0xBF)).

Fixpoint trim_start (s : string) : string :=
  match s with
  | EmptyString => s
  | String c1 s1 =>
      if white1 (code c1) then trim_start s1
      else match s1 with
           | EmptyString => s
           | String c2 s2 =>
               if white2 (code c1) (code c2) then trim_start s2
               else match s2 with
                    | EmptyString => s
                    | String c3 s3 =>
                        if white3 (code c1) (code c2) (code c3)
                        then trim_start s3
                        else s
                    end
           end
  end.

(** The value of a character as a digit of the given radix. *)
Definition digit_value (radix : Z) (c : ascii) : option Z :=
  let n := code c in
  let v := if (48 <=? n) && (n <=? 57) then Some (n - 48)
           else if (97 <=? n) && (n <=? 122) then Some (n - 87)
           else if (65 <=? n) && (n <=? 90) then Some (n - 55)
           else None in
  match v with
  | Some d => if d <? radix then Some d else None
  | None => None
  end.

(** The value of the longest prefix of digits; [acc] is [None] until a
    digit has been read. *)
Fixpoint digits (radix : Z) (s : string) (acc : option Z) : option Z :=
  match s with
  | EmptyString => acc
  | String c s' =>
      match digit_value radix c with
      | Some d =>
          digits radix s'
            (Some (match acc with Some a => a * radix + d | None => d end))
      | None => acc
      end
  end.

Definition strip_sign (s : string) : Z * string :=
  match s with
  | String c r =>
      if Ascii.eqb c "-" then (-1, r)
      else if Ascii.eqb c "+" then (1, r)
      else (1, s)
  | EmptyString => (1, s)
  end.

Definition strip_radix_prefix (s : string) : Z * string :=
  match s with
  | String c0 (String c1 r) =>
      if Ascii.eqb c0 "0" && (Ascii.eqb c1 "x" || Ascii.eqb c1 "X")
      then (16, r) else (10, s)
  | _ => (10, s)
  end.

(** The integer at the head of a string as [parseInt] with no radix
    argument reads it: after white space and a sign, [0x] or [0X] selects
    radix 16, and the longest run of digits is the value. *)
Definition parsed_integer (input : string) : option Z :=
  let '(sign, s) := strip_sign (trim_start input) in
  let '(radix, s) := strip_radix_prefix s in
  match digits radix s None with
  | Some n => Some (sign * n)
  | None => None
  end.

(** [parseInt(input)]: the double nearest to that integer, NaN when there is
    no digit. *)
Definition parseInt (input : string) : number :=
  match parsed_integer input with
  | Some n => round_to_double n
  | None => NaN
  end.

(** ** yoco.ts *)

Record YocoConfig : Type := {
  publicKey : string;
  secretKey : string;
  webhookSecret : string;
  currency : string;
  name : string;
  description : string
}.

Definition YOCO_CONFIG (env : string -> option string) : YocoConfig :=
  {| publicKey := or_empty (env "NEXT_PUBLIC_YOCO_PUBLIC_KEY");
     secretKey := or_empty (env "YOCO_SECRET_KEY");
     webhookSecret := or_empty (env "YOCO_WEBHOOK_SECRET");
     currency := "ZAR";
     name := "Counterfit";
     description := "Luxury Streetwear" |}.

Section Verifier.

(** What evaluating [crypto.createHmac('sha256', key).update(data).digest()]
    does: it yields the digest, or throws.  This depends on what the
    identifier [crypto] denotes when the function runs, for which yoco.ts
    has no import; [globalThis_crypto] below is what it denotes as the
    module loads.  A [crypto] that computes the digest is taken to be Node's
    module, with its [timingSafeEqual]. *)
Variable hmac_sha256 : list byte -> list byte -> completion (list byte).

Variable config : YocoConfig.

Definition createHmac_digest_base64 (key : list byte) (data : string)
  : M string :=
  digest <- lift (hmac_sha256 key (bytes_of_string data)) ;;
  emit (crypto_createHmac key data) ;;
  ret (Base64.encode digest).

Definition verifyWebhookSignature_body
  (webhookId webhookTimestamp requestBody webhookSignature : string)
  : M bool :=
  if falsy (webhookSecret config) then
    emit (console_warn ["⚠️ Missing webhook secret"]) ;;
    ret false
  else
    let signedContent :=
      webhookId ++ "." ++ webhookTimestamp ++ "." ++ requestBody in
    secretBytes <-
      Buffer_from_base64 (index (split "_" (webhookSecret config)) 1) ;;
    expectedSignature <- createHmac_digest_base64 secretBytes signedContent ;;
    let signatures := split " " webhookSignature in
    parts <- split_of (index signatures 0) "," ;;
    let primarySignature := index parts 1 in
    expected <- Buffer_from (Some expectedSignature) ;;
    received <- Buffer_from primarySignature ;;
    isValid <- timingSafeEqual expected received ;;
    emit (console_log ["🔐 Webhook signature verification:";
                       if isValid then "✅ Valid" else "❌ Invalid"]) ;;
    ret isValid.

Definition verifyWebhookSignature
  (webhookId webhookTimestamp requestBody webhookSignature : string)
  : M bool :=
  try_catch
    (verifyWebhookSignature_body webhookId webhookTimestamp requestBody
       webhookSignature)
    (fun error =>
       emit (console_error "❌ Webhook signature verification error:" error) ;;
       ret false).

End Verifier.

(** yoco.ts has no import of [crypto].  As the module loads, the identifier
    denotes the global object of the runtime, the Web Crypto object, whose
    members are [subtle], [getRandomValues] and [randomUUID]: reading
    [crypto.createHmac] gives [undefined], and calling it throws this
    TypeError before any HMAC is computed. *)
Definition not_a_function : exn :=
  TypeError "crypto.createHmac is not a function".

Definition globalThis_crypto (key data : list byte) : completion (list byte) :=
  Throw not_a_function.

(** What [import crypto from 'crypto'] would bind: Node's crypto module,
    which computes HMAC-SHA256.  yoco.ts is not bound to it; the statements
    that hold for every binding are also run on this one. *)
Definition node_hmac (key data : list byte) : completion (list byte) :=
  Normal (Sha256.hmac key data).

Definition default_thresholdMinutes : number := Finite 3.

(** [currentTime] is the value [Date.now()] returns during the call, a whole
    number of milliseconds below 2^53; [thresholdMinutes] is [None] when the
    caller omits the argument, and a threshold with a fraction of a minute
    is outside the model. *)
Definition validateWebhookTimestamp_body
  (currentTime : Z) (timestamp : string) (thresholdMinutes : option number)
  : M bool :=
  let thresholdMinutes :=
    match thresholdMinutes with
    | Some m => m
    | None => default_thresholdMinutes
    end in
  let webhookTime := num_mul (parseInt timestamp) (Finite 1000) in
  let thresholdMs :=
    num_mul (num_mul thresholdMinutes (Finite 60)) (Finite 1000) in
  let isValid :=
    num_le (Math_abs (num_sub (Finite currentTime) webhookTime)) thresholdMs in
  emit (console_log ["⏰ Webhook timestamp validation:";
                     if isValid then "✅ Valid" else "❌ Invalid"]) ;;
  ret isValid.

Definition validateWebhookTimestamp
  (currentTime : Z) (timestamp : string) (thresholdMinutes : option number)
  : M bool :=
  try_catch
    (validateWebhookTimestamp_body currentTime timestamp thresholdMinutes)
    (fun error =>
       emit (console_error "❌ Webhook timestamp validation error:" error) ;;
       ret false).

(** * Vocabulary of the properties *)

(** ** Text *)

Fixpoint occurs (c : ascii) (s : string) : bool :=
  match s with
  | EmptyString => false
  | String a s' => Ascii.eqb a c || occurs c s'
  end.

(** The part of [s] before the first [sep], and the part after it. *)
Fixpoint before (sep : ascii) (s : string) : string :=
  match s with
  | EmptyString => EmptyString
  | String c s' =>
      if Ascii.eqb c sep then EmptyString else String c (before sep s')
  end.

Fixpoint after (sep : ascii) (s : string) : option string :=
  match s with
  | EmptyString => None
  | String c s' => if Ascii.eqb c sep then Some s' else after sep s'
  end.

Definition is_base64_char (c : ascii) : bool :=
  existsb (Ascii.eqb c) (Base64.pad :: Base64.alphabet).

(** Text of characters up to U+007F. *)
Fixpoint all_ascii (s : string) : bool :=
  match s with
  | EmptyString => true
  | String c s' => (Z.of_N (N_of_ascii c) <? 128) && all_ascii s'
  end.

(** Text over the standard alphabet and the padding character. *)
Fixpoint is_base64 (s : string) : bool :=
  match s with
  | EmptyString => true
  | String c s' => is_base64_char c && is_base64 s'
  end.

Arguments Base64.digit : simpl never.
Arguments is_base64_char : simpl never.

(** ** The two signatures *)

(** The part of the configured secret that is decoded into the key:
    [YOCO_CONFIG.webhookSecret.split('_')[1]]. *)
Definition secretPart (config : YocoConfig) : option string :=
  index (split "_" (webhookSecret config)) 1.

(** The signature of a request under a key: the base64 text of the
    HMAC-SHA256 of [id.timestamp.body]. *)
Definition signature_of (key : list byte)
  (webhookId webhookTimestamp requestBody : string) : string :=
  Base64.encode
    (Sha256.hmac key
       (bytes_of_string
          (webhookId ++ "." ++ webhookTimestamp ++ "." ++ requestBody))).

(** The expected signature, when the key can be built and the HMAC is
    computed. *)
Definition expectedSignature
  (hmac_sha256 : list byte -> list byte -> completion (list byte))
  (config : YocoConfig) (webhookId webhookTimestamp requestBody : string)
  : option string :=
  match secretPart config with
  | Some part =>
      match hmac_sha256 (Base64.decode part)
              (bytes_of_string
                 (webhookId ++ "." ++ webhookTimestamp ++ "." ++ requestBody))
      with
      | Normal digest => Some (Base64.encode digest)
      | Throw _ => None
      end
  | None => None
  end.

(** The received primary signature: [signatures[0].split(',')[1]]. *)
Definition primarySignature (webhookSignature : string) : option string :=
  match index (split " " webhookSignature) 0 with
  | Some entry => index (split "," entry) 1
  | None => None
  end.

(** What the call returns, in terms of the two signatures. *)
Definition verdict
  (hmac_sha256 : list byte -> list byte -> completion (list byte))
  (config : YocoConfig)
  (webhookId webhookTimestamp requestBody webhookSignature : string) : bool :=
  match expectedSignature hmac_sha256 config webhookId webhookTimestamp
          requestBody,
        primarySignature webhookSignature with
  | Some e, Some p => String.eqb e p
  | _, _ => false
  end.

(** ** Headers of several entries *)

Definition entry_text (entry : string * string) : string :=
  fst entry ++ "," ++ snd entry.

(** The header made of [version,value] entries separated by spaces. *)
Definition header_of (entries : list (string * string)) : string :=
  String.concat " " (map entry_text entries).

(** ** Timestamps *)

(** A threshold of [m] whole minutes. *)
Definition minutes (m : Z) : option number := Some (Finite m).

(** The integers every double represents exactly:
    [Number.isSafeInteger]. *)
Definition isSafeInteger (z : Z) : bool := Z.abs z <? 2 ^ 53.

(** Whether the time [t], in seconds, is at most [m] minutes away from the
    clock, in milliseconds. *)
Definition within_window (currentTime t m : Z) : Prop :=
  Z.abs (currentTime - t * 1000) <= m * 60 * 1000.

(** The threshold in milliseconds: [thresholdMinutes * 60 * 1000]. *)
Definition thresholdMs (thresholdMinutes : option number) : number :=
  num_mul
    (num_mul (match thresholdMinutes with
              | Some m => m
              | None => default_thresholdMinutes
              end) (Finite 60)) (Finite 1000).

(** The doubles of the Standard Library's binary64 format, to compare
    [round_to_double] with: the value of one that is an integer. *)
Definition of_binary64 (f : spec_float) : number :=
  match f with
  | S754_zero _ => Finite 0
  | S754_infinity s => Infinity s
  | S754_nan => NaN
  | S754_finite s m e =>
      Finite ((if s then -1 else 1)
              * (if 0 <=? e then Z.shiftl (Zpos m) e
                 else Z.shiftr (Zpos m) (- e)))
  end.

(** The double nearest to an integer, as the Standard Library rounds. *)
Definition binary64 (z : Z) : spec_float := binary_normalize 53 1024 z 0 false.

Definition number_eqb (a b : number) : bool :=
  match a, b with
  | NaN, NaN => true
  | Infinity s, Infinity t => Bool.eqb s t
  | Finite x, Finite y => x =? y
  | _, _ => false
  end.

Definition sample_integers : list Z :=
  let naturals := map Z.of_nat (seq 0 40) in
  let around := flat_map (fun k => [2 ^ k - 1; 2 ^ k; 2 ^ k + 1; 2 ^ k + 3])
                  [52; 53; 54; 55; 60; 64; 100; 970; 1023; 1024] in
  let positive :=
    (naturals ++ around ++ map (Z.pow 10) naturals
       ++ map (fun k => 3 ^ (17 * k)) naturals
       ++ [2 ^ 1024 - 2 ^ 970; 2 ^ 1024 - 2 ^ 970 - 1; 10 ^ 308; 10 ^ 400;
           1700000000000; 9007199254740993])%list in
  (positive ++ map Z.opp positive)%list.

Arguments round_to_double : simpl never.
Arguments num_mul : simpl never.
Arguments num_sub : simpl never.
Arguments num_le : simpl never.
Arguments Math_abs : simpl never.

(** The number written by the leading decimal digits of a string. *)
Definition leading_digits_value (s : string) : option Z := digits 10 s None.

Definition has_hex_prefix (s : string) : bool :=
  match s with
  | String c0 (String c1 _) =>
      Ascii.eqb c0 "0" && (Ascii.eqb c1 "x" || Ascii.eqb c1 "X")
  | _ => false
  end.

(** ** Configurations and inputs of the examples *)

Definition double_quote : string := String (ascii_of_nat 34) EmptyString.

(** The body [{"type":"payment.succeeded"}]. *)
Definition scenario_body : string :=
  "{" ++ double_quote ++ "type" ++ double_quote ++ ":"
      ++ double_quote ++ "payment.succeeded" ++ double_quote ++ "}".

Definition scenario_env (key : string) : option string :=
  if String.eqb key "YOCO_WEBHOOK_SECRET"
  then Some "whsec_ZmFrZXNlY3JldGtleQ=="
  else None.

Definition scenario_config : YocoConfig := YOCO_CONFIG scenario_env.

Definition scenario_signature : string :=
  "VnEXwA/YbB3oDDdx74EGjzjNUIKuSFeTyFrnnCUeUHU=".

(** A secret with no underscore, and one with two. *)
Definition no_underscore_config : YocoConfig :=
  YOCO_CONFIG (fun key =>
                 if String.eqb key "YOCO_WEBHOOK_SECRET"
                 then Some "ZmFrZXNlY3JldGtleQ==" else None).

Definition two_underscore_config : YocoConfig :=
  YOCO_CONFIG (fun key =>
                 if String.eqb key "YOCO_WEBHOOK_SECRET"
                 then Some "whsec_QUJD_0VG" else None).

(** A [crypto] whose HMAC fails. *)
Definition failing_hmac (key data : list byte) : completion (list byte) :=
  Throw (Error "Invalid digest: sha256").

(** ** Tactics *)

Ltac split_all := repeat match goal with |- _ /\ _ => split end.

(** Unfolds a call down to the trace and completion it produces. *)
Ltac run :=
  unfold verifyWebhookSignature, verifyWebhookSignature_body,
    validateWebhookTimestamp, validateWebhookTimestamp_body,
    createHmac_digest_base64, timingSafeEqual, Buffer_from,
    Buffer_from_base64, split_of, try_catch, bind, ret, throw, emit, lift,
    result, trace;
  simpl.

(** ** The run of [verifyWebhookSignature], path by path *)

Definition signature_label : string := "🔐 Webhook signature verification:".

Definition signature_error_label : string :=
  "❌ Webhook signature verification error:".

(** The events and the value of a call, read off the five ways the body
    can end: no secret, no key, no HMAC, no received signature, and the
    comparison. *)
Definition verify_outcome
  (hmac_sha256 : list byte -> list byte -> completion (list byte))
  (config : YocoConfig)
  (webhookId webhookTimestamp requestBody webhookSignature : string)
  : M bool :=
  let content := webhookId ++ "." ++ webhookTimestamp ++ "." ++ requestBody in
  if falsy (webhookSecret config) then
    ([console_warn ["⚠️ Missing webhook secret"]], Normal false)
  else
    match option_map Base64.decode (secretPart config) with
    | None =>
        ([console_error signature_error_label ERR_INVALID_ARG_TYPE],
         Normal false)
    | Some key =>
        match hmac_sha256 key (bytes_of_string content) with
        | Throw e => ([console_error signature_error_label e], Normal false)
        | Normal digest =>
            match primarySignature webhookSignature with
            | None =>
                ([crypto_createHmac key content;
                  console_error signature_error_label ERR_INVALID_ARG_TYPE],
                 Normal false)
            | Some received =>
                let a := bytes_of_string (Base64.encode digest) in
                let b := bytes_of_string received in
                if Nat.eqb (List.length a) (List.length b) then
                  ([crypto_createHmac key content;
                    crypto_timingSafeEqual a b;
                    console_log [signature_label;
                                 if bytes_eqb a b then "✅ Valid"
                                 else "❌ Invalid"]],
                   Normal (bytes_eqb a b))
                else
                  ([crypto_createHmac key content;
                    crypto_timingSafeEqual a b;
                    console_error signature_error_label
                      (RangeError
                         "Input buffers must have the same byte length")],
                   Normal false)
            end
        end
    end.

(** The HMACs computed and the comparisons called in a trace. *)
Definition hmac_calls (t : list event) : list (list byte * string) :=
  flat_map (fun ev => match ev with
                      | crypto_createHmac key data => [(key, data)]
                      | _ => []
                      end) t.

Definition comparison_calls (t : list event) : list (list byte * list byte) :=
  flat_map (fun ev => match ev with
                      | crypto_timingSafeEqual a b => [(a, b)]
                      | _ => []
                      end) t.

(** The configuration read from an environment that sets the webhook
    secret and nothing else. *)
Definition config_with_secret (secret : string) : YocoConfig :=
  YOCO_CONFIG (fun key =>
                 if String.eqb key "YOCO_WEBHOOK_SECRET"
                 then Some secret else None).

(** The byte values. *)
Definition byte_values : list Z := map Z.of_nat (seq 0 256).

(** The four characters the encoder writes for three bytes, as values, and
    the three bytes the decoder reads back from them. *)
Definition sextet1 (x : Z) : Z := Z.shiftr x 2.
Definition sextet2 (x y : Z) : Z :=
  Z.lor (Z.shiftl (Z.land x 3) 4) (Z.shiftr y 4).
Definition sextet3 (y z : Z) : Z :=
  Z.lor (Z.shiftl (Z.land y 15) 2) (Z.shiftr z 6).
Definition sextet4 (z : Z) : Z := Z.land z 63.

Definition octet1 (a b : Z) : Z := Z.lor (Z.shiftl a 2) (Z.shiftr b 4).
Definition octet2 (b c : Z) : Z :=
  Z.lor (Z.shiftl (Z.land b 15) 4) (Z.shiftr c 2).
Definition octet3 (c d : Z) : Z := Z.lor (Z.shiftl (Z.land c 3) 6) d.

Definition sextets_in_range (x y : Z) : bool :=
  (sextet1 x <? 64) && (0 <=? sextet1 x)
  && (sextet2 x y <? 64) && (0 <=? sextet2 x y)
  && (sextet3 x y <? 64) && (0 <=? sextet3 x y)
  && (sextet4 x <? 64) && (0 <=? sextet4 x)
  && (Z.shiftl (Z.land x 3) 4 <? 64) && (0 <=? Z.shiftl (Z.land x 3) 4)
  && (Z.shiftl (Z.land x 15) 2 <? 64) && (0 <=? Z.shiftl (Z.land x 15) 2).

Definition octets_restored (x y : Z) : bool :=
  (octet1 (sextet1 x) (sextet2 x y) =? x)
  && (Z.land (sextet2 x y) 15 =? Z.shiftr y 4)
  && (Z.shiftr (sextet3 x y) 2 =? Z.land x 15)
  && (octet3 (sextet3 x y) (sextet4 y) =? y)
  && (Z.lor (Z.shiftl (Z.shiftr x 4) 4) (Z.land x 15) =? x)
  && (octet1 (sextet1 x) (Z.shiftl (Z.land x 3) 4) =? x)
  && (Z.shiftr (Z.shiftl (Z.land x 15) 2) 2 =? Z.land x 15).

(** Turns the two checks of a pair of bytes into their arithmetic facts. *)
Ltac sextet_facts checks :=
  let R := fresh "R" in
  let O := fresh "O" in
  pose proof checks as [R O];
  unfold sextets_in_range in R; unfold octets_restored in O;
  repeat (apply andb_true_iff in R; destruct R as [R ?]);
  repeat (apply andb_true_iff in O; destruct O as [O ?]);
  repeat match goal with
         | H : (_ <? _) = true |- _ => apply Z.ltb_lt in H
         | H : (_ <=? _) = true |- _ => apply Z.leb_le in H
         | H : (_ =? _) = true |- _ => apply Z.eqb_eq in H
         end.

(** ** Numbers as text *)

Definition digit_char (d : Z) : ascii := ascii_of_nat (48 + Z.to_nat d).
Arguments digit_char : simpl never.

(** The decimal digits of [n], most significant first, in front of [acc]. *)
Fixpoint to_digits (fuel : nat) (n : Z) (acc : string) : string :=
  match fuel with
  | O => acc
  | S fuel' =>
      let acc' := String (digit_char (n mod 10)) acc in
      if n <? 10 then acc' else to_digits fuel' (n / 10) acc'
  end.

Definition digit_fuel (n : Z) : nat := S (Z.to_nat (Z.log2 n)).

(** [String(n)], [n.toString()] and [`${n}`] for an integer [n] of
    magnitude below 2^53: all its digits. *)
Definition Number_toString (n : Z) : string :=
  if n <? 0 then String "-" (to_digits (digit_fuel (- n)) (- n) EmptyString)
  else to_digits (digit_fuel n) n EmptyString.

(** [n] characters of [pad] repeated, going on from [cur]. *)
Fixpoint pad_fill (n : nat) (cur pad : string) : string :=
  match n with
  | O => EmptyString
  | S n' =>
      match cur with
      | String c r => String c (pad_fill n' r pad)
      | EmptyString =>
          match pad with
          | String c r => String c (pad_fill n' r pad)
          | EmptyString => EmptyString
          end
      end
  end.

(** [s.padStart(targetLength, padString)] *)
Definition padStart (targetLength : nat) (padString s : string) : string :=
  if (targetLength <=? String.length s)%nat then s
  else if falsy padString then s
  else pad_fill (targetLength - String.length s) padString padString ++ s.

(** ** Order and tracking numbers *)

(** What [new Date()] answers to [getFullYear()] and [getMonth()]. *)
Record JsDate : Type := {
  getFullYear : Z;
  getMonth : Z
}.

(** [draw] is the value of [Math.floor(Math.random() * 10000)], an integer
    from 0 to 9999. *)
Definition generateOrderNumber (date : JsDate) (draw : Z) : string :=
  let year := getFullYear date in
  let month := padStart 2 "0" (Number_toString (getMonth date + 1)) in
  let random := padStart 4 "0" (Number_toString draw) in
  "ORD-" ++ Number_toString year ++ month ++ "-" ++ random.

(** [draw] is the value of [Math.floor(Math.random() * 1000000)], an
    integer from 0 to 999999. *)
Definition generateTrackingNumber (draw : Z) : string :=
  let prefix := "CF" in
  let random := padStart 6 "0" (Number_toString draw) in
  let suffix := "SA" in
  prefix ++ random ++ suffix.

Definition is_decimal (c : ascii) : bool :=
  (48 <=? code c) && (code c <=? 57).
Arguments is_decimal : simpl never.

Fixpoint all_decimal (s : string) : bool :=
  match s with
  | EmptyString => true
  | String c s' => is_decimal c && all_decimal s'
  end.

Fixpoint zeros (n : nat) : string :=
  match n with
  | O => EmptyString
  | S n' => String "0" (zeros n')
  end.

(** ** JSON values *)

(** A number of a JSON value is an integer of magnitude below 2^53, whose
    text is its decimal digits; other numbers are outside the model. *)
#[warnings="-register-all"]
Inductive Json : Type :=
| JNull
| JBool (b : bool)
| JNumber (n : Z)
| JString (s : string)
| JArray (items : list Json)
| JObject (properties : list (string * Json)).

(** [v[key]] for a key that names no built-in member: a TypeError on
    [null], the property of an object ([None] is [undefined]; the
    properties of an object have distinct keys), [undefined] on the rest. *)
Fixpoint property (key : string) (properties : list (string * Json))
  : option Json :=
  match properties with
  | [] => None
  | (k, v) :: rest => if String.eqb k key then Some v else property key rest
  end.

Definition get (v : Json) (key : string) : completion (option Json) :=
  match v with
  | JNull =>
      Throw (TypeError
               ("Cannot read properties of null (reading '" ++ key ++ "')"))
  | JObject properties => Normal (property key properties)
  | _ => Normal None
  end.

(** Whether a value counts as true in [!v] and [v || w]. *)
Definition truthy (v : option Json) : bool :=
  match v with
  | None | Some JNull => false
  | Some (JBool b) => b
  | Some (JNumber n) => negb (n =? 0)
  | Some (JString s) => negb (falsy s)
  | Some (JArray _) | Some (JObject _) => true
  end.

Definition not_primitive : exn :=
  TypeError "Cannot convert object to primitive value".

(** The text of a value inside a template literal.  An array is joined with
    commas, [null] elements left empty.  An object is written by the
    [toString] it inherits, unless it has a property of that name: no value
    of JSON can be called, and the conversion throws. *)
Fixpoint ToString (v : Json) : completion string :=
  match v with
  | JNull => Normal "null"
  | JBool true => Normal "true"
  | JBool false => Normal "false"
  | JNumber n => Normal (Number_toString n)
  | JString s => Normal s
  | JArray items =>
      let fix join (l : list Json) : completion (list string) :=
        match l with
        | [] => Normal []
        | item :: rest =>
            match match item with
                  | JNull => Normal EmptyString
                  | _ => ToString item
                  end with
            | Normal s =>
                match join rest with
                | Normal parts => Normal (s :: parts)
                | Throw e => Throw e
                end
            | Throw e => Throw e
            end
        end in
      match join items with
      | Normal parts => Normal (String.concat "," parts)
      | Throw e => Throw e
      end
  | JObject properties =>
      match property "toString" properties with
      | Some _ => Throw not_primitive
      | None => Normal "[object Object]"
      end
  end.

(** Whether every number in a value is an integer that doubles hold
    exactly. *)
Fixpoint safe_numbers (v : Json) : bool :=
  match v with
  | JNumber n => isSafeInteger n
  | JArray items => forallb safe_numbers items
  | JObject properties =>
      forallb (fun kv => safe_numbers (snd kv)) properties
  | _ => true
  end.

(** [JSON.stringify]: the quoting of a string. *)
Definition escape (c : ascii) : string :=
  let n := code c in
  if n =? 34 then "\" ++ double_quote
  else if n =? 92 then "\\"
  else if n =? 8 then "\b"
  else if n =? 9 then "\t"
  else if n =? 10 then "\n"
  else if n =? 12 then "\f"
  else if n =? 13 then "\r"
  else if n <? 32 then
    "\u00" ++ String (hex_digit (Z.shiftr n 4))
                (String (hex_digit (Z.land n 15)) EmptyString)
  else String c EmptyString.

Fixpoint escape_all (s : string) : string :=
  match s with
  | EmptyString => EmptyString
  | String c s' => escape c ++ escape_all s'
  end.

Definition quote (s : string) : string :=
  double_quote ++ escape_all s ++ double_quote.

(** [JSON.stringify(v, null, gap)] at the indentation [indent]; [gap] is
    the empty string for [JSON.stringify(v)]. *)
Fixpoint serialize (gap indent : string) (v : Json) : string :=
  let inner := indent ++ gap in
  let wrap (opening closing : string) (parts : list string) : string :=
    match parts with
    | [] => opening ++ closing
    | _ =>
        if falsy gap then opening ++ String.concat "," parts ++ closing
        else opening ++ String "010" inner
             ++ String.concat ("," ++ String "010" inner) parts
             ++ String "010" indent ++ closing
    end in
  match v with
  | JNull => "null"
  | JBool true => "true"
  | JBool false => "false"
  | JNumber n => Number_toString n
  | JString s => quote s
  | JArray items => wrap "[" "]" (map (serialize gap inner) items)
  | JObject properties =>
      wrap "{" "}"
        (map (fun kv => quote (fst kv) ++ ":"
                        ++ (if falsy gap then EmptyString else " ")
                        ++ serialize gap inner (snd kv)) properties)
  end.

Definition JSON_stringify (v : Json) : string :=
  serialize EmptyString EmptyString v.

Definition JSON_stringify_pretty (v : Json) (spaces : nat) : string :=
  serialize (pad_fill spaces " " " ") EmptyString v.

(** A property that is left out when its value is [undefined]. *)
Definition optional (key : string) (v : option string)
  : list (string * Json) :=
  match v with
  | Some s => [(key, JString s)]
  | None => []
  end.

(** ** Asynchronous functions *)

(** What is passed to [console.log] and [console.error]. *)
Inductive LogArg : Type :=
| text (s : string)
| json_arg (v : Json)
| number_arg (n : Z)
| boolean_arg (b : bool)
| thrown (e : exn).

Inductive console_method : Type := to_log | to_error.

Record RequestInit : Type := {
  method : string;
  headers : list (string * string);
  body : string
}.

Inductive effect : Type :=
| console (m : console_method) (args : list LogArg)
| fetch_call (url : string) (init : option RequestInit)
| getServerSession_call.

Module Response.
Record t : Type := {
  ok : bool;
  status : Z;
  statusText : string;
  json : completion Json
}.
End Response.

(** An asynchronous call yields the effects it performed and whether its
    promise was fulfilled ([Normal]) or rejected ([Throw]). *)
Definition Async (A : Type) : Type := list effect * completion A.

Definition resolve {A} (a : A) : Async A := ([], Normal a).
Definition reject {A} (e : exn) : Async A := ([], Throw e).
Definition perform (ef : effect) : Async unit := ([ef], Normal tt).
Definition await {A} (c : completion A) : Async A := ([], c).

Definition and_then {A B} (m : Async A) (k : A -> Async B) : Async B :=
  match m with
  | (t, Normal a) => let '(t', r) := k a in ((t ++ t')%list, r)
  | (t, Throw e) => (t, Throw e)
  end.

Definition try_catch_async {A} (body : Async A) (handler : exn -> Async A)
  : Async A :=
  match body with
  | (t, Normal a) => (t, Normal a)
  | (t, Throw e) => let '(t', r) := handler e in ((t ++ t')%list, r)
  end.

Declare Scope async_scope.
Delimit Scope async_scope with async.
Notation "x <- c ;; k" := (and_then c (fun x => k))
  (at level 61, c at next level, right associativity) : async_scope.
Notation "c ;; k" := (and_then c (fun _ => k))
  (at level 61, right associativity) : async_scope.

Definition effects {A} (m : Async A) : list effect := fst m.
Definition outcome {A} (m : Async A) : completion A := snd m.

(** The requests recorded in a list of effects. *)
Definition fetch_calls (t : list effect)
  : list (string * option RequestInit) :=
  flat_map (fun ef => match ef with
                      | fetch_call url init => [(url, init)]
                      | _ => []
                      end) t.

Definition last_effect (t : list effect) : option effect := hd_error (rev t).

(** The value of a header of a request. *)
Fixpoint header (name : string) (hs : list (string * string))
  : option string :=
  match hs with
  | [] => None
  | (k, v) :: rest => if String.eqb k name then Some v else header name rest
  end.

(** ** yoco.ts: checkouts and webhook registration *)

Module Checkout.
Record Metadata : Type := {
  orderId : string;
  orderNumber : string;
  customerEmail : string;
  customerName : option string
}.
Record Data : Type := {
  amount : Z;
  currency : string;
  metadata : Metadata;
  successUrl : option string;
  cancelUrl : option string
}.

Definition metadata_value (m : Metadata) : Json :=
  JObject ([("orderId", JString (orderId m));
            ("orderNumber", JString (orderNumber m));
            ("customerEmail", JString (customerEmail m))]
           ++ optional "customerName" (customerName m))%list.

Definition data_value (d : Data) : Json :=
  JObject ([("amount", JNumber (amount d));
            ("currency", JString (currency d));
            ("metadata", metadata_value (metadata d))]
           ++ optional "successUrl" (successUrl d)
           ++ optional "cancelUrl" (cancelUrl d))%list.
End Checkout.

Section Http.

Local Open Scope async_scope.

(** [fetch(url, init)]: the response, or the rejection of the request. *)
Variable fetch : string -> option RequestInit -> completion Response.t.

Variable config : YocoConfig.

Definition do_fetch (url : string) (init : option RequestInit)
  : Async Response.t :=
  perform (fetch_call url init) ;; await (fetch url init).

(** [v || fallback] inside a template literal. *)
Definition text_or (v : option Json) (fallback : string) : completion string :=
  match v with
  | Some w => if truthy v then ToString w else Normal fallback
  | None => Normal fallback
  end.

Definition checkouts_url : string :=
  "https://payments.yoco.com/api/checkouts".

Definition webhooks_url : string := "https://payments.yoco.com/api/webhooks".

(** The second argument of [fetch] in [createYocoCheckout]; [now] is the
    value [Date.now()] returns during the call. *)
Definition checkout_init (now : Z) (checkoutData : Checkout.Data)
  : RequestInit :=
  {| method := "POST";
     headers :=
       [("Authorization", "Bearer " ++ secretKey config);
        ("Content-Type", "application/json");
        ("Idempotency-Key",
         Checkout.orderId (Checkout.metadata checkoutData)
         ++ "-" ++ Number_toString now)];
     body := JSON_stringify (Checkout.data_value checkoutData) |}.

(** The second argument of [fetch] in [registerYocoWebhook]. *)
Definition webhook_init (webhookUrl : string) : RequestInit :=
  {| method := "POST";
     headers :=
       [("Authorization", "Bearer " ++ secretKey config);
        ("Content-Type", "application/json")];
     body := JSON_stringify (JObject [("url", JString webhookUrl)]) |}.

Definition createYocoCheckout (now : Z) (checkoutData : Checkout.Data)
  : Async Json :=
  try_catch_async
    (perform (console to_log [text "💳 Creating Yoco checkout:";
                           json_arg (Checkout.data_value checkoutData)]) ;;
     response <-
       do_fetch checkouts_url (Some (checkout_init now checkoutData)) ;;
     if negb (Response.ok response) then
       errorData <- await (Response.json response) ;;
       message <- await (get errorData "message") ;;
       detail <- await (text_or message (Response.statusText response)) ;;
       reject (Error ("Yoco checkout creation failed: " ++ detail))
     else
       checkout <- await (Response.json response) ;;
       perform (console to_log [text "✅ Yoco checkout created:";
                             json_arg checkout]) ;;
       resolve checkout)
    (fun e =>
       perform (console to_error [text "❌ Failed to create Yoco checkout:";
                               thrown e]) ;;
       reject e).

Definition registerYocoWebhook (webhookUrl : string) : Async Json :=
  try_catch_async
    (perform (console to_log [text "🔔 Registering Yoco webhook:";
                           text webhookUrl]) ;;
     response <- do_fetch webhooks_url (Some (webhook_init webhookUrl)) ;;
     if negb (Response.ok response) then
       errorData <- await (Response.json response) ;;
       message <- await (get errorData "message") ;;
       detail <- await (text_or message (Response.statusText response)) ;;
       reject (Error ("Webhook registration failed: " ++ detail))
     else
       webhook <- await (Response.json response) ;;
       perform (console to_log [text "✅ Yoco webhook registered:";
                             json_arg webhook]) ;;
       resolve webhook)
    (fun e =>
       perform (console to_error [text "❌ Failed to register Yoco webhook:";
                               thrown e]) ;;
       reject e).

End Http.

(** Surroundings for the examples: a network that is down, and one that
    answers every request with the given response. *)
Definition network_down (url : string) (init : option RequestInit)
  : completion Response.t :=
  Throw (TypeError "fetch failed").

Definition always_answers (response : Response.t)
  (url : string) (init : option RequestInit) : completion Response.t :=
  Normal response.

Definition created_response : Response.t :=
  {| Response.ok := true;
     Response.status := 200;
     Response.statusText := "OK";
     Response.json := Normal (JObject [("id", JString "ch_1")]) |}.

Definition refused_response : Response.t :=
  {| Response.ok := false;
     Response.status := 401;
     Response.statusText := "Unauthorized";
     Response.json :=
       Normal (JObject [("message", JString "Invalid API key")]) |}.

(** An error body whose [message] is an object with a property
    [toString]. *)
Definition unprintable_response : Response.t :=
  {| Response.ok := false;
     Response.status := 400;
     Response.statusText := "Bad Request";
     Response.json :=
       Normal (JObject [("message", JObject [("toString", JNull)])]) |}.

Definition example_checkout : Checkout.Data :=
  {| Checkout.amount := 2350;
     Checkout.currency := "ZAR";
     Checkout.metadata :=
       {| Checkout.orderId := "order-7";
          Checkout.orderNumber := "ORD-202611-0042";
          Checkout.customerEmail := "a@b.c";
          Checkout.customerName := None |};
     Checkout.successUrl := None;
     Checkout.cancelUrl := None |}.

Arguments Number_toString : simpl never.
Arguments JSON_stringify : simpl never.
Arguments JSON_stringify_pretty : simpl never.
Arguments ToString : simpl never.
Arguments text_or : simpl never.
Arguments get : simpl never.
Arguments truthy : simpl never.

(** ** The admin analytics route *)

Record User : Type := { role : option string }.

Record Session : Type := { user : option User }.

Record NextRequest : Type := { url : string }.

Module NextResponse.
Record t : Type := {
  body : Json;
  status : Z
}.

(** [NextResponse.json(body, { status })]; the status is 200 when no
    second argument is given. *)
Definition json (body : Json) (init : option Z) : t :=
  {| body := body;
     status := match init with Some s => s | None => 200 end |}.
End NextResponse.

(** [v || fallback] for a string that may be [null] or [undefined]. *)
Definition or_else (v : option string) (fallback : string) : string :=
  match v with
  | Some s => if falsy s then fallback else s
  | None => fallback
  end.

(** [session.user?.role] *)
Definition session_role (session : Session) : option string :=
  match user session with
  | Some u => role u
  | None => None
  end.

(** [a !== 'ADMIN'] *)
Definition not_admin (r : option string) : bool :=
  match r with
  | Some s => negb (String.eqb s "ADMIN")
  | None => true
  end.

(** The responses of the handler. *)
Definition unauthorized_response : NextResponse.t :=
  NextResponse.json
    (JObject [("error",
               JString "Unauthorized - Please login to view analytics")])
    (Some 401).

Definition forbidden_response : NextResponse.t :=
  NextResponse.json
    (JObject [("error", JString "Forbidden - Admin access required")])
    (Some 403).

Definition backend_failure_response (response : Response.t)
  : NextResponse.t :=
  NextResponse.json
    (JObject
       [("success", JBool false);
        ("error", JString "Failed to fetch analytics from backend");
        ("details",
         JString ("Backend returned "
                  ++ Number_toString (Response.status response)
                  ++ ": " ++ Response.statusText response))])
    (Some 500).

Definition backend_error_response (message : option Json) : NextResponse.t :=
  NextResponse.json
    (JObject
       [("success", JBool false);
        ("error", JString "Backend returned error");
        ("details",
         match message with
         | Some m =>
             if truthy message then m else JString "Unknown backend error"
         | None => JString "Unknown backend error"
         end)])
    (Some 500).

Definition success_response (data : option Json) : NextResponse.t :=
  NextResponse.json
    (JObject
       ([("success", JBool true)]
        ++ match data with
           | Some d => [("data", d)]
           | None => []
           end
        ++ [("source", JString "backend")])%list)
    None.

Definition internal_error_response : NextResponse.t :=
  NextResponse.json
    (JObject [("error",
               JString "Internal server error - failed to fetch analytics")])
    (Some 500).

(** The address of the backend for a [period] parameter. *)
Definition analytics_url (env : string -> option string)
  (period_param : option string) : string :=
  or_else (env "NEXT_PUBLIC_BACKEND_URL") "http://localhost:5000"
  ++ "/api/visitors/analytics?period=" ++ or_else period_param "7d".

Section AnalyticsRoute.

Local Open Scope async_scope.

(** The surroundings of the handler: [process.env], what
    [getServerSession(authOptions)] resolves to, the query parameter
    [new URL(url).searchParams.get(name)] (a TypeError for a text that is
    no URL), and [fetch]. *)
Variable env : string -> option string.
Variable getServerSession : completion (option Session).
Variable searchParams_get : string -> string -> completion (option string).
Variable fetch : string -> option RequestInit -> completion Response.t.

Definition GET (request : NextRequest) : Async NextResponse.t :=
  try_catch_async
    (perform (console to_log
                [text "📊 GET /api/admin/visitors/analytics - Route hit!"]) ;;
     session <- (perform getServerSession_call ;; await getServerSession) ;;
     match session with
     | None => resolve unauthorized_response
     | Some session =>
         if not_admin (session_role session) then resolve forbidden_response
         else
           period_param <- await (searchParams_get (url request) "period") ;;
           let period := or_else period_param "7d" in
           perform (console to_log
                      [text ("🔍 Admin fetching visitor analytics "
                             ++ "from backend...")]) ;;
           let backendUrl :=
             or_else (env "NEXT_PUBLIC_BACKEND_URL") "http://localhost:5000" in
           perform (console to_log [text "🔍 Backend URL:";
                                    text backendUrl]) ;;
           perform (console to_log
                      [text "🔍 Full URL:";
                       text (backendUrl ++ "/api/visitors/analytics?period="
                                        ++ period)]) ;;
           response <-
             do_fetch fetch
               (backendUrl ++ "/api/visitors/analytics?period=" ++ period)
               None ;;
           perform (console to_log [text "🔍 Backend response status:";
                                 number_arg (Response.status response)]) ;;
           perform (console to_log [text "🔍 Backend response ok:";
                                 boolean_arg (Response.ok response)]) ;;
           if negb (Response.ok response) then
             perform (console to_error
                        [text "❌ Backend API error:";
                         number_arg (Response.status response);
                         text (Response.statusText response)]) ;;
             resolve (backend_failure_response response)
           else
             backendData <- await (Response.json response) ;;
             perform (console to_log
                        [text "🔍 Backend response data:";
                         text (JSON_stringify_pretty backendData 2)]) ;;
             success <- await (get backendData "success") ;;
             if negb (truthy success) then
               perform (console to_error [text "❌ Backend returned error:";
                                       json_arg backendData]) ;;
               message <- await (get backendData "message") ;;
               resolve (backend_error_response message)
             else
               perform (console to_log
                          [text ("✅ Visitor analytics fetched successfully "
                                 ++ "from backend")]) ;;
               data <- await (get backendData "data") ;;
               resolve (success_response data)
     end)
    (fun e =>
       perform (console to_error [text "❌ Admin visitor analytics API error:";
                               thrown e]) ;;
       resolve internal_error_response).

End AnalyticsRoute.

(** Unfolds an asynchronous call down to its effects and outcome. *)
Ltac run_async :=
  unfold createYocoCheckout, registerYocoWebhook, GET, do_fetch,
    try_catch_async, and_then, resolve, reject, perform, await, effects,
    outcome, fetch_calls;
  simpl.

(** Surroundings for the examples. *)
Definition admin_session : Session :=
  {| user := Some {| role := Some "ADMIN" |} |}.

Definition no_parameters (url name : string) : completion (option string) :=
  Normal None.

Definition analytics_answer : Response.t :=
  {| Response.ok := true;
     Response.status := 200;
     Response.statusText := "OK";
     Response.json :=
       Normal (JObject [("success", JBool true);
                        ("data", JObject [("visits", JNumber 12)])]) |}.

Definition no_env (key : string) : option string := None.

(** The points at which the handler can fail with an exception, for an
    administrator's session unless the session itself cannot be read:
    reading the session, parsing the address, the request, reading the
    body, and reading [success] off the body [null]. *)
Inductive analytics_failure
  (env : string -> option string)
  (getServerSession : completion (option Session))
  (searchParams_get : string -> string -> completion (option string))
  (fetch : string -> option RequestInit -> completion Response.t)
  (request : NextRequest) (e : exn) : Prop :=
| session_failure :
    getServerSession = Throw e ->
    analytics_failure env getServerSession searchParams_get fetch request e
| address_failure session :
    getServerSession = Normal (Some session) ->
    session_role session = Some "ADMIN" ->
    searchParams_get (url request) "period" = Throw e ->
    analytics_failure env getServerSession searchParams_get fetch request e
| request_failure session period :
    getServerSession = Normal (Some session) ->
    session_role session = Some "ADMIN" ->
    searchParams_get (url request) "period" = Normal period ->
    fetch (analytics_url env period) None = Throw e ->
    analytics_failure env getServerSession searchParams_get fetch request e
| body_failure session period response :
    getServerSession = Normal (Some session) ->
    session_role session = Some "ADMIN" ->
    searchParams_get (url request) "period" = Normal period ->
    fetch (analytics_url env period) None = Normal response ->
    Response.ok response = true ->
    Response.json response = Throw e ->
    analytics_failure env getServerSession searchParams_get fetch request e
| null_body_failure session period response :
    getServerSession = Normal (Some session) ->
    session_role session = Some "ADMIN" ->
    searchParams_get (url request) "period" = Normal period ->
    fetch (analytics_url env period) None = Normal response ->
    Response.ok response = true ->
    Response.json response = Normal JNull ->
    get JNull "success" = Throw e ->
    analytics_failure env getServerSession searchParams_get fetch request e.

(** The backend answered an administrator's request with an ok response
    whose body has a truthy [success] and the property [data]. *)
Definition backend_success
  (env : string -> option string)
  (getServerSession : completion (option Session))
  (searchParams_get : string -> string -> completion (option string))
  (fetch : string -> option RequestInit -> completion Response.t)
  (request : NextRequest) (data : option Json) : Prop :=
  exists session period response backendData success,
    getServerSession = Normal (Some session)
    /\ session_role session = Some "ADMIN"
    /\ searchParams_get (url request) "period" = Normal period
    /\ fetch (analytics_url env period) None = Normal response
    /\ Response.ok response = true
    /\ Response.json response = Normal backendData
    /\ get backendData "success" = Normal success
    /\ truthy success = true
    /\ get backendData "data" = Normal data.

(** Splits a run of [GET] into its paths. *)
Ltac route_cases gss sp fetch :=
  run_async;
  destruct gss as [[?session|]|?e]; simpl;
  [ destruct (not_admin (session_role _)) eqn:?Hadmin; simpl;
    [ | destruct (sp _ _) as [?p|?e] eqn:?Hperiod; simpl;
        [ destruct (fetch _ _) as [?response|?e] eqn:?Hfetch; simpl;
          [ destruct (Response.ok _) eqn:?Hok; simpl;
            [ destruct (Response.json _) as [?v|?e] eqn:?Hjson; simpl;
              [ destruct (get _ "success") as [?success|?e] eqn:?Hsuccess;
                simpl;
                [ destruct (truthy _) eqn:?Htruthy; simpl;
                  [ destruct (get _ "data") as [?data|?e] eqn:?Hdata; simpl
                  | destruct (get _ "message") as [?message|?e] eqn:?Hmessage;
                    simpl ]
                | ]
              | ]
            | ]
          | ]
        | ] ]
  | | ].

(** * Properties *)

(** ** Test vectors *)

Example sha256_abc :
  hex (Sha256.sha256 (bytes_of_string "abc"))
  = "ba7816bf8f01cfea414140de5dae2223b00361a396177a9cb410ff61f20015ad"%string.
Proof. vm_compute. reflexivity. Qed.

Example sha256_two_blocks :
  hex (Sha256.sha256
         (bytes_of_string
            "abcdbcdecdefdefgefghfghighijhijkijkljklmklmnlmnomnopnopq"))
  = "248d6a61d20638b8e5c026930c3e6039a33ce45964ff2167f6ecedd419db06c1"%string.
Proof. vm_compute. reflexivity. Qed.

(** RFC 4231, test cases 2 and 6 (a key longer than a block). *)
Example hmac_rfc4231_2 :
  hex (Sha256.hmac (bytes_of_string "Jefe")
         (bytes_of_string "what do ya want for nothing?"))
  = "5bdcc146bf60754e6a042426089575c75a003f089d2739839dec58b964ec3843"%string.
Proof. vm_compute. reflexivity. Qed.

Example hmac_rfc4231_6 :
  hex (Sha256.hmac (repeat xaa 131)
         (bytes_of_string
            "Test Using Larger Than Block-Size Key - Hash Key First"))
  = "60e431591ee0b67f0d8a26aacbf5b77f8e0bc6213728c5140546040f0ee37f54"%string.
Proof. vm_compute. reflexivity. Qed.

Example base64_decode_fakesecretkey :
  Base64.decode "ZmFrZXNlY3JldGtleQ==" = bytes_of_string "fakesecretkey".
Proof. vm_compute. reflexivity. Qed.

Example base64_encode_fakesecretkey :
  Base64.encode (bytes_of_string "fakesecretkey") = "ZmFrZXNlY3JldGtleQ==".
Proof. vm_compute. reflexivity. Qed.

(** Characters outside the alphabet are skipped, [=] ends the text, and the
    URL-safe characters are read as [+] and [/]. *)
Example base64_decode_lenient :
  Base64.decode "Zm Fr!ZQ==ignored" = bytes_of_string "fake"
  /\ Base64.decode "-_-_" = Base64.decode "+/+/".
Proof. split; vm_compute; reflexivity. Qed.

(** A character above U+00FF is read by its code unit modulo 256: U+0141
    as [A], and the first surrogate of U+1F600 as [=], which ends the
    text. *)
Example base64_decode_units :
  Base64.units "QUJŁ" = "QUJA"
  /\ Base64.decode "QUJŁ" = bytes_of_string "AB@"
  /\ Base64.decode "ZmFrZXNl😀Y3JldGtleQ==" = bytes_of_string "fakese".
Proof. split_all; vm_compute; reflexivity. Qed.

Example split_examples :
  split "," "v1,abc," = ["v1"; "abc"; EmptyString]
  /\ split " " EmptyString = [EmptyString]
  /\ split " " " v1,abc" = [EmptyString; "v1,abc"]
  /\ split "_" "whsec_QUJD_0VG" = ["whsec"; "QUJD"; "0VG"].
Proof. repeat split. Qed.

Example parseInt_examples :
  map parseInt ["1700000000"; "1700000000abc"; " 42"; "-5"; "+7.5"; "1e3";
                "08"; "0x1F"; "-0X10"; "0x"; "abc"; EmptyString;
                "9007199254740993"; "100000000000000000000000"]
  = [Finite 1700000000; Finite 1700000000; Finite 42; Finite (-5); Finite 7;
     Finite 1; Finite 8; Finite 31; Finite (-16); NaN; NaN; NaN;
     Finite 9007199254740992; Finite 99999999999999991611392].
Proof. vm_compute. reflexivity. Qed.

(** ** Strings *)

Lemma occurs_app c s t : occurs c (s ++ t) = occurs c s || occurs c t.
Proof.
  induction s as [|a s IH]; simpl; [reflexivity|].
  now rewrite IH, orb_assoc.
Qed.

Lemma split_cons sep s : exists h t, split sep s = h :: t.
Proof.
  destruct s as [|c s]; simpl; [now eauto|].
  destruct (Ascii.eqb c sep); [now eauto|].
  destruct (split sep s); eauto.
Qed.

Lemma split_before sep s : exists t, split sep s = before sep s :: t.
Proof.
  induction s as [|c s [t IH]]; simpl; [now eauto|].
  destruct (Ascii.eqb c sep); [now eauto|].
  rewrite IH. eauto.
Qed.

Lemma split_absent sep s : occurs sep s = false -> split sep s = [s].
Proof.
  induction s as [|c s IH]; simpl; [reflexivity|].
  intros H. apply orb_false_iff in H as [Hc Hs].
  now rewrite Hc, (IH Hs).
Qed.

Lemma split_app sep a b :
  occurs sep a = false -> split sep (a ++ String sep b) = a :: split sep b.
Proof.
  induction a as [|c a IH]; simpl.
  - intros _. now rewrite Ascii.eqb_refl.
  - intros H. apply orb_false_iff in H as [Hc Ha].
    now rewrite Hc, (IH Ha).
Qed.

Lemma before_absent sep s : occurs sep s = false -> before sep s = s.
Proof.
  induction s as [|c s IH]; simpl; [reflexivity|].
  intros H. apply orb_false_iff in H as [Hc Hs].
  now rewrite Hc, (IH Hs).
Qed.

Lemma before_app sep a b :
  occurs sep a = false -> before sep (a ++ String sep b) = a.
Proof.
  induction a as [|c a IH]; simpl.
  - intros _. now rewrite Ascii.eqb_refl.
  - intros H. apply orb_false_iff in H as [Hc Ha].
    now rewrite Hc, (IH Ha).
Qed.

Lemma app_empty_r (s : string) : s ++ EmptyString = s.
Proof. induction s as [|c s IH]; simpl; [reflexivity | now rewrite IH]. Qed.

Lemma app_assoc (a b c : string) : (a ++ b) ++ c = a ++ b ++ c.
Proof. induction a as [|x a IH]; simpl; [reflexivity | now rewrite IH]. Qed.

Lemma length_app (a b : string) :
  String.length (a ++ b) = (String.length a + String.length b)%nat.
Proof. induction a as [|x a IH]; simpl; [reflexivity | now rewrite IH]. Qed.

Lemma bytes_of_string_length s :
  List.length (bytes_of_string s) = String.length s.
Proof.
  unfold bytes_of_string, list_byte_of_string.
  rewrite length_map.
  induction s as [|c s IH]; simpl; [reflexivity | now rewrite IH].
Qed.

Lemma bytes_of_string_inj s t : bytes_of_string s = bytes_of_string t -> s = t.
Proof.
  unfold bytes_of_string. intros H.
  rewrite <- (string_of_list_byte_of_string s), H.
  apply string_of_list_byte_of_string.
Qed.

Lemma bytes_eqb_true a b : bytes_eqb a b = true <-> a = b.
Proof.
  unfold bytes_eqb. destruct (list_eq_dec byte_eq_dec a b); split; congruence.
Qed.

(** ** Base64 text *)

Lemma is_base64_char_digit n : is_base64_char (Base64.digit n) = true.
Proof.
  assert (H : Forall (fun c => is_base64_char c = true) Base64.alphabet)
    by (vm_compute; repeat constructor).
  rewrite Forall_forall in H. apply H.
  unfold Base64.digit. apply nth_In.
  change (List.length Base64.alphabet) with 64%nat.
  pose proof (Z.mod_pos_bound n 64). lia.
Qed.

Lemma list_ind3 {A} (P : list A -> Prop) :
  P [] -> (forall a, P [a]) -> (forall a b, P [a; b]) ->
  (forall a b c l, P l -> P (a :: b :: c :: l)) ->
  forall l, P l.
Proof.
  intros H0 H1 H2 H3.
  fix IH 1.
  intros [|a [|b [|c l]]];
    [apply H0 | apply H1 | apply H2 | apply H3, IH].
Qed.

Lemma encode_is_base64 bs : is_base64 (Base64.encode bs) = true.
Proof.
  induction bs as [|a|a b|a b c l IH] using list_ind3;
    simpl; rewrite ?is_base64_char_digit, ?IH; reflexivity.
Qed.

Lemma is_base64_occurs c s :
  is_base64_char c = false -> is_base64 s = true -> occurs c s = false.
Proof.
  intros Hc. induction s as [|a s IH]; simpl; [reflexivity|].
  intros H. apply andb_true_iff in H as [Ha Hs].
  rewrite (IH Hs), orb_false_r.
  destruct (Ascii.eqb_spec a c); [congruence | reflexivity].
Qed.

(** ** The verdict of [verifyWebhookSignature] *)

Lemma falsy_secretPart config :
  falsy (webhookSecret config) = true -> secretPart config = None.
Proof.
  unfold secretPart.
  destruct (webhookSecret config); [reflexivity | discriminate].
Qed.

Lemma bytes_eqb_string s t :
  bytes_eqb (bytes_of_string s) (bytes_of_string t) = String.eqb s t.
Proof.
  destruct (String.eqb_spec s t) as [->|Hne].
  - now apply bytes_eqb_true.
  - destruct (bytes_eqb _ _) eqn:E; [|reflexivity].
    apply bytes_eqb_true, bytes_of_string_inj in E. contradiction.
Qed.

Lemma length_eqb_false s t :
  Nat.eqb (String.length s) (String.length t) = false -> String.eqb s t = false.
Proof.
  intros H. destruct (String.eqb_spec s t) as [->|]; [|reflexivity].
  now rewrite Nat.eqb_refl in H.
Qed.

Lemma verify_result hmac config id ts body header :
  result (verifyWebhookSignature hmac config id ts body header)
  = Normal (verdict hmac config id ts body header).
Proof.
  unfold verdict, expectedSignature, primarySignature.
  destruct (falsy (webhookSecret config)) eqn:Hs.
  - rewrite (falsy_secretPart _ Hs). run. now rewrite Hs.
  - run. rewrite Hs. unfold secretPart.
    destruct (index (split "_" (webhookSecret config)) 1) as [part|]; simpl;
      [|reflexivity].
    destruct (hmac _ _) as [digest|e]; simpl; [|reflexivity].
    destruct (split_cons " " header) as (entry & t & ->). simpl.
    change (index (entry :: t) 0) with (Some entry). simpl.
    destruct (index (split "," entry) 1) as [p|]; simpl; [|reflexivity].
    rewrite !bytes_of_string_length, bytes_eqb_string.
    destruct (Nat.eqb _ _) eqn:Hlen; simpl.
    + reflexivity.
    + now rewrite (length_eqb_false _ _ Hlen).
Qed.

Lemma verify_true_iff hmac config id ts body header :
  result (verifyWebhookSignature hmac config id ts body header) = Normal true
  <-> exists e, expectedSignature hmac config id ts body = Some e
                /\ primarySignature header = Some e.
Proof.
  rewrite verify_result. unfold verdict.
  destruct (expectedSignature _ _ _ _ _) as [e|];
    destruct (primarySignature header) as [p|].
  - split.
    + intros H. injection H as H. apply String.eqb_eq in H. subst. eauto.
    + intros (e' & [= ->] & [= ->]). now rewrite String.eqb_refl.
  - split; [easy | intros (e' & _ & H); easy].
  - split; [easy | intros (e' & H & _); easy].
  - split; [easy | intros (e' & H & _); easy].
Qed.

Lemma verify_false_iff hmac config id ts body header :
  result (verifyWebhookSignature hmac config id ts body header) = Normal false
  <-> ~ exists e, expectedSignature hmac config id ts body = Some e
                  /\ primarySignature header = Some e.
Proof.
  rewrite <- verify_true_iff, verify_result.
  destruct (verdict _ _ _ _ _ _); split; congruence.
Qed.

(** ** What [split] and indexing select *)

Lemma index_split_0 sep s : index (split sep s) 0 = Some (before sep s).
Proof. destruct (split_before sep s) as [t ->]. reflexivity. Qed.

Lemma index_split_1 sep s :
  index (split sep s) 1 = option_map (before sep) (after sep s).
Proof.
  induction s as [|c s IH]; simpl; [reflexivity|].
  destruct (Ascii.eqb c sep).
  - change (index (EmptyString :: split sep s) 1) with (index (split sep s) 0).
    apply index_split_0.
  - rewrite <- IH. destruct (split_cons sep s) as (h & t & ->). reflexivity.
Qed.

Lemma before_app_absent sep a b :
  occurs sep a = false -> before sep (a ++ b) = a ++ before sep b.
Proof.
  induction a as [|c a IH]; simpl; [reflexivity|].
  intros H. apply orb_false_iff in H as [Hc Ha].
  now rewrite Hc, (IH Ha).
Qed.

Lemma after_app sep a b :
  occurs sep a = false -> after sep (a ++ String sep b) = Some b.
Proof.
  induction a as [|c a IH]; simpl.
  - intros _. now rewrite Ascii.eqb_refl.
  - intros H. apply orb_false_iff in H as [Hc Ha].
    now rewrite Hc, (IH Ha).
Qed.

Lemma after_absent sep s : occurs sep s = false -> after sep s = None.
Proof.
  induction s as [|c s IH]; simpl; [reflexivity|].
  intros H. apply orb_false_iff in H as [Hc Hs].
  now rewrite Hc, (IH Hs).
Qed.

(** The received signature is the text between the first and the second
    comma of the text before the first space. *)
Lemma primarySignature_spec header :
  primarySignature header
  = option_map (before ",") (after "," (before " " header)).
Proof.
  unfold primarySignature. rewrite index_split_0. apply index_split_1.
Qed.

Lemma secretPart_spec config :
  secretPart config
  = option_map (before "_") (after "_" (webhookSecret config)).
Proof. apply index_split_1. Qed.

Lemma primarySignature_tagged v x :
  occurs " " v = false -> occurs "," v = false ->
  primarySignature (v ++ String "," x) = Some (before "," (before " " x)).
Proof.
  intros Hs Hc. rewrite primarySignature_spec.
  rewrite (before_app_absent " " v _ Hs). simpl before.
  now rewrite (after_app "," v _ Hc).
Qed.

Lemma secretPart_prefixed config p r :
  webhookSecret config = p ++ String "_" r ->
  occurs "_" p = false -> occurs "_" r = false ->
  secretPart config = Some r.
Proof.
  intros H Hp Hr. rewrite secretPart_spec, H, (after_app "_" p r Hp). simpl.
  now rewrite before_absent.
Qed.

Lemma secretPart_absent config :
  occurs "_" (webhookSecret config) = false -> secretPart config = None.
Proof.
  intros H. now rewrite secretPart_spec, after_absent.
Qed.

(** The call depends on the header through the received signature only. *)
Lemma verify_header_congr hmac config id ts body h1 h2 :
  primarySignature h1 = primarySignature h2 ->
  verifyWebhookSignature hmac config id ts body h1
  = verifyWebhookSignature hmac config id ts body h2.
Proof.
  unfold primarySignature.
  destruct (split_cons " " h1) as (e1 & t1 & E1).
  destruct (split_cons " " h2) as (e2 & t2 & E2).
  rewrite E1, E2.
  change (index (e1 :: t1) 0) with (Some e1).
  change (index (e2 :: t2) 0) with (Some e2).
  intros H. run. rewrite E1, E2.
  change (index (e1 :: t1) 0) with (Some e1).
  change (index (e2 :: t2) 0) with (Some e2).
  simpl. now rewrite H.
Qed.

(** What the call does on its way to the verdict. *)
Lemma verify_no_secret hmac config id ts body header :
  webhookSecret config = EmptyString ->
  verifyWebhookSignature hmac config id ts body header
  = ([console_warn ["⚠️ Missing webhook secret"]], Normal false).
Proof. intros H. run. now rewrite H. Qed.

Lemma is_base64_no_underscore s : is_base64 s = true -> occurs "_" s = false.
Proof. now apply is_base64_occurs. Qed.

(** ** Doubles *)

Lemma isSafeInteger_spec z : isSafeInteger z = true <-> Z.abs z < 2 ^ 53.
Proof. apply Z.ltb_lt. Qed.

Lemma round_to_double_safe z :
  isSafeInteger z = true -> round_to_double z = Finite z.
Proof. unfold isSafeInteger, round_to_double. now intros ->. Qed.

(** Rounding an integer that is not safe gives a double of magnitude 2^53
    or more, or an infinity. *)
Lemma round_to_double_large z :
  isSafeInteger z = false ->
  (exists s, round_to_double z = Infinity s)
  \/ exists y, round_to_double z = Finite y /\ 2 ^ 53 <= Z.abs y.
Proof.
  unfold isSafeInteger, round_to_double. intros H. cbv zeta. rewrite H.
  apply Z.ltb_ge in H.
  set (n := Z.abs z) in *.
  set (shift := Z.log2 n - 52).
  set (q := Z.shiftr n shift).
  set (up := (_ <? _) || _).
  set (q' := if up then q + 1 else q).
  destruct (2 ^ 1024 <=? Z.shiftl q' shift); [left; eauto|].
  right. eexists. split; [reflexivity|].
  assert (Hn : 0 < n) by lia.
  destruct (Z.log2_spec n Hn) as [Hlo Hhi].
  assert (Hlog : 53 <= Z.log2 n).
  { apply Z.log2_le_pow2; lia. }
  assert (Hshift : 1 <= shift) by (unfold shift; lia).
  assert (Hq : 2 ^ 52 <= q).
  { unfold q. rewrite Z.shiftr_div_pow2 by lia.
    apply Z.div_le_lower_bound; [lia|].
    rewrite <- Z.pow_add_r by lia.
    replace (shift + 52) with (Z.log2 n) by (unfold shift; lia). exact Hlo. }
  assert (Hq' : q <= q') by (unfold q'; destruct up; lia).
  rewrite Z.shiftl_mul_pow2 by lia.
  assert (Hp : 2 <= 2 ^ shift).
  { change 2 with (2 ^ 1) at 1. apply Z.pow_le_mono_r; lia. }
  assert (Hs : Z.abs (Z.sgn z) = 1) by (unfold n in Hn; lia).
  rewrite Z.abs_mul, Hs. rewrite Z.abs_eq by nia.
  change (2 ^ 53) with (2 ^ 52 * 2). nia.
Qed.

(** Whether the magnitude of a rounded integer is within a safe bound is
    decided by the integer itself. *)
Lemma window_check x thr :
  isSafeInteger thr = true ->
  num_le (Math_abs (round_to_double x)) (Finite thr) = (Z.abs x <=? thr).
Proof.
  intros Hthr. destruct (isSafeInteger x) eqn:Hx.
  - now rewrite (round_to_double_safe _ Hx).
  - apply isSafeInteger_spec in Hthr.
    assert (Hbig : 2 ^ 53 <= Z.abs x) by (apply Z.ltb_ge; exact Hx).
    assert (Hgt : (Z.abs x <=? thr) = false) by (apply Z.leb_gt; lia).
    rewrite Hgt.
    destruct (round_to_double_large x Hx) as [[s ->] | (y & -> & Hy)].
    + reflexivity.
    + simpl. apply Z.leb_gt. lia.
Qed.

(** Rounding agrees with the binary64 format of the Standard Library, and
    the product and the difference with its operations, on integers around
    the powers of two, on powers of ten and on powers of three. *)
Example round_to_double_binary64 :
  forallb (fun z => number_eqb (round_to_double z) (of_binary64 (binary64 z)))
    sample_integers = true
  /\ forallb
       (fun z =>
          number_eqb (num_mul (round_to_double z) (Finite 1000))
            (of_binary64 (SFmul 53 1024 (binary64 z) (binary64 1000)))
          && number_eqb
               (num_sub (Finite 1700000000000) (round_to_double z))
               (of_binary64
                  (SFsub 53 1024 (binary64 1700000000000) (binary64 z))))
       sample_integers = true
  /\ round_to_double (2 ^ 53 + 1) = Finite (2 ^ 53)
  /\ round_to_double (2 ^ 53 + 3) = Finite (2 ^ 53 + 4)
  /\ round_to_double (10 ^ 400) = Infinity false.
Proof. split_all; vm_compute; reflexivity. Qed.

(** [Infinity <= Infinity]: a timestamp of 400 digits is accepted under a
    threshold of 10^308 minutes. *)
Example validate_overflow :
  result (validateWebhookTimestamp 1700000000000
            (string_of_list_ascii (repeat "9"%char 400))
            (Some (round_to_double (10 ^ 308)))) = Normal true.
Proof. vm_compute. reflexivity. Qed.

(** ** The verdict of [validateWebhookTimestamp] *)

Lemma validate_run currentTime timestamp m :
  validateWebhookTimestamp currentTime timestamp m
  = let isValid :=
      num_le (Math_abs (num_sub (Finite currentTime)
                          (num_mul (parseInt timestamp) (Finite 1000))))
        (thresholdMs m) in
    ([console_log ["⏰ Webhook timestamp validation:";
                   if isValid then "✅ Valid" else "❌ Invalid"]],
     Normal isValid).
Proof. reflexivity. Qed.

Lemma validate_returns currentTime timestamp m :
  exists b,
    result (validateWebhookTimestamp currentTime timestamp m) = Normal b.
Proof. rewrite validate_run. simpl. eauto. Qed.

Lemma validate_result_nan currentTime timestamp m :
  parseInt timestamp = NaN ->
  result (validateWebhookTimestamp currentTime timestamp m) = Normal false.
Proof. intros H. rewrite validate_run, H. reflexivity. Qed.

Lemma parseInt_nan s : parseInt s = NaN <-> parsed_integer s = None.
Proof.
  unfold parseInt. destruct (parsed_integer s) as [n|]; [|easy].
  split; [|discriminate].
  destruct (isSafeInteger n) eqn:Hn.
  - now rewrite (round_to_double_safe _ Hn).
  - destruct (round_to_double_large n Hn) as [[s' ->] | (y & -> & _)];
      discriminate.
Qed.

Lemma isSafeInteger_factor a b :
  b <> 0 -> isSafeInteger (a * b) = true -> isSafeInteger a = true.
Proof.
  rewrite !isSafeInteger_spec, Z.abs_mul. intros Hb H.
  assert (1 <= Z.abs b) by lia. nia.
Qed.

Lemma thresholdMs_minutes m :
  isSafeInteger (m * 60 * 1000) = true ->
  thresholdMs (minutes m) = Finite (m * 60 * 1000).
Proof.
  intros H. unfold thresholdMs, minutes, num_mul.
  rewrite (round_to_double_safe (m * 60))
    by (now apply (isSafeInteger_factor _ 1000)).
  now apply round_to_double_safe.
Qed.

(** Within the safe integers the verdict is the comparison of integers. *)
Lemma validate_result currentTime timestamp t m thr :
  parsed_integer timestamp = Some t ->
  isSafeInteger (t * 1000) = true ->
  thresholdMs m = Finite thr ->
  isSafeInteger thr = true ->
  result (validateWebhookTimestamp currentTime timestamp m)
  = Normal (Z.abs (currentTime - t * 1000) <=? thr).
Proof.
  intros Hp Ht Hm Hthr. rewrite validate_run. simpl. f_equal.
  unfold parseInt. rewrite Hp, Hm.
  rewrite (round_to_double_safe t) by (now apply (isSafeInteger_factor _ 1000)).
  unfold num_mul at 1. rewrite (round_to_double_safe _ Ht).
  unfold num_sub. now apply window_check.
Qed.

(** ** The run of [verifyWebhookSignature] *)

Lemma verify_run hmac config id ts body header :
  verifyWebhookSignature hmac config id ts body header
  = verify_outcome hmac config id ts body header.
Proof.
  unfold verify_outcome, primarySignature, secretPart.
  destruct (split_cons " " header) as (entry & t & E).
  run. rewrite E. change (index (entry :: t) 0) with (Some entry).
  destruct (falsy (webhookSecret config)); [reflexivity|].
  destruct (index (split "_" (webhookSecret config)) 1) as [part|]; simpl;
    [|reflexivity].
  destruct (hmac _ _) as [digest|e]; simpl; [|reflexivity].
  destruct (index (split "," entry) 1) as [p|]; simpl; [|reflexivity].
  destruct (Nat.eqb _ _); reflexivity.
Qed.

(** The call looks at the configuration through the key alone. *)
Lemma verify_key_congr hmac config1 config2 id ts body header :
  falsy (webhookSecret config1) = falsy (webhookSecret config2) ->
  option_map Base64.decode (secretPart config1)
  = option_map Base64.decode (secretPart config2) ->
  verifyWebhookSignature hmac config1 id ts body header
  = verifyWebhookSignature hmac config2 id ts body header.
Proof.
  intros Hf Hk. rewrite !verify_run. unfold verify_outcome.
  now rewrite Hf, Hk.
Qed.

(** ** The module as it loads *)

Lemma secretPart_falsy config part :
  secretPart config = Some part -> falsy (webhookSecret config) = false.
Proof.
  intros H. destruct (falsy (webhookSecret config)) eqn:E; [|reflexivity].
  rewrite (falsy_secretPart _ E) in H. discriminate.
Qed.

Lemma secretPart_remainder config prefix remainder :
  webhookSecret config = prefix ++ String "_" remainder ->
  occurs "_" prefix = false ->
  secretPart config = Some (before "_" remainder).
Proof.
  intros H Hp. now rewrite secretPart_spec, H, (after_app "_" prefix _ Hp).
Qed.

(** With a key at hand the call ends at [crypto.createHmac]: the TypeError
    is caught and logged, and the call returns false. *)
Lemma verify_as_loaded config id ts body header part :
  secretPart config = Some part ->
  verifyWebhookSignature globalThis_crypto config id ts body header
  = ([console_error signature_error_label not_a_function], Normal false).
Proof.
  intros H. rewrite verify_run. unfold verify_outcome.
  now rewrite (secretPart_falsy _ _ H), H.
Qed.

Lemma expectedSignature_as_loaded config id ts body :
  expectedSignature globalThis_crypto config id ts body = None.
Proof. unfold expectedSignature. now destruct (secretPart config). Qed.

Lemma verify_as_loaded_false config id ts body header :
  result (verifyWebhookSignature globalThis_crypto config id ts body header)
  = Normal false.
Proof.
  rewrite verify_result. unfold verdict.
  now rewrite expectedSignature_as_loaded.
Qed.

(** ** The provider's request *)

(** C1.  As the module loads, a request signed as the provider signs it is
    rejected.  With a secret [whsec_<base64>] and a header whose first entry
    is [v1,] followed by the base64 HMAC-SHA256 of [id.timestamp.body] under
    the decoded secret, the call ends at [crypto.createHmac], which the
    global [crypto] does not have: the TypeError is logged and the call
    returns false.  So it is for the provider's scenario, whose secret
    decodes to [fakesecretkey] and whose header carries the HMAC of
    [evt_1.1700000000.{"type":"payment.succeeded"}]. *)
Theorem signed_request_rejected :
  (forall config b64 id ts body rest,
      webhookSecret config = "whsec_" ++ b64 ->
      verifyWebhookSignature globalThis_crypto config id ts body
        ("v1," ++ signature_of (Base64.decode b64) id ts body ++ rest)
      = ([console_error signature_error_label not_a_function], Normal false))
  /\ Base64.decode "ZmFrZXNlY3JldGtleQ==" = bytes_of_string "fakesecretkey"
  /\ signature_of (bytes_of_string "fakesecretkey")
       "evt_1" "1700000000" scenario_body = scenario_signature
  /\ verifyWebhookSignature globalThis_crypto scenario_config
       "evt_1" "1700000000" scenario_body ("v1," ++ scenario_signature)
     = ([console_error signature_error_label not_a_function], Normal false).
Proof.
  split; [|split_all; vm_compute; reflexivity].
  intros config b64 id ts body rest Hsecret.
  apply verify_as_loaded with (part := before "_" b64).
  now apply (secretPart_remainder config "whsec" b64).
Qed.

Lemma signed_request_rejected_witness :
  verifyWebhookSignature globalThis_crypto scenario_config
    "evt_1" "1700000000" scenario_body
    ("v1," ++ signature_of (Base64.decode "ZmFrZXNlY3JldGtleQ==")
                "evt_1" "1700000000" scenario_body ++ EmptyString)
  = ([console_error signature_error_label not_a_function], Normal false).
Proof.
  apply (proj1 signed_request_rejected scenario_config
           "ZmFrZXNlY3JldGtleQ==").
  reflexivity.
Defined.

(** The binding of [crypto] is all that stands between the scenario and its
    acceptance: under Node's module the same call returns true, and so do
    the calls whose header has a comma or a space appended. *)
Lemma scenario_under_node_crypto :
  result (verifyWebhookSignature node_hmac scenario_config
            "evt_1" "1700000000" scenario_body ("v1," ++ scenario_signature))
  = Normal true
  /\ result (verifyWebhookSignature node_hmac scenario_config
               "evt_1" "1700000000" scenario_body
               ("v1," ++ scenario_signature ++ ",")) = Normal true
  /\ result (verifyWebhookSignature node_hmac scenario_config
               "evt_1" "1700000000" scenario_body
               ("v1," ++ scenario_signature ++ " ")) = Normal true.
Proof. split_all; vm_compute; reflexivity. Qed.

(** C2.  A request whose received signature is not the expected one is
    rejected.  As the module loads every call returns false: so does one
    whose text after the comma of the first entry differs from the base64
    HMAC-SHA256 of the signed content under a key, one whose header is the
    correct one with a character appended, and one whose id, timestamp or
    body was altered after signing.  Whatever [crypto] denotes, the call
    returns false when the received signature, [signatures[0].split(',')[1]],
    is not the expected signature. *)
Theorem verify_rejects_mismatch :
  forall config id ts body,
    (forall key header,
        after "," (before " " header) <> Some (signature_of key id ts body) ->
        result (verifyWebhookSignature globalThis_crypto config id ts body
                  header) = Normal false)
    /\ (forall key c,
           result (verifyWebhookSignature globalThis_crypto config id ts body
                     ("v1," ++ signature_of key id ts body
                           ++ String c EmptyString)) = Normal false)
    /\ (forall key id' ts' body',
           (id', ts', body') <> (id, ts, body) ->
           result (verifyWebhookSignature globalThis_crypto config
                     id' ts' body' ("v1," ++ signature_of key id ts body))
           = Normal false)
    /\ (forall hmac header,
           primarySignature header <> expectedSignature hmac config id ts body ->
           result (verifyWebhookSignature hmac config id ts body header)
           = Normal false).
Proof.
  intros config id ts body. split_all.
  - intros key header _. apply verify_as_loaded_false.
  - intros key c. apply verify_as_loaded_false.
  - intros key id' ts' body' _. apply verify_as_loaded_false.
  - intros hmac header Hne. apply verify_false_iff.
    intros (e & He & Hp). apply Hne. congruence.
Qed.

Lemma verify_rejects_mismatch_witness :
  result (verifyWebhookSignature globalThis_crypto scenario_config
            "evt_1" "1700000000" scenario_body "v2,AAAA") = Normal false
  /\ result (verifyWebhookSignature globalThis_crypto scenario_config
               "evt_2" "1700000000" scenario_body
               ("v1," ++ signature_of (bytes_of_string "fakesecretkey")
                           "evt_1" "1700000000" scenario_body))
     = Normal false
  /\ result (verifyWebhookSignature failing_hmac scenario_config
               "evt_1" "1700000000" scenario_body
               ("v1," ++ scenario_signature ++ "x")) = Normal false.
Proof.
  pose proof (verify_rejects_mismatch scenario_config
                "evt_1" "1700000000" scenario_body)
    as (Hvalue & _ & Hcontent & Hgen).
  split_all.
  - apply (Hvalue (bytes_of_string "fakesecretkey")).
    vm_compute. intros H. discriminate H.
  - apply (Hcontent (bytes_of_string "fakesecretkey")).
    intros H. discriminate H.
  - apply (Hgen failing_hmac). vm_compute. intros H. discriminate H.
Defined.

(** C5.  With the webhook secret unset or empty the call returns false and
    does nothing but log the warning: no HMAC is computed and nothing is
    compared. *)
Theorem verify_without_secret :
  forall hmac env id ts body header,
    env "YOCO_WEBHOOK_SECRET" = None
    \/ env "YOCO_WEBHOOK_SECRET" = Some EmptyString ->
    verifyWebhookSignature hmac (YOCO_CONFIG env) id ts body header
    = ([console_warn ["⚠️ Missing webhook secret"]], Normal false).
Proof.
  intros hmac env id ts body header H. apply verify_no_secret. simpl.
  destruct H as [-> | ->]; reflexivity.
Qed.

Lemma verify_without_secret_witness :
  verifyWebhookSignature node_hmac (YOCO_CONFIG (fun _ => None))
    "evt_1" "1700000000" scenario_body ("v1," ++ scenario_signature)
  = ([console_warn ["⚠️ Missing webhook secret"]], Normal false).
Proof.
  apply (verify_without_secret node_hmac (fun _ => None)).
  left. reflexivity.
Defined.

(** ** Failures of [verifyWebhookSignature] *)

Lemma verify_returns hmac config id ts body header :
  exists b,
    result (verifyWebhookSignature hmac config id ts body header) = Normal b.
Proof. rewrite verify_result. eauto. Qed.

Lemma verify_catches hmac config id ts body header e :
  result (verifyWebhookSignature_body hmac config id ts body header)
  = Throw e ->
  verifyWebhookSignature hmac config id ts body header
  = ((trace (verifyWebhookSignature_body hmac config id ts body header)
        ++ [console_error "❌ Webhook signature verification error:" e])%list,
     Normal false).
Proof.
  unfold verifyWebhookSignature, try_catch, result, trace.
  destruct (verifyWebhookSignature_body _ _ _ _ _ _) as [t [b|e']]; simpl;
    [discriminate|].
  now intros [= ->].
Qed.

Lemma verify_rejects_unsigned hmac config id ts body header :
  primarySignature header = None ->
  result (verifyWebhookSignature hmac config id ts body header) = Normal false.
Proof.
  intros H. apply verify_false_iff. intros (e & _ & Hp). congruence.
Qed.

Lemma verify_rejects_unkeyed hmac config id ts body header :
  expectedSignature hmac config id ts body = None ->
  result (verifyWebhookSignature hmac config id ts body header) = Normal false.
Proof.
  intros H. apply verify_false_iff. intros (e & He & _). congruence.
Qed.

(** C3.  Neither function throws: each returns a boolean on all inputs, and
    an exception raised inside [verifyWebhookSignature] is caught, logged
    and turned into false.  A timestamp with no parsable leading integer
    gives false.  As the module loads [verifyWebhookSignature] returns false
    on every input: for an empty header, a header with no comma, a header
    with extra white space, and whatever the secret holds.  Whatever
    [crypto] denotes, the call returns false for an empty header, a header
    whose first entry has no comma, a secret from which no key is read, a
    received signature whose length differs from the expected one, and an
    exception during the HMAC computation. *)
Theorem never_throws :
  forall config id ts body header,
    (forall hmac,
        exists b,
          result (verifyWebhookSignature hmac config id ts body header)
          = Normal b)
    /\ (forall currentTime timestamp m,
           exists b,
             result (validateWebhookTimestamp currentTime timestamp m)
             = Normal b)
    /\ (forall hmac e,
           result (verifyWebhookSignature_body hmac config id ts body header)
           = Throw e ->
           verifyWebhookSignature hmac config id ts body header
           = ((trace (verifyWebhookSignature_body hmac config id ts body
                        header)
                 ++ [console_error signature_error_label e])%list,
              Normal false))
    /\ (forall currentTime timestamp m,
           parsed_integer timestamp = None ->
           result (validateWebhookTimestamp currentTime timestamp m)
           = Normal false)
    /\ result (verifyWebhookSignature globalThis_crypto config id ts body
                 header) = Normal false
    /\ (forall hmac,
           result (verifyWebhookSignature hmac config id ts body EmptyString)
           = Normal false)
    /\ (forall hmac,
           occurs "," (before " " header) = false ->
           result (verifyWebhookSignature hmac config id ts body header)
           = Normal false)
    /\ (forall hmac,
           occurs "_" (webhookSecret config) = false ->
           result (verifyWebhookSignature hmac config id ts body header)
           = Normal false)
    /\ (forall hmac e p,
           expectedSignature hmac config id ts body = Some e ->
           primarySignature header = Some p ->
           String.length p <> String.length e ->
           result (verifyWebhookSignature hmac config id ts body header)
           = Normal false)
    /\ (forall hmac part e,
           secretPart config = Some part ->
           hmac (Base64.decode part)
             (bytes_of_string (id ++ "." ++ ts ++ "." ++ body)) = Throw e ->
           result (verifyWebhookSignature hmac config id ts body header)
           = Normal false).
Proof.
  intros config id ts body header. split_all.
  - intros hmac. apply verify_returns.
  - intros. apply validate_returns.
  - intros hmac e H. exact (verify_catches _ _ _ _ _ _ _ H).
  - intros currentTime timestamp m H. apply validate_result_nan.
    now apply parseInt_nan.
  - apply verify_as_loaded_false.
  - intros hmac. now apply verify_rejects_unsigned.
  - intros hmac H. apply verify_rejects_unsigned.
    now rewrite primarySignature_spec, after_absent.
  - intros hmac H. apply verify_rejects_unkeyed. unfold expectedSignature.
    now rewrite secretPart_absent.
  - intros hmac e p He Hp Hlen. apply verify_false_iff.
    intros (e' & He' & Hp'). apply Hlen. congruence.
  - intros hmac part e Hpart Hmac. apply verify_rejects_unkeyed.
    unfold expectedSignature. now rewrite Hpart, Hmac.
Qed.

Lemma never_throws_witness :
  verifyWebhookSignature globalThis_crypto scenario_config
    "evt_1" "1700000000" scenario_body ("v1," ++ scenario_signature ++ " ")
  = ([console_error signature_error_label not_a_function], Normal false)
  /\ result (validateWebhookTimestamp 1700000000000 "soon" None) = Normal false
  /\ result (verifyWebhookSignature failing_hmac scenario_config
               "evt_1" "1700000000" scenario_body "v1") = Normal false
  /\ result (verifyWebhookSignature failing_hmac no_underscore_config
               "evt_1" "1700000000" scenario_body
               ("v1," ++ scenario_signature)) = Normal false
  /\ result (verifyWebhookSignature node_hmac scenario_config
               "evt_1" "1700000000" scenario_body "v1,AAAA") = Normal false
  /\ result (verifyWebhookSignature failing_hmac scenario_config
               "evt_1" "1700000000" scenario_body "v1,AAAA") = Normal false
  /\ result (verifyWebhookSignature globalThis_crypto
               (config_with_secret "whsec_(not base64)")
               "evt_1" "1700000000" scenario_body
               (String "009" ("v1," ++ scenario_signature)))
     = Normal false.
Proof.
  pose proof (never_throws (config_with_secret "whsec_(not base64)")
                "evt_1" "1700000000" scenario_body
                (String "009" ("v1," ++ scenario_signature)))
    as (_ & _ & _ & _ & Hloaded & _).
  pose proof (never_throws scenario_config "evt_1" "1700000000" scenario_body
                ("v1," ++ scenario_signature ++ " "))
    as (_ & _ & Hcatch & Hnan & _).
  pose proof (never_throws scenario_config "evt_1" "1700000000" scenario_body
                "v1")
    as (_ & _ & _ & _ & _ & _ & Hcomma & _).
  pose proof (never_throws no_underscore_config "evt_1" "1700000000"
                scenario_body ("v1," ++ scenario_signature))
    as (_ & _ & _ & _ & _ & _ & _ & Hsecret & _).
  pose proof (never_throws scenario_config "evt_1" "1700000000" scenario_body
                "v1,AAAA")
    as (_ & _ & _ & _ & _ & _ & _ & _ & Hlen & Hthrow).
  split_all.
  - apply (Hcatch globalThis_crypto not_a_function). reflexivity.
  - apply Hnan. reflexivity.
  - apply (Hcomma failing_hmac). reflexivity.
  - apply (Hsecret failing_hmac). reflexivity.
  - apply (Hlen node_hmac scenario_signature "AAAA").
    + vm_compute. reflexivity.
    + reflexivity.
    + simpl. lia.
  - apply (Hthrow failing_hmac "ZmFrZXNlY3JldGtleQ=="
             (Error "Invalid digest: sha256")); reflexivity.
  - exact Hloaded.
Defined.

(** ** The window of [validateWebhookTimestamp] *)

Lemma validate_minutes currentTime timestamp t m :
  parsed_integer timestamp = Some t ->
  isSafeInteger (t * 1000) = true ->
  isSafeInteger (m * 60 * 1000) = true ->
  result (validateWebhookTimestamp currentTime timestamp (minutes m))
  = Normal (Z.abs (currentTime - t * 1000) <=? m * 60 * 1000).
Proof.
  intros Hp Ht Hm.
  now apply validate_result with (thr := m * 60 * 1000);
    [| | apply thresholdMs_minutes |].
Qed.

Lemma validate_default currentTime timestamp t :
  parsed_integer timestamp = Some t ->
  isSafeInteger (t * 1000) = true ->
  result (validateWebhookTimestamp currentTime timestamp None)
  = Normal (Z.abs (currentTime - t * 1000) <=? 3 * 60 * 1000).
Proof.
  intros Hp Ht. now apply validate_result with (thr := 3 * 60 * 1000).
Qed.

(** C4.  For a timestamp that parses to the integer [t], in seconds, and a
    threshold of [m] minutes, the check holds exactly when the distance
    between the clock and [t * 1000] milliseconds is at most [m * 60 * 1000];
    with the default threshold of 3 minutes, 180 seconds of distance is
    accepted and 181 seconds rejected, in the past and in the future alike.
    The clock, [t * 1000] and [m * 60 * 1000] are integers that doubles hold
    exactly. *)
Theorem timestamp_window :
  forall currentTime timestamp t,
    parsed_integer timestamp = Some t ->
    isSafeInteger (t * 1000) = true ->
    isSafeInteger currentTime = true ->
    (forall m,
        isSafeInteger (m * 60 * 1000) = true ->
        (result (validateWebhookTimestamp currentTime timestamp (minutes m))
         = Normal true
         <-> Z.abs (currentTime - t * 1000) <= m * 60 * 1000)
        /\ (result (validateWebhookTimestamp currentTime timestamp (minutes m))
            = Normal false
            <-> m * 60 * 1000 < Z.abs (currentTime - t * 1000)))
    /\ (result (validateWebhookTimestamp currentTime timestamp None)
        = Normal true
        <-> Z.abs (currentTime - t * 1000) <= 3 * 60 * 1000)
    /\ (currentTime - t * 1000 = 180 * 1000 ->
        result (validateWebhookTimestamp currentTime timestamp None)
        = Normal true)
    /\ (currentTime - t * 1000 = 181 * 1000 ->
        result (validateWebhookTimestamp currentTime timestamp None)
        = Normal false)
    /\ (t * 1000 - currentTime = 180 * 1000 ->
        result (validateWebhookTimestamp currentTime timestamp None)
        = Normal true)
    /\ (t * 1000 - currentTime = 181 * 1000 ->
        result (validateWebhookTimestamp currentTime timestamp None)
        = Normal false).
Proof.
  intros currentTime timestamp t Hp Ht _. split_all.
  - intros m Hm. rewrite (validate_minutes _ _ _ _ Hp Ht Hm).
    destruct (Z.leb_spec (Z.abs (currentTime - t * 1000)) (m * 60 * 1000));
      split; split; intros; (congruence || lia).
  - rewrite (validate_default _ _ _ Hp Ht).
    destruct (Z.leb_spec (Z.abs (currentTime - t * 1000)) (3 * 60 * 1000));
      split; intros; (congruence || lia).
  - intros H. rewrite (validate_default _ _ _ Hp Ht). f_equal.
    apply Z.leb_le. lia.
  - intros H. rewrite (validate_default _ _ _ Hp Ht). f_equal.
    apply Z.leb_gt. lia.
  - intros H. rewrite (validate_default _ _ _ Hp Ht). f_equal.
    apply Z.leb_le. lia.
  - intros H. rewrite (validate_default _ _ _ Hp Ht). f_equal.
    apply Z.leb_gt. lia.
Qed.

Lemma timestamp_window_witness :
  (result (validateWebhookTimestamp 1700000120000 "1700000000" (minutes 2))
   = Normal true
   <-> Z.abs (1700000120000 - 1700000000 * 1000) <= 2 * 60 * 1000)
  /\ result (validateWebhookTimestamp 1700000180000 "1700000000" None)
     = Normal true
  /\ result (validateWebhookTimestamp 1700000181000 "1700000000" None)
     = Normal false
  /\ result (validateWebhookTimestamp 1699999819000 "1700000000" None)
     = Normal false.
Proof.
  split_all.
  - apply (timestamp_window 1700000120000 "1700000000" 1700000000
             eq_refl eq_refl eq_refl).
    reflexivity.
  - destruct (timestamp_window 1700000180000 "1700000000" 1700000000
                eq_refl eq_refl eq_refl) as (_ & _ & Hin & _).
    apply Hin. reflexivity.
  - destruct (timestamp_window 1700000181000 "1700000000" 1700000000
                eq_refl eq_refl eq_refl) as (_ & _ & _ & Hout & _).
    apply Hout. reflexivity.
  - destruct (timestamp_window 1699999819000 "1700000000" 1700000000
                eq_refl eq_refl eq_refl) as (_ & _ & _ & _ & _ & Hout).
    apply Hout. reflexivity.
Defined.

(** ** Leading digits *)

Lemma digit_value_decimal c d :
  digit_value 10 c = Some d -> 48 <= code c <= 57.
Proof.
  unfold digit_value.
  destruct (Z.leb_spec 48 (code c)), (Z.leb_spec (code c) 57); simpl;
    try lia;
    destruct (Z.leb_spec 97 (code c)), (Z.leb_spec (code c) 122); simpl;
    try (destruct (Z.ltb_spec (code c - 87) 10); [lia | discriminate]);
    destruct (Z.leb_spec 65 (code c)), (Z.leb_spec (code c) 90); simpl;
    try (destruct (Z.ltb_spec (code c - 55) 10); [lia | discriminate]);
    discriminate.
Qed.

Lemma trim_start_digit c s :
  48 <= code c <= 57 -> trim_start (String c s) = String c s.
Proof.
  intros H. simpl. unfold white1, white2, white3.
  assert (E9 : (9 <=? code c) && (code c <=? 13) = false)
    by (apply andb_false_iff; right; apply Z.leb_gt; lia).
  assert (E : forall k, 57 < k -> (code c =? k) = false)
    by (intros k Hk; apply Z.eqb_neq; lia).
  rewrite E9, (E 0xC2), (E 0xE1), (E 0xE2), (E 0xE3), (E 0xEF) by lia.
  replace (code c =? 32) with false by (symmetry; apply Z.eqb_neq; lia).
  simpl. destruct s as [|c2 [|c3 s]]; reflexivity.
Qed.

Lemma strip_sign_digit c s :
  48 <= code c <= 57 -> strip_sign (String c s) = (1, String c s).
Proof.
  intros H. unfold strip_sign.
  destruct (Ascii.eqb_spec c "-") as [->|_];
    [change (code "-") with 45 in H; lia|].
  destruct (Ascii.eqb_spec c "+") as [->|_];
    [change (code "+") with 43 in H; lia|].
  reflexivity.
Qed.

Lemma strip_radix_prefix_decimal s :
  has_hex_prefix s = false -> strip_radix_prefix s = (10, s).
Proof.
  unfold has_hex_prefix, strip_radix_prefix.
  destruct s as [|c0 [|c1 s]]; try reflexivity.
  now intros ->.
Qed.

Lemma parsed_integer_leading_digits s t :
  leading_digits_value s = Some t -> has_hex_prefix s = false ->
  parsed_integer s = Some t.
Proof.
  unfold leading_digits_value. intros Hd Hx.
  destruct s as [|c s]; [discriminate|].
  assert (Hc : 48 <= code c <= 57).
  { simpl in Hd. destruct (digit_value 10 c) as [d|] eqn:E; [|discriminate].
    now apply digit_value_decimal in E. }
  unfold parsed_integer.
  rewrite (trim_start_digit c s Hc), (strip_sign_digit c s Hc),
    (strip_radix_prefix_decimal _ Hx), Hd.
  f_equal. lia.
Qed.

(** The leading decimal digits of a string that starts with [0x] or [0X]
    are the one digit 0. *)
Lemma hex_prefix_leading_zero s :
  has_hex_prefix s = true -> leading_digits_value s = Some 0.
Proof.
  unfold has_hex_prefix, leading_digits_value.
  destruct s as [|c0 [|c1 s]]; try discriminate.
  intros H. apply andb_true_iff in H as [H0 H1].
  apply Ascii.eqb_eq in H0. subst c0.
  apply orb_true_iff in H1 as [H1|H1]; apply Ascii.eqb_eq in H1; subst c1;
    reflexivity.
Qed.

Lemma window_safe currentTime t m :
  0 <= currentTime -> 0 <= m ->
  isSafeInteger (currentTime + m * 60 * 1000) = true ->
  within_window currentTime t m ->
  isSafeInteger (t * 1000) = true /\ isSafeInteger (m * 60 * 1000) = true.
Proof.
  unfold within_window. rewrite !isSafeInteger_spec. lia.
Qed.

(** C9.  Only the integer at the head of a timestamp counts, whatever
    follows it: two strings with the same leading integer are treated
    alike.  A string whose leading integer, as [parseInt] reads it, is a
    time inside the window is accepted; so is a string that begins with
    decimal digits writing a time inside the window, when the clock is
    later than the threshold after the epoch, as [1700000000abc] is a
    minute after 1700000000.  Among the strings whose integer, if they have
    one, is a time inside the window, those rejected are exactly the ones
    with no parsable leading integer.  A call with no threshold is the call
    with 3 minutes.  The clock and the threshold are not negative, and the
    end of the window is an integer that doubles hold exactly. *)
Theorem timestamp_leading_digits :
  forall currentTime m,
    0 <= currentTime -> 0 <= m ->
    isSafeInteger (currentTime + m * 60 * 1000) = true ->
    (forall s s',
        parsed_integer s = parsed_integer s' ->
        validateWebhookTimestamp currentTime s (minutes m)
        = validateWebhookTimestamp currentTime s' (minutes m))
    /\ (forall s t,
           parsed_integer s = Some t ->
           within_window currentTime t m ->
           result (validateWebhookTimestamp currentTime s (minutes m))
           = Normal true)
    /\ (forall s t,
           leading_digits_value s = Some t ->
           within_window currentTime t m ->
           m * 60 * 1000 < currentTime ->
           parsed_integer s = Some t
           /\ result (validateWebhookTimestamp currentTime s (minutes m))
              = Normal true)
    /\ (forall s,
           (forall t,
               parsed_integer s = Some t -> within_window currentTime t m) ->
           (result (validateWebhookTimestamp currentTime s (minutes m))
            = Normal false
            <-> parsed_integer s = None))
    /\ (forall s,
           validateWebhookTimestamp currentTime s None
           = validateWebhookTimestamp currentTime s (minutes 3)).
Proof.
  intros currentTime m Hnow Hm Hsafe.
  assert (Haccept : forall s t,
             parsed_integer s = Some t ->
             within_window currentTime t m ->
             result (validateWebhookTimestamp currentTime s (minutes m))
             = Normal true).
  { intros s t Hp Hwin.
    destruct (window_safe _ _ _ Hnow Hm Hsafe Hwin) as [Ht Hthr].
    rewrite (validate_minutes _ _ _ _ Hp Ht Hthr). f_equal.
    now apply Z.leb_le. }
  split_all.
  - intros s s' H. rewrite !validate_run. unfold parseInt. now rewrite H.
  - exact Haccept.
  - intros s t Hd Hwin Hclock.
    assert (Hx : has_hex_prefix s = false).
    { destruct (has_hex_prefix s) eqn:E; [|reflexivity].
      rewrite (hex_prefix_leading_zero _ E) in Hd. injection Hd as <-.
      unfold within_window in Hwin. lia. }
    pose proof (parsed_integer_leading_digits s t Hd Hx) as Hp.
    split; [exact Hp | now apply (Haccept s t)].
  - intros s Hscope. split.
    + intros H. destruct (parsed_integer s) as [t|] eqn:Hp; [|reflexivity].
      rewrite (Haccept s t Hp (Hscope t eq_refl)) in H. discriminate.
    + intros H. apply validate_result_nan. now apply parseInt_nan.
  - reflexivity.
Qed.

Lemma timestamp_leading_digits_witness :
  validateWebhookTimestamp 1700000060000 "1700000000abc" (minutes 3)
  = validateWebhookTimestamp 1700000060000 "1700000000" (minutes 3)
  /\ parsed_integer "1700000000abc" = Some 1700000000
  /\ result (validateWebhookTimestamp 1700000060000 "1700000000abc"
               (minutes 3)) = Normal true
  /\ result (validateWebhookTimestamp 1700000060000 " 1700000000.5"
               (minutes 3)) = Normal true
  /\ (result (validateWebhookTimestamp 1700000060000 "soon" (minutes 3))
      = Normal false
      <-> parsed_integer "soon" = None).
Proof.
  pose proof (timestamp_leading_digits 1700000060000 3
                ltac:(lia) ltac:(lia) eq_refl)
    as (Hsame & Hparse & Hdigits & Honly & _).
  assert (Hwin : within_window 1700000060000 1700000000 3)
    by (unfold within_window; lia).
  split_all.
  - apply Hsame. reflexivity.
  - apply (Hdigits "1700000000abc" 1700000000 eq_refl Hwin). lia.
  - apply (Hdigits "1700000000abc" 1700000000 eq_refl Hwin). lia.
  - apply (Hparse " 1700000000.5" 1700000000 eq_refl Hwin).
  - apply Honly. intros t H. discriminate H.
Defined.

(** ** The key *)

Lemma hmac_calls_run hmac config id ts body header :
  hmac_calls (trace (verifyWebhookSignature hmac config id ts body header))
  = match secretPart config with
    | Some part =>
        match hmac (Base64.decode part)
                (bytes_of_string (id ++ "." ++ ts ++ "." ++ body)) with
        | Normal _ => [(Base64.decode part, id ++ "." ++ ts ++ "." ++ body)]
        | Throw _ => []
        end
    | None => []
    end.
Proof.
  rewrite verify_run. unfold verify_outcome, trace.
  destruct (falsy (webhookSecret config)) eqn:Hs; simpl.
  { now rewrite (falsy_secretPart _ Hs). }
  destruct (secretPart config) as [part|]; simpl; [|reflexivity].
  destruct (hmac _ _) as [digest|err]; simpl; [|reflexivity].
  destruct (primarySignature header) as [p|]; simpl; [|reflexivity].
  destruct (Nat.eqb _ _); reflexivity.
Qed.

(** C6.  The key is read from the text between the first and the second
    underscore of the secret, [split('_')[1]], not from all that follows
    [whsec_]: the two agree for a remainder with no underscore, and for the
    secret [whsec_QUJD_0VG] the key is the decoding of [QUJD], the bytes
    [ABC], while the whole remainder [QUJD_0VG] decodes to six bytes.  As
    the module loads the key is then left unused, because the call ends at
    [crypto.createHmac]; under any [crypto] no HMAC is computed with another
    key.  A secret with no underscore makes the call return false. *)
Theorem key_stops_at_second_underscore :
  (forall config remainder,
      webhookSecret config = "whsec_" ++ remainder ->
      occurs "_" remainder = false ->
      Buffer_from_base64 (index (split "_" (webhookSecret config)) 1)
      = ret (Base64.decode remainder))
  /\ Buffer_from_base64
       (index (split "_" (webhookSecret two_underscore_config)) 1)
     = ret (bytes_of_string "ABC")
  /\ Base64.decode "QUJD_0VG"
     = (bytes_of_string "ABC" ++ [xff] ++ bytes_of_string "EF")%list
  /\ (forall hmac id ts body header call,
         In call
           (hmac_calls
              (trace (verifyWebhookSignature hmac two_underscore_config
                        id ts body header))) ->
         fst call = bytes_of_string "ABC")
  /\ (forall id ts body header,
         verifyWebhookSignature globalThis_crypto two_underscore_config
           id ts body header
         = ([console_error signature_error_label not_a_function],
            Normal false))
  /\ (forall hmac config id ts body header,
         occurs "_" (webhookSecret config) = false ->
         result (verifyWebhookSignature hmac config id ts body header)
         = Normal false).
Proof.
  split_all.
  - intros config remainder Hsecret Hr.
    change (index (split "_" (webhookSecret config)) 1)
      with (secretPart config).
    now rewrite (secretPart_prefixed config "whsec" remainder Hsecret eq_refl
                   Hr).
  - reflexivity.
  - vm_compute. reflexivity.
  - intros hmac id ts body header call. rewrite hmac_calls_run.
    change (secretPart two_underscore_config) with (Some "QUJD").
    cbv iota beta.
    change (Base64.decode "QUJD") with (bytes_of_string "ABC").
    destruct (hmac _ _); [|intros []].
    intros [<-|[]]. reflexivity.
  - intros id ts body header.
    now apply verify_as_loaded with (part := "QUJD").
  - intros hmac config id ts body header H. apply verify_rejects_unkeyed.
    unfold expectedSignature. now rewrite secretPart_absent.
Qed.

Lemma key_stops_at_second_underscore_witness :
  Buffer_from_base64 (index (split "_" (webhookSecret scenario_config)) 1)
  = ret (Base64.decode "ZmFrZXNlY3JldGtleQ==")
  /\ fst (bytes_of_string "ABC", "evt_1.1700000000." ++ scenario_body)
     = bytes_of_string "ABC"
  /\ result (verifyWebhookSignature globalThis_crypto no_underscore_config
               "evt_1" "1700000000" scenario_body
               ("v1," ++ scenario_signature)) = Normal false.
Proof.
  destruct key_stops_at_second_underscore
    as (Hwhole & _ & _ & Hkey & _ & Hnone).
  split_all.
  - apply (Hwhole scenario_config "ZmFrZXNlY3JldGtleQ=="); reflexivity.
  - apply (Hkey node_hmac "evt_1" "1700000000" scenario_body
             ("v1," ++ scenario_signature)).
    vm_compute. left. reflexivity.
  - apply (Hnone globalThis_crypto no_underscore_config). reflexivity.
Defined.

(** ** Headers with several entries *)

Lemma primarySignature_first first rest :
  occurs " " first = false ->
  primarySignature (first ++ " " ++ rest) = index (split "," first) 1.
Proof.
  intros H. unfold primarySignature. rewrite index_split_0.
  change (first ++ " " ++ rest) with (first ++ String " " rest).
  now rewrite (before_app " " first rest H).
Qed.

Lemma primarySignature_single first :
  occurs " " first = false ->
  primarySignature first = index (split "," first) 1.
Proof.
  intros H. unfold primarySignature.
  now rewrite index_split_0, (before_absent " " first H).
Qed.

(** C7.  Only the first space-separated entry of the header is looked at.
    Whatever [crypto] denotes, a header does what its first entry alone
    does, and it is rejected when the value read from its first entry,
    [split(',')[1]], is not the expected signature, whatever the entries
    after it hold.  As the module loads, a header of several
    [version,value] entries whose first value is not the signature of the
    request is rejected, even when a later entry carries that signature. *)
Theorem verify_checks_first_entry_only :
  forall config id ts body,
    (forall hmac first rest,
        occurs " " first = false ->
        verifyWebhookSignature hmac config id ts body (first ++ " " ++ rest)
        = verifyWebhookSignature hmac config id ts body first)
    /\ (forall hmac first rest e,
           occurs " " first = false ->
           expectedSignature hmac config id ts body = Some e ->
           index (split "," first) 1 <> Some e ->
           result (verifyWebhookSignature hmac config id ts body
                     (first ++ " " ++ rest)) = Normal false)
    /\ (forall key v1 s1 entries,
           s1 <> signature_of key id ts body ->
           (exists v, In (v, signature_of key id ts body) entries) ->
           result (verifyWebhookSignature globalThis_crypto config id ts body
                     (header_of ((v1, s1) :: entries))) = Normal false).
Proof.
  intros config id ts body. split_all.
  - intros hmac first rest H. apply verify_header_congr.
    now rewrite (primarySignature_first _ _ H), (primarySignature_single _ H).
  - intros hmac first rest e H He Hne. apply verify_false_iff.
    intros (e' & He' & Hp). rewrite (primarySignature_first _ _ H) in Hp.
    congruence.
  - intros key v1 s1 entries _ _. apply verify_as_loaded_false.
Qed.

Lemma verify_checks_first_entry_only_witness :
  verifyWebhookSignature globalThis_crypto scenario_config
    "evt_1" "1700000000" scenario_body
    ("v1,AAAA" ++ " " ++ "v1," ++ scenario_signature)
  = verifyWebhookSignature globalThis_crypto scenario_config
      "evt_1" "1700000000" scenario_body "v1,AAAA"
  /\ result (verifyWebhookSignature node_hmac scenario_config
               "evt_1" "1700000000" scenario_body
               ("v1,AAAA" ++ " " ++ "v1," ++ scenario_signature))
     = Normal false
  /\ result (verifyWebhookSignature globalThis_crypto scenario_config
               "evt_1" "1700000000" scenario_body
               (header_of [("v1", scenario_signature ++ ",x");
                           ("v2", signature_of (bytes_of_string "fakesecretkey")
                                    "evt_1" "1700000000" scenario_body)]))
     = Normal false.
Proof.
  pose proof (verify_checks_first_entry_only scenario_config
                "evt_1" "1700000000" scenario_body)
    as (Hsame & Hvalue & Hloaded).
  split_all.
  - apply (Hsame globalThis_crypto "v1,AAAA"). reflexivity.
  - apply (Hvalue node_hmac "v1,AAAA" _ scenario_signature).
    + reflexivity.
    + vm_compute. reflexivity.
    + intros H. discriminate H.
  - apply (Hloaded (bytes_of_string "fakesecretkey") "v1"
             (scenario_signature ++ ",x")).
    + vm_compute. intros H. discriminate H.
    + exists "v2". left. reflexivity.
Defined.

(** C10.  The version tag of the first entry is not looked at: with any tag
    free of spaces and commas the call does exactly what it does with [v1],
    whatever [crypto] denotes.  As the module loads, that is to return
    false, also for a tag paired with the signature of the request. *)
Theorem version_tag_ignored :
  forall config id ts body v s,
    occurs " " v = false -> occurs "," v = false ->
    (forall hmac,
        verifyWebhookSignature hmac config id ts body (v ++ "," ++ s)
        = verifyWebhookSignature hmac config id ts body ("v1," ++ s))
    /\ verifyWebhookSignature globalThis_crypto config id ts body
         (v ++ "," ++ s)
       = verifyWebhookSignature globalThis_crypto config id ts body
           ("v1," ++ s)
    /\ result (verifyWebhookSignature globalThis_crypto config id ts body
                 (v ++ "," ++ s)) = Normal false.
Proof.
  intros config id ts body v s Hv Hv'.
  assert (Hsame : forall hmac,
             verifyWebhookSignature hmac config id ts body (v ++ "," ++ s)
             = verifyWebhookSignature hmac config id ts body ("v1," ++ s)).
  { intros hmac. apply verify_header_congr.
    assert (Hp : primarySignature (v ++ "," ++ s)
                 = Some (before "," (before " " s)))
      by exact (primarySignature_tagged v s Hv Hv').
    rewrite Hp. symmetry.
    exact (primarySignature_tagged "v1" s eq_refl eq_refl). }
  split_all; [exact Hsame | apply Hsame | apply verify_as_loaded_false].
Qed.

Lemma version_tag_ignored_witness :
  verifyWebhookSignature globalThis_crypto scenario_config
    "evt_1" "1700000000" scenario_body ("v999" ++ "," ++ scenario_signature)
  = verifyWebhookSignature globalThis_crypto scenario_config
      "evt_1" "1700000000" scenario_body ("v1," ++ scenario_signature)
  /\ result (verifyWebhookSignature globalThis_crypto scenario_config
               "evt_1" "1700000000" scenario_body
               ("v999" ++ "," ++ scenario_signature)) = Normal false.
Proof.
  pose proof (version_tag_ignored scenario_config
                "evt_1" "1700000000" scenario_body "v999" scenario_signature
                eq_refl eq_refl) as (_ & Hsame & Hfalse).
  split; [exact Hsame | exact Hfalse].
Defined.

(** * Further properties *)

(** ** Base64 round trip *)

Lemma byte_values_In x : 0 <= x < 256 -> In x byte_values.
Proof.
  intros H. unfold byte_values. apply in_map_iff.
  exists (Z.to_nat x). split; [lia|]. apply in_seq. lia.
Qed.

Lemma Z_of_byte_range b : 0 <= Z_of_byte b < 256.
Proof.
  unfold Z_of_byte. pose proof (Byte.to_N_bounded b). lia.
Qed.

Lemma byte_of_Z_of_byte b : byte_of_Z (Z_of_byte b) = b.
Proof.
  unfold byte_of_Z. rewrite Z.mod_small by apply Z_of_byte_range.
  unfold Z_of_byte. now rewrite N2Z.id, Byte.of_to_N.
Qed.

Lemma byte_of_Z_eq z b : z = Z_of_byte b -> byte_of_Z z = b.
Proof. intros ->. apply byte_of_Z_of_byte. Qed.

Lemma byte_pairs (f : Z -> Z -> bool) :
  forallb (fun x => forallb (f x) byte_values) byte_values = true ->
  forall x y, 0 <= x < 256 -> 0 <= y < 256 -> f x y = true.
Proof.
  intros H x y Hx Hy. rewrite forallb_forall in H.
  specialize (H x (byte_values_In x Hx)). rewrite forallb_forall in H.
  exact (H y (byte_values_In y Hy)).
Qed.

Lemma sextets_in_range_all x y :
  0 <= x < 256 -> 0 <= y < 256 -> sextets_in_range x y = true.
Proof. apply byte_pairs. vm_compute. reflexivity. Qed.

Lemma octets_restored_all x y :
  0 <= x < 256 -> 0 <= y < 256 -> octets_restored x y = true.
Proof. apply byte_pairs. vm_compute. reflexivity. Qed.

Lemma unbase64_digit n :
  0 <= n < 64 ->
  Base64.unbase64 (Base64.digit n) = Some n
  /\ Ascii.eqb (Base64.digit n) Base64.pad = false.
Proof.
  intros H.
  assert (Hall : forallb
                   (fun k => match Base64.unbase64 (Base64.digit k) with
                             | Some v => v =? k
                             | None => false
                             end
                             && negb (Ascii.eqb (Base64.digit k) Base64.pad))
                   (map Z.of_nat (seq 0 64)) = true)
    by (vm_compute; reflexivity).
  rewrite forallb_forall in Hall.
  assert (Hin : In n (map Z.of_nat (seq 0 64))).
  { apply in_map_iff. exists (Z.to_nat n). split; [lia|]. apply in_seq. lia. }
  specialize (Hall n Hin). apply andb_true_iff in Hall as [Hv Hp].
  destruct (Base64.unbase64 (Base64.digit n)) as [v|]; [|discriminate].
  apply Z.eqb_eq in Hv. subst v.
  split; [reflexivity|]. now apply negb_true_iff.
Qed.

Lemma sextets_digit n rest :
  0 <= n < 64 ->
  Base64.sextets (String (Base64.digit n) rest) = n :: Base64.sextets rest.
Proof.
  intros H. destruct (unbase64_digit n H) as [Hv Hp].
  simpl. now rewrite Hp, Hv.
Qed.

Lemma sextets_pad rest : Base64.sextets (String Base64.pad rest) = [].
Proof. reflexivity. Qed.

Lemma sextets_of_bytes a b :
  sextets_in_range (Z_of_byte a) (Z_of_byte b) = true
  /\ octets_restored (Z_of_byte a) (Z_of_byte b) = true.
Proof.
  split.
  - apply sextets_in_range_all; apply Z_of_byte_range.
  - apply octets_restored_all; apply Z_of_byte_range.
Qed.

Lemma octets_sextets_encode bs :
  Base64.octets (Base64.sextets (Base64.encode bs)) = bs.
Proof.
  induction bs as [|a|a b|a b c l IH] using list_ind3.
  - reflexivity.
  - sextet_facts (sextets_of_bytes a a).
    change (Base64.encode [a])
      with (String (Base64.digit (sextet1 (Z_of_byte a)))
              (String (Base64.digit (Z.shiftl (Z.land (Z_of_byte a) 3) 4))
                 (String Base64.pad (String Base64.pad EmptyString)))).
    rewrite !sextets_digit, sextets_pad by lia.
    change (Base64.octets [sextet1 (Z_of_byte a);
                           Z.shiftl (Z.land (Z_of_byte a) 3) 4])
      with [byte_of_Z (octet1 (sextet1 (Z_of_byte a))
                         (Z.shiftl (Z.land (Z_of_byte a) 3) 4))].
    f_equal. now apply byte_of_Z_eq.
  - sextet_facts (sextets_of_bytes a b).
    sextet_facts (sextets_of_bytes b b).
    change (Base64.encode [a; b])
      with (String (Base64.digit (sextet1 (Z_of_byte a)))
              (String (Base64.digit (sextet2 (Z_of_byte a) (Z_of_byte b)))
                 (String (Base64.digit
                            (Z.shiftl (Z.land (Z_of_byte b) 15) 2))
                    (String Base64.pad EmptyString)))).
    rewrite !sextets_digit, sextets_pad by lia.
    change (Base64.octets [sextet1 (Z_of_byte a);
                           sextet2 (Z_of_byte a) (Z_of_byte b);
                           Z.shiftl (Z.land (Z_of_byte b) 15) 2])
      with [byte_of_Z (octet1 (sextet1 (Z_of_byte a))
                         (sextet2 (Z_of_byte a) (Z_of_byte b)));
            byte_of_Z (octet2 (sextet2 (Z_of_byte a) (Z_of_byte b))
                         (Z.shiftl (Z.land (Z_of_byte b) 15) 2))].
    apply f_equal2; [now apply byte_of_Z_eq|].
    f_equal. apply byte_of_Z_eq. unfold octet2. congruence.
  - sextet_facts (sextets_of_bytes a b).
    sextet_facts (sextets_of_bytes b c).
    sextet_facts (sextets_of_bytes c c).
    change (Base64.encode (a :: b :: c :: l))
      with (String (Base64.digit (sextet1 (Z_of_byte a)))
              (String (Base64.digit (sextet2 (Z_of_byte a) (Z_of_byte b)))
                 (String (Base64.digit
                            (sextet3 (Z_of_byte b) (Z_of_byte c)))
                    (String (Base64.digit (sextet4 (Z_of_byte c)))
                       (Base64.encode l))))).
    rewrite !sextets_digit by lia.
    change (Base64.octets
              (sextet1 (Z_of_byte a)
               :: sextet2 (Z_of_byte a) (Z_of_byte b)
               :: sextet3 (Z_of_byte b) (Z_of_byte c)
               :: sextet4 (Z_of_byte c)
               :: Base64.sextets (Base64.encode l)))
      with (byte_of_Z (octet1 (sextet1 (Z_of_byte a))
                         (sextet2 (Z_of_byte a) (Z_of_byte b)))
            :: byte_of_Z (octet2 (sextet2 (Z_of_byte a) (Z_of_byte b))
                            (sextet3 (Z_of_byte b) (Z_of_byte c)))
            :: byte_of_Z (octet3 (sextet3 (Z_of_byte b) (Z_of_byte c))
                            (sextet4 (Z_of_byte c)))
            :: Base64.octets (Base64.sextets (Base64.encode l))).
    rewrite IH.
    apply f_equal2; [now apply byte_of_Z_eq|].
    apply f_equal2; [apply byte_of_Z_eq; unfold octet2; congruence|].
    apply f_equal2; [now apply byte_of_Z_eq | reflexivity].
Qed.


(** ** Code units *)

Lemma units_low c s :
  Z.of_N (N_of_ascii c) < 0xC0 ->
  Base64.units (String c s) = String c (Base64.units s).
Proof.
  intros H. cbn [Base64.units]. cbv zeta.
  now replace (Z.of_N (N_of_ascii c) <? 0xC0) with true
    by (symmetry; apply Z.ltb_lt; exact H).
Qed.

Lemma units_ascii_app a t :
  all_ascii a = true -> Base64.units (a ++ t) = a ++ Base64.units t.
Proof.
  induction a as [|c a IH]; [reflexivity|].
  cbn [all_ascii]. intros H. apply andb_true_iff in H as [Hc Ha].
  apply Z.ltb_lt in Hc.
  change (String c a ++ t) with (String c (a ++ t)).
  rewrite units_low by lia. now rewrite (IH Ha).
Qed.

Lemma units_ascii a : all_ascii a = true -> Base64.units a = a.
Proof.
  intros H. rewrite <- (app_empty_r a) at 1.
  rewrite (units_ascii_app a EmptyString H). apply app_empty_r.
Qed.

Lemma is_base64_char_ascii c :
  is_base64_char c = true -> (Z.of_N (N_of_ascii c) <? 128) = true.
Proof.
  unfold is_base64_char. intros H. apply existsb_exists in H as (x & Hin & Hx).
  apply Ascii.eqb_eq in Hx. subst x.
  assert (Hall : forallb (fun x => Z.of_N (N_of_ascii x) <? 128)
                   (Base64.pad :: Base64.alphabet) = true)
    by (vm_compute; reflexivity).
  rewrite forallb_forall in Hall. exact (Hall c Hin).
Qed.

Lemma is_base64_ascii s : is_base64 s = true -> all_ascii s = true.
Proof.
  induction s as [|c s IH]; [reflexivity|].
  cbn [is_base64 all_ascii]. intros H. apply andb_true_iff in H as [Hc Hs].
  now rewrite (is_base64_char_ascii c Hc), (IH Hs).
Qed.

(** Decoding what the encoder wrote gives the bytes back. *)
Lemma decode_encode bs : Base64.decode (Base64.encode bs) = bs.
Proof.
  unfold Base64.decode.
  rewrite (units_ascii _ (is_base64_ascii _ (encode_is_base64 bs))).
  apply octets_sextets_encode.
Qed.

(** ** The key and the calls of [verifyWebhookSignature] *)

(** X1.  A secret made of [whsec_] and the base64 text of the key bytes
    gives back exactly those bytes at [Buffer.from(.., 'base64')], for every
    key; and whatever [crypto] denotes, no HMAC is computed in a call under
    another key or over another text than [id.timestamp.body]. *)
Theorem provider_key_round_trip :
  forall config key,
    webhookSecret config = "whsec_" ++ Base64.encode key ->
    Buffer_from_base64 (index (split "_" (webhookSecret config)) 1) = ret key
    /\ (forall hmac id ts body header call,
           In call
             (hmac_calls
                (trace (verifyWebhookSignature hmac config id ts body
                          header))) ->
           call = (key, id ++ "." ++ ts ++ "." ++ body)).
Proof.
  intros config key Hsecret.
  assert (Hpart : secretPart config = Some (Base64.encode key)).
  { apply (secretPart_prefixed config "whsec" _ Hsecret eq_refl).
    apply is_base64_no_underscore, encode_is_base64. }
  split.
  - change (index (split "_" (webhookSecret config)) 1)
      with (secretPart config).
    rewrite Hpart. unfold Buffer_from_base64. now rewrite decode_encode.
  - intros hmac id ts body header call. rewrite hmac_calls_run, Hpart.
    rewrite decode_encode. destruct (hmac _ _); [|intros []].
    now intros [<-|[]].
Qed.

Lemma provider_key_round_trip_witness :
  Buffer_from_base64 (index (split "_" (webhookSecret scenario_config)) 1)
  = ret (bytes_of_string "fakesecretkey").
Proof.
  apply (proj1 (provider_key_round_trip scenario_config
                  (bytes_of_string "fakesecretkey") eq_refl)).
Defined.

(** X2.  Base64 round trip: decoding the text the encoder writes gives the
    bytes back, for every byte sequence. *)
Theorem base64_round_trip :
  forall bs, Base64.decode (Base64.encode bs) = bs.
Proof. exact decode_encode. Qed.

(** X3.  The text before the first underscore of the secret is never looked
    at: with any prefix free of underscores in place of [whsec], the call
    does exactly the same. *)
Theorem secret_prefix_ignored :
  forall hmac config1 config2 prefix rest id ts body header,
    occurs "_" prefix = false ->
    webhookSecret config1 = prefix ++ "_" ++ rest ->
    webhookSecret config2 = "whsec_" ++ rest ->
    verifyWebhookSignature hmac config1 id ts body header
    = verifyWebhookSignature hmac config2 id ts body header.
Proof.
  intros hmac config1 config2 prefix rest id ts body header Hp H1 H2.
  apply verify_key_congr.
  - rewrite H1, H2. now destruct prefix.
  - rewrite !secretPart_spec, H1, H2.
    change (prefix ++ "_" ++ rest) with (prefix ++ String "_" rest).
    change ("whsec_" ++ rest) with ("whsec" ++ String "_" rest).
    rewrite (after_app "_" prefix rest Hp).
    now rewrite (after_app "_" "whsec" rest eq_refl).
Qed.

Lemma secret_prefix_ignored_witness :
  verifyWebhookSignature node_hmac
    (config_with_secret ("sk" ++ "_" ++ "ZmFrZXNlY3JldGtleQ=="))
    "evt_1" "1700000000" scenario_body ("v1," ++ scenario_signature)
  = verifyWebhookSignature node_hmac scenario_config
      "evt_1" "1700000000" scenario_body ("v1," ++ scenario_signature).
Proof.
  apply (secret_prefix_ignored node_hmac _ scenario_config
           "sk" "ZmFrZXNlY3JldGtleQ=="); reflexivity.
Defined.

(** X4.  The log tells the verdict: the call returns true exactly when it
    logs the valid line, and then it has logged neither a warning nor an
    error. *)
Theorem valid_log_iff_true :
  forall hmac config id ts body header,
    (result (verifyWebhookSignature hmac config id ts body header)
     = Normal true
     <-> In (console_log [signature_label; "✅ Valid"])
           (trace (verifyWebhookSignature hmac config id ts body header)))
    /\ (result (verifyWebhookSignature hmac config id ts body header)
        = Normal true ->
        forall ev,
          In ev
            (trace (verifyWebhookSignature hmac config id ts body header)) ->
          match ev with
          | console_warn _ | console_error _ _ => False
          | _ => True
          end).
Proof.
  intros hmac config id ts body header. rewrite verify_run.
  unfold verify_outcome, result, trace.
  destruct (falsy (webhookSecret config)); simpl.
  { split; [split|]; [discriminate | | discriminate].
    intros [H|[]]; discriminate. }
  destruct (option_map Base64.decode (secretPart config)) as [key|]; simpl.
  2:{ split; [split|]; [discriminate | | discriminate].
      intros [H|[]]; discriminate. }
  destruct (hmac _ _) as [digest|e]; simpl.
  2:{ split; [split|]; [discriminate | | discriminate].
      intros [H|[]]; discriminate. }
  destruct (primarySignature header) as [p|]; simpl.
  2:{ split; [split|]; [discriminate | | discriminate].
      intros [H|[H|[]]]; discriminate. }
  destruct (Nat.eqb _ _); simpl.
  2:{ split; [split|]; [discriminate | | discriminate].
      intros [H|[H|[H|[]]]]; discriminate. }
  destruct (bytes_eqb _ _); simpl.
  - split; [split; auto|].
    intros _ ev [<-|[<-|[<-|[]]]]; exact I.
  - split; [split|]; [discriminate | | discriminate].
    intros [H|[H|[H|[]]]]; discriminate.
Qed.

Lemma valid_log_iff_true_witness :
  In (console_log [signature_label; "✅ Valid"])
    (trace (verifyWebhookSignature node_hmac scenario_config
              "evt_1" "1700000000" scenario_body
              ("v1," ++ scenario_signature))).
Proof.
  apply (proj1 (valid_log_iff_true node_hmac scenario_config
                  "evt_1" "1700000000" scenario_body
                  ("v1," ++ scenario_signature))).
  vm_compute. reflexivity.
Defined.

(** X5.  What a call computes and compares: an HMAC, over
    [id.timestamp.body] under the decoded key, when [crypto.createHmac]
    returns one, and none otherwise; one comparison, of the whole expected
    and received signatures, when both exist.  As the module loads, no call
    computes an HMAC and no call compares. *)
Theorem crypto_calls :
  forall hmac config id ts body header,
    hmac_calls (trace (verifyWebhookSignature hmac config id ts body header))
    = match secretPart config with
      | Some part =>
          match hmac (Base64.decode part)
                  (bytes_of_string (id ++ "." ++ ts ++ "." ++ body)) with
          | Normal _ =>
              [(Base64.decode part, id ++ "." ++ ts ++ "." ++ body)]
          | Throw _ => []
          end
      | None => []
      end
    /\ comparison_calls
         (trace (verifyWebhookSignature hmac config id ts body header))
       = match expectedSignature hmac config id ts body,
               primarySignature header with
         | Some e, Some p => [(bytes_of_string e, bytes_of_string p)]
         | _, _ => []
         end
    /\ hmac_calls
         (trace (verifyWebhookSignature globalThis_crypto config id ts body
                   header)) = []
    /\ comparison_calls
         (trace (verifyWebhookSignature globalThis_crypto config id ts body
                   header)) = [].
Proof.
  intros hmac config id ts body header.
  assert (Hcmp : forall h,
             comparison_calls
               (trace (verifyWebhookSignature h config id ts body header))
             = match expectedSignature h config id ts body,
                     primarySignature header with
               | Some e, Some p => [(bytes_of_string e, bytes_of_string p)]
               | _, _ => []
               end).
  { intros h. rewrite verify_run.
    unfold verify_outcome, expectedSignature, trace.
    destruct (falsy (webhookSecret config)) eqn:Hs; simpl.
    { now rewrite (falsy_secretPart _ Hs). }
    destruct (secretPart config) as [part|]; simpl; [|reflexivity].
    destruct (h _ _) as [digest|err]; simpl; [|reflexivity].
    destruct (primarySignature header) as [p|]; simpl; [|reflexivity].
    destruct (Nat.eqb _ _); reflexivity. }
  split_all.
  - apply hmac_calls_run.
  - apply Hcmp.
  - rewrite hmac_calls_run. now destruct (secretPart config).
  - now rewrite Hcmp, expectedSignature_as_loaded.
Qed.

(** ** The text of the secret *)

Lemma unbase64_underscore c : Base64.unbase64 c = None -> c <> "_"%char.
Proof. intros H ->. discriminate H. Qed.

Lemma sextets_skip a c t :
  Base64.unbase64 c = None -> c <> Base64.pad ->
  Base64.sextets (a ++ String c t) = Base64.sextets (a ++ t).
Proof.
  intros Hc Hp. induction a as [|x a IH]; simpl.
  - destruct (Ascii.eqb_spec c Base64.pad); [contradiction|].
    now rewrite Hc.
  - destruct (Ascii.eqb x Base64.pad); [reflexivity|]. now rewrite IH.
Qed.

Lemma sextets_stop a t :
  Base64.sextets (a ++ String Base64.pad t) = Base64.sextets (a ++ "=").
Proof.
  induction a as [|x a IH]; simpl; [reflexivity|].
  destruct (Ascii.eqb x Base64.pad); [reflexivity|]. now rewrite IH.
Qed.

Lemma before_app_cases sep a t :
  before sep (a ++ t)
  = if occurs sep a then before sep a else a ++ before sep t.
Proof.
  induction a as [|c a IH]; simpl; [reflexivity|].
  destruct (Ascii.eqb c sep); simpl; [reflexivity|]. rewrite IH.
  now destruct (occurs sep a).
Qed.

Lemma before_cons_other sep c t :
  c <> sep -> before sep (String c t) = String c (before sep t).
Proof.
  intros H. simpl. destruct (Ascii.eqb_spec c sep); [contradiction|].
  reflexivity.
Qed.

Lemma decode_skip a c b :
  all_ascii a = true -> Z.of_N (N_of_ascii c) < 128 ->
  Base64.unbase64 c = None -> c <> Base64.pad ->
  Base64.decode (before "_" (a ++ String c b))
  = Base64.decode (before "_" (a ++ b)).
Proof.
  intros Ha Hlow Hc Hp. rewrite !before_app_cases.
  destruct (occurs "_" a); [reflexivity|].
  rewrite (before_cons_other "_" c b (unbase64_underscore c Hc)).
  unfold Base64.decode. rewrite !(units_ascii_app a) by exact Ha.
  rewrite units_low by lia. now rewrite (sextets_skip a c _ Hc Hp).
Qed.

Lemma decode_stop a t t' :
  all_ascii a = true ->
  Base64.decode (before "_" (a ++ String Base64.pad t))
  = Base64.decode (before "_" (a ++ String Base64.pad t')).
Proof.
  intros Ha. rewrite !before_app_cases.
  destruct (occurs "_" a); [reflexivity|].
  rewrite !(before_cons_other "_" Base64.pad) by (intros H; discriminate H).
  unfold Base64.decode. rewrite !(units_ascii_app a) by exact Ha.
  rewrite !units_low by (vm_compute; reflexivity).
  now rewrite (sextets_stop a (Base64.units (before "_" t))),
    (sextets_stop a (Base64.units (before "_" t'))).
Qed.

(** X6.  The base64 text of the secret is read leniently.  After text of
    characters up to U+007F, one more such character that is outside the
    alphabet (a space, a line end) makes no difference to the call, and
    neither does anything that follows a padding character. *)
Theorem secret_text_lenient :
  forall hmac config1 config2 id ts body header a,
    all_ascii a = true ->
    (forall b c,
        Z.of_N (N_of_ascii c) < 128 ->
        Base64.unbase64 c = None -> c <> Base64.pad ->
        webhookSecret config1 = "whsec_" ++ a ++ String c b ->
        webhookSecret config2 = "whsec_" ++ a ++ b ->
        verifyWebhookSignature hmac config1 id ts body header
        = verifyWebhookSignature hmac config2 id ts body header)
    /\ (forall tail tail',
           webhookSecret config1 = "whsec_" ++ a ++ String Base64.pad tail ->
           webhookSecret config2 = "whsec_" ++ a ++ String Base64.pad tail' ->
           verifyWebhookSignature hmac config1 id ts body header
           = verifyWebhookSignature hmac config2 id ts body header).
Proof.
  intros hmac config1 config2 id ts body header a Ha. split.
  - intros b c Hlow Hc Hp H1 H2. apply verify_key_congr.
    + now rewrite H1, H2.
    + rewrite !secretPart_spec, H1, H2.
      change ("whsec_" ++ a ++ String c b)
        with ("whsec" ++ String "_" (a ++ String c b)).
      change ("whsec_" ++ a ++ b) with ("whsec" ++ String "_" (a ++ b)).
      rewrite !(after_app "_" "whsec") by reflexivity. simpl option_map.
      now rewrite (decode_skip a c b Ha Hlow Hc Hp).
  - intros tail tail' H1 H2. apply verify_key_congr.
    + now rewrite H1, H2.
    + rewrite !secretPart_spec, H1, H2.
      change ("whsec_" ++ a ++ String Base64.pad tail)
        with ("whsec" ++ String "_" (a ++ String Base64.pad tail)).
      change ("whsec_" ++ a ++ String Base64.pad tail')
        with ("whsec" ++ String "_" (a ++ String Base64.pad tail')).
      rewrite !(after_app "_" "whsec") by reflexivity. simpl option_map.
      now rewrite (decode_stop a tail tail' Ha).
Qed.

Lemma secret_text_lenient_witness :
  verifyWebhookSignature node_hmac
    (config_with_secret ("whsec_" ++ "ZmFrZXNlY3JldGtleQ" ++ String " " "=="))
    "evt_1" "1700000000" scenario_body ("v1," ++ scenario_signature)
  = verifyWebhookSignature node_hmac scenario_config
      "evt_1" "1700000000" scenario_body ("v1," ++ scenario_signature)
  /\ verifyWebhookSignature node_hmac
       (config_with_secret
          ("whsec_" ++ "ZmFrZXNlY3JldGtleQ" ++ String Base64.pad "😀"))
       "evt_1" "1700000000" scenario_body ("v1," ++ scenario_signature)
     = verifyWebhookSignature node_hmac scenario_config
         "evt_1" "1700000000" scenario_body ("v1," ++ scenario_signature).
Proof.
  split.
  - apply (proj1 (secret_text_lenient node_hmac _ scenario_config
                    "evt_1" "1700000000" scenario_body
                    ("v1," ++ scenario_signature)
                    "ZmFrZXNlY3JldGtleQ" eq_refl) "==" " "%char).
    + vm_compute. reflexivity.
    + reflexivity.
    + intros H. discriminate H.
    + reflexivity.
    + reflexivity.
  - apply (proj2 (secret_text_lenient node_hmac _ scenario_config
                    "evt_1" "1700000000" scenario_body
                    ("v1," ++ scenario_signature)
                    "ZmFrZXNlY3JldGtleQ" eq_refl) "😀" "=").
    + reflexivity.
    + reflexivity.
Defined.

(** ** The threshold of [validateWebhookTimestamp] *)

(** X7.  For a timestamp that parses to the integer [t], the window grows
    with the threshold; with a negative threshold the timestamp is
    rejected, and with the threshold 0 it is accepted only when it equals
    the clock to the millisecond.  The clock, [t * 1000] and the thresholds
    in milliseconds are integers that doubles hold exactly. *)
Theorem timestamp_threshold :
  forall currentTime timestamp t,
    parsed_integer timestamp = Some t ->
    isSafeInteger (t * 1000) = true ->
    isSafeInteger currentTime = true ->
    (forall m m',
        isSafeInteger (m * 60 * 1000) = true ->
        isSafeInteger (m' * 60 * 1000) = true ->
        m <= m' ->
        result (validateWebhookTimestamp currentTime timestamp (minutes m))
        = Normal true ->
        result (validateWebhookTimestamp currentTime timestamp (minutes m'))
        = Normal true)
    /\ (forall m,
           isSafeInteger (m * 60 * 1000) = true ->
           m < 0 ->
           result (validateWebhookTimestamp currentTime timestamp (minutes m))
           = Normal false)
    /\ (result (validateWebhookTimestamp currentTime timestamp (minutes 0))
        = Normal true
        <-> currentTime = t * 1000).
Proof.
  intros currentTime timestamp t Hp Ht _. split_all.
  - intros m m' Hm Hm' Hle.
    rewrite (validate_minutes _ _ _ _ Hp Ht Hm),
      (validate_minutes _ _ _ _ Hp Ht Hm').
    intros [= H]. apply Z.leb_le in H. f_equal. apply Z.leb_le. lia.
  - intros m Hm Hneg. rewrite (validate_minutes _ _ _ _ Hp Ht Hm).
    f_equal. apply Z.leb_gt. lia.
  - rewrite (validate_minutes _ _ _ 0 Hp Ht eq_refl). split.
    + intros [= H]. apply Z.leb_le in H. lia.
    + intros ->. f_equal. apply Z.leb_le. lia.
Qed.

Lemma timestamp_threshold_witness :
  result (validateWebhookTimestamp 1700000180000 "1700000000" (minutes 5))
  = Normal true
  /\ result (validateWebhookTimestamp 1700000000000 "1700000000"
               (minutes (-1))) = Normal false
  /\ (result (validateWebhookTimestamp 1700000000000 "1700000000" (minutes 0))
      = Normal true
      <-> 1700000000000 = 1700000000 * 1000).
Proof.
  split_all.
  - apply (proj1 (timestamp_threshold 1700000180000 "1700000000" 1700000000
                    eq_refl eq_refl eq_refl) 3 5).
    + reflexivity.
    + reflexivity.
    + lia.
    + reflexivity.
  - apply (proj1 (proj2 (timestamp_threshold 1700000000000 "1700000000"
                           1700000000 eq_refl eq_refl eq_refl))).
    + reflexivity.
    + lia.
  - apply (proj2 (proj2 (timestamp_threshold 1700000000000 "1700000000"
                           1700000000 eq_refl eq_refl eq_refl))).
Defined.

(** ** Numbers as text *)

Example Number_toString_examples :
  map Number_toString [0; 7; 10; 2026; -5; 1700000000000]
  = ["0"; "7"; "10"; "2026"; "-5"; "1700000000000"].
Proof. vm_compute. reflexivity. Qed.

Example padStart_examples :
  padStart 2 "0" "7" = "07" /\ padStart 2 "0" "12" = "12"
  /\ padStart 5 "ab" "x" = "ababx" /\ padStart 3 EmptyString "x" = "x"
  /\ padStart 6 "0" "1234567" = "1234567".
Proof. repeat split. Qed.

Example order_number_example :
  generateOrderNumber {| getFullYear := 2026; getMonth := 10 |} 42
  = "ORD-202611-0042"
  /\ generateTrackingNumber 1234 = "CF001234SA".
Proof. split; vm_compute; reflexivity. Qed.

Lemma digit_char_cases d :
  0 <= d < 10 ->
  d = 0 \/ d = 1 \/ d = 2 \/ d = 3 \/ d = 4 \/ d = 5 \/ d = 6 \/ d = 7
  \/ d = 8 \/ d = 9.
Proof. lia. Qed.

Lemma digit_value_digit_char d :
  0 <= d < 10 -> digit_value 10 (digit_char d) = Some d.
Proof.
  intros H. destruct (digit_char_cases d H)
    as [->|[->|[->|[->|[->|[->|[->|[->|[->| ->]]]]]]]]]; reflexivity.
Qed.

Lemma is_decimal_digit_char d : 0 <= d < 10 -> is_decimal (digit_char d) = true.
Proof.
  intros H. destruct (digit_char_cases d H)
    as [->|[->|[->|[->|[->|[->|[->|[->|[->| ->]]]]]]]]]; reflexivity.
Qed.

Lemma digits_cons radix c s acc d :
  digit_value radix c = Some d ->
  digits radix (String c s) acc
  = digits radix s
      (Some (match acc with Some a => a * radix + d | None => d end)).
Proof. intros H. simpl. now rewrite H. Qed.

Lemma to_digits_step fuel n acc :
  to_digits (S fuel) n acc
  = if n <? 10 then String (digit_char (n mod 10)) acc
    else to_digits fuel (n / 10) (String (digit_char (n mod 10)) acc).
Proof. reflexivity. Qed.

Lemma to_digits_app fuel n acc r :
  to_digits fuel n acc ++ r = to_digits fuel n (acc ++ r).
Proof.
  revert n acc. induction fuel as [|fuel IH]; intros n acc;
    [reflexivity|].
  rewrite !to_digits_step.
  destruct (n <? 10); [reflexivity|]. now rewrite IH.
Qed.

Lemma all_decimal_cons c s :
  all_decimal (String c s) = is_decimal c && all_decimal s.
Proof. reflexivity. Qed.

Lemma length_cons c (s : string) :
  String.length (String c s) = S (String.length s).
Proof. reflexivity. Qed.

Lemma pow10_pos k : 0 < 10 ^ Z.of_nat k.
Proof. apply Z.pow_pos_nonneg; lia. Qed.

Lemma pow10_succ k : 10 ^ Z.of_nat (S k) = 10 * 10 ^ Z.of_nat k.
Proof. rewrite Nat2Z.inj_succ. apply Z.pow_succ_r. lia. Qed.

(** Reading the digits back gives the number. *)
Lemma to_digits_parse fuel n acc :
  0 <= n < 10 ^ Z.of_nat (S fuel) ->
  digits 10 (to_digits (S fuel) n acc) None = digits 10 acc (Some n).
Proof.
  revert n acc. induction fuel as [|fuel IH]; intros n acc Hn;
    rewrite to_digits_step.
  - change (10 ^ Z.of_nat 1) with 10 in Hn.
    replace (n <? 10) with true by (symmetry; apply Z.ltb_lt; lia).
    rewrite (digits_cons 10 _ _ None (n mod 10))
      by (apply digit_value_digit_char; rewrite Z.mod_small; lia).
    now rewrite Z.mod_small by lia.
  - rewrite pow10_succ in Hn.
    destruct (Z.ltb_spec n 10).
    + rewrite (digits_cons 10 _ _ None (n mod 10))
        by (apply digit_value_digit_char; rewrite Z.mod_small; lia).
      now rewrite Z.mod_small by lia.
    + rewrite IH.
      * rewrite (digits_cons 10 _ _ (Some (n / 10)) (n mod 10))
          by (apply digit_value_digit_char; apply Z.mod_pos_bound; lia).
        do 2 f_equal. pose proof (Z.div_mod n 10). lia.
      * split; [apply Z.div_pos; lia|].
        apply Z.div_lt_upper_bound; lia.
Qed.

Lemma to_digits_decimal fuel n acc :
  0 <= n -> all_decimal acc = true ->
  all_decimal (to_digits fuel n acc) = true.
Proof.
  revert n acc. induction fuel as [|fuel IH]; intros n acc Hn Hacc;
    [assumption|].
  rewrite to_digits_step.
  assert (Hd : all_decimal (String (digit_char (n mod 10)) acc) = true).
  { rewrite all_decimal_cons, Hacc, is_decimal_digit_char; [reflexivity|].
    apply Z.mod_pos_bound. lia. }
  destruct (n <? 10); [exact Hd|].
  apply IH; [apply Z.div_pos; lia | exact Hd].
Qed.

Lemma to_digits_length_le fuel n acc k :
  0 <= n < 10 ^ Z.of_nat (S k) ->
  (String.length (to_digits fuel n acc) <= S k + String.length acc)%nat.
Proof.
  revert n acc k. induction fuel as [|fuel IH]; intros n acc k Hn;
    [simpl; lia|].
  rewrite to_digits_step.
  destruct (Z.ltb_spec n 10); [rewrite length_cons; lia|].
  destruct k as [|k].
  - change (10 ^ Z.of_nat 1) with 10 in Hn. lia.
  - rewrite pow10_succ in Hn.
    etransitivity; [apply (IH _ _ k)|rewrite length_cons; lia].
    split; [apply Z.div_pos; lia|].
    apply Z.div_lt_upper_bound; lia.
Qed.

Lemma to_digits_length_ge fuel n acc k :
  10 ^ Z.of_nat k <= n < 10 ^ Z.of_nat (S fuel) ->
  (S k + String.length acc <= String.length (to_digits (S fuel) n acc))%nat.
Proof.
  revert n acc k. induction fuel as [|fuel IH]; intros n acc k Hn;
    rewrite to_digits_step.
  - change (10 ^ Z.of_nat 1) with 10 in Hn.
    destruct k as [|k].
    + destruct (n <? 10); [rewrite length_cons; lia|].
      change (to_digits 0 (n / 10) ?a) with a. rewrite length_cons. lia.
    + rewrite pow10_succ in Hn. pose proof (pow10_pos k). lia.
  - rewrite pow10_succ in Hn.
    destruct (Z.ltb_spec n 10).
    + destruct k as [|k]; [rewrite length_cons; lia|].
      rewrite pow10_succ in Hn. pose proof (pow10_pos k). lia.
    + destruct k as [|k].
      * etransitivity; [|apply (IH _ _ O)]; [rewrite length_cons; lia|].
        change (10 ^ Z.of_nat 0) with 1.
        split; [apply Z.div_le_lower_bound; lia|].
        apply Z.div_lt_upper_bound; lia.
      * rewrite pow10_succ in Hn.
        etransitivity; [|apply (IH _ _ k)]; [rewrite length_cons; lia|].
        split; [apply Z.div_le_lower_bound; lia|].
        apply Z.div_lt_upper_bound; lia.
Qed.

Lemma digit_fuel_enough n :
  0 <= n -> n < 10 ^ Z.of_nat (digit_fuel n).
Proof.
  intros Hn. unfold digit_fuel.
  rewrite Nat2Z.inj_succ, Z2Nat.id by apply Z.log2_nonneg.
  destruct (Z.eq_dec n 0) as [->|Hz]; [reflexivity|].
  pose proof (Z.log2_spec n ltac:(lia)) as [_ H].
  eapply Z.lt_le_trans; [exact H|].
  apply Z.pow_le_mono_l. pose proof (Z.log2_nonneg n). lia.
Qed.

Lemma Number_toString_nonneg n :
  0 <= n -> Number_toString n = to_digits (digit_fuel n) n EmptyString.
Proof.
  intros H. unfold Number_toString.
  now replace (n <? 0) with false by (symmetry; apply Z.ltb_ge; lia).
Qed.

(** The digits of a number, followed by anything, read back as the number
    once the accumulator is fed. *)
Lemma Number_toString_parse n rest :
  0 <= n ->
  digits 10 (Number_toString n ++ rest) None = digits 10 rest (Some n).
Proof.
  intros Hn. rewrite (Number_toString_nonneg n Hn), to_digits_app.
  apply to_digits_parse. split; [assumption | now apply digit_fuel_enough].
Qed.

Lemma Number_toString_decimal n :
  0 <= n -> all_decimal (Number_toString n) = true.
Proof.
  intros Hn. rewrite (Number_toString_nonneg n Hn).
  now apply to_digits_decimal.
Qed.

Lemma Number_toString_length_le n k :
  0 <= n < 10 ^ Z.of_nat (S k) ->
  (String.length (Number_toString n) <= S k)%nat.
Proof.
  intros Hn. rewrite (Number_toString_nonneg n) by lia.
  pose proof (to_digits_length_le (digit_fuel n) n EmptyString k Hn) as H.
  change (String.length EmptyString) with O in H. lia.
Qed.

Lemma Number_toString_length_ge n k :
  10 ^ Z.of_nat k <= n ->
  (S k <= String.length (Number_toString n))%nat.
Proof.
  intros Hn. pose proof (pow10_pos k) as Hk.
  rewrite (Number_toString_nonneg n) by lia.
  pose proof (to_digits_length_ge (Z.to_nat (Z.log2 n)) n EmptyString k) as H.
  change (String.length EmptyString) with O in H.
  rewrite Nat.add_0_r in H. apply H.
  split; [assumption|]. apply (digit_fuel_enough n). lia.
Qed.

Lemma Number_toString_head n :
  0 <= n ->
  exists c s, Number_toString n = String c s /\ is_decimal c = true.
Proof.
  intros Hn.
  destruct (Z.eq_dec n 0) as [->|Hz].
  { exists "0"%char, EmptyString. now split. }
  pose proof (Number_toString_decimal n Hn) as Hd.
  pose proof (Number_toString_length_ge n 0) as Hl.
  change (10 ^ Z.of_nat 0) with 1 in Hl.
  destruct (Number_toString n) as [|c s].
  - change (String.length EmptyString) with O in Hl. lia.
  - rewrite all_decimal_cons in Hd. apply andb_true_iff in Hd as [Hc _].
    eauto.
Qed.

Lemma Number_toString_inj n m :
  0 <= n -> 0 <= m -> Number_toString n = Number_toString m -> n = m.
Proof.
  intros Hn Hm H.
  pose proof (Number_toString_parse n EmptyString Hn) as Pn.
  pose proof (Number_toString_parse m EmptyString Hm) as Pm.
  rewrite H, Pm in Pn. simpl in Pn. congruence.
Qed.

(** ** Padding *)

Lemma pad_fill_zeros n :
  pad_fill n "0" "0" = zeros n /\ pad_fill n EmptyString "0" = zeros n.
Proof.
  induction n as [|n [_ IH]]; simpl; [now split|].
  now rewrite IH.
Qed.

Lemma padStart_zeros k s :
  padStart k "0" s = zeros (k - String.length s) ++ s.
Proof.
  unfold padStart. destruct (Nat.leb_spec k (String.length s)) as [H|H].
  - now replace (k - String.length s)%nat with O by lia.
  - simpl. now rewrite (proj1 (pad_fill_zeros _)).
Qed.

Lemma zeros_length n : String.length (zeros n) = n.
Proof. induction n as [|n IH]; simpl; [reflexivity | now rewrite IH]. Qed.

Lemma zeros_decimal n : all_decimal (zeros n) = true.
Proof. induction n as [|n IH]; simpl; [reflexivity | exact IH]. Qed.

Lemma all_decimal_app s t :
  all_decimal (s ++ t) = all_decimal s && all_decimal t.
Proof.
  induction s as [|c s IH]; simpl; [reflexivity|].
  now rewrite IH, andb_assoc.
Qed.

Lemma padStart_length k s :
  (String.length s <= k)%nat -> String.length (padStart k "0" s) = k.
Proof.
  intros H. rewrite padStart_zeros, length_app, zeros_length. lia.
Qed.

Lemma padStart_decimal k s :
  all_decimal s = true -> all_decimal (padStart k "0" s) = true.
Proof.
  intros H. now rewrite padStart_zeros, all_decimal_app, zeros_decimal.
Qed.

Lemma is_decimal_value c :
  is_decimal c = true -> exists d, digit_value 10 c = Some d.
Proof.
  unfold is_decimal, digit_value. intros H. rewrite H.
  apply andb_true_iff in H as [H1 H2].
  apply Z.leb_le in H1. apply Z.leb_le in H2.
  replace (code c - 48 <? 10) with true by (symmetry; apply Z.ltb_lt; lia).
  eauto.
Qed.

Lemma digits_zero_acc c s :
  is_decimal c = true ->
  digits 10 (String c s) (Some 0) = digits 10 (String c s) None.
Proof.
  intros H. destruct (is_decimal_value c H) as [d Hd]. simpl.
  now rewrite Hd.
Qed.

Lemma digits_zeros k c s :
  is_decimal c = true ->
  digits 10 (zeros k ++ String c s) None = digits 10 (String c s) None.
Proof.
  intros H. induction k as [|k IH]; [reflexivity|].
  change (zeros (S k) ++ String c s) with (String "0" (zeros k ++ String c s)).
  change (digits 10 (String "0" (zeros k ++ String c s)) None)
    with (digits 10 (zeros k ++ String c s) (Some 0)).
  rewrite <- IH. destruct k; simpl zeros; simpl append.
  - now apply digits_zero_acc.
  - now apply digits_zero_acc.
Qed.

(** A zero-padded number, followed by anything, reads back as the number. *)
Lemma padded_parse k n rest :
  0 <= n ->
  digits 10 (padStart k "0" (Number_toString n) ++ rest) None
  = digits 10 rest (Some n).
Proof.
  intros Hn. rewrite padStart_zeros, app_assoc.
  destruct (Number_toString_head n Hn) as (c & s & E & Hc).
  rewrite <- (Number_toString_parse n rest Hn), E.
  exact (digits_zeros _ c (s ++ rest) Hc).
Qed.

Lemma padded_value k n :
  0 <= n ->
  leading_digits_value (padStart k "0" (Number_toString n)) = Some n.
Proof.
  intros Hn. unfold leading_digits_value.
  rewrite <- (app_empty_r (padStart k "0" (Number_toString n))).
  now rewrite padded_parse.
Qed.

Lemma app_inj_length (a a' b b' : string) :
  String.length a = String.length a' -> a ++ b = a' ++ b' ->
  a = a' /\ b = b'.
Proof.
  revert a'. induction a as [|c a IH]; intros [|c' a'] Hl H;
    try discriminate.
  - now split.
  - simpl in Hl, H. injection H as -> H. injection Hl as Hl.
    destruct (IH a' Hl H) as [-> ->]. now split.
Qed.

(** ** Order and tracking numbers *)

Lemma month_text_length date :
  0 <= getMonth date <= 11 ->
  String.length (padStart 2 "0" (Number_toString (getMonth date + 1))) = 2%nat.
Proof.
  intros H. apply padStart_length.
  apply (Number_toString_length_le _ 1).
  change (10 ^ Z.of_nat 2) with 100. lia.
Qed.

Lemma draw_text_length draw k :
  0 <= draw < 10 ^ Z.of_nat (S k) ->
  String.length (padStart (S k) "0" (Number_toString draw)) = S k.
Proof.
  intros H. apply padStart_length. now apply Number_toString_length_le.
Qed.

(** X8.  In a year of four digits an order number is [ORD-], the year, the
    month on two digits, a dash and the draw on four digits: fifteen
    characters, whose digits read back as the year, the month counted from
    1 and the draw. *)
Theorem order_number_format :
  forall date draw,
    1000 <= getFullYear date <= 9999 ->
    0 <= getMonth date <= 11 ->
    0 <= draw <= 9999 ->
    exists year month random,
      generateOrderNumber date draw
      = "ORD-" ++ year ++ month ++ "-" ++ random
      /\ String.length (generateOrderNumber date draw) = 15%nat
      /\ String.length year = 4%nat
      /\ String.length month = 2%nat
      /\ String.length random = 4%nat
      /\ all_decimal (year ++ month ++ random) = true
      /\ leading_digits_value year = Some (getFullYear date)
      /\ leading_digits_value month = Some (getMonth date + 1)
      /\ leading_digits_value random = Some draw.
Proof.
  intros date draw Hy Hm Hd.
  assert (Ly : String.length (Number_toString (getFullYear date)) = 4%nat).
  { pose proof (Number_toString_length_le (getFullYear date) 3) as Hle.
    pose proof (Number_toString_length_ge (getFullYear date) 3) as Hge.
    change (10 ^ Z.of_nat 4) with 10000 in Hle.
    change (10 ^ Z.of_nat 3) with 1000 in Hge. lia. }
  pose proof (month_text_length date Hm) as Lm.
  assert (Lr : String.length (padStart 4 "0" (Number_toString draw)) = 4%nat).
  { apply (draw_text_length draw 3). change (10 ^ Z.of_nat 4) with 10000.
    lia. }
  exists (Number_toString (getFullYear date)),
    (padStart 2 "0" (Number_toString (getMonth date + 1))),
    (padStart 4 "0" (Number_toString draw)).
  split_all; try assumption.
  - reflexivity.
  - unfold generateOrderNumber.
    change ("ORD-" ++ ?x) with (String "O" (String "R" (String "D"
                                  (String "-" x)))).
    simpl String.length. rewrite !length_app. simpl String.length.
    rewrite Ly, Lm, Lr. reflexivity.
  - rewrite !all_decimal_app, Number_toString_decimal by lia.
    now rewrite !padStart_decimal by (apply Number_toString_decimal; lia).
  - rewrite <- (padded_value 0 (getFullYear date)) by lia.
    now rewrite padStart_zeros.
  - apply padded_value. lia.
  - apply padded_value. lia.
Qed.

Lemma order_number_format_witness :
  exists year month random,
    generateOrderNumber {| getFullYear := 2026; getMonth := 10 |} 42
    = "ORD-" ++ year ++ month ++ "-" ++ random
    /\ String.length
         (generateOrderNumber {| getFullYear := 2026; getMonth := 10 |} 42)
       = 15%nat
    /\ String.length year = 4%nat
    /\ String.length month = 2%nat
    /\ String.length random = 4%nat
    /\ all_decimal (year ++ month ++ random) = true
    /\ leading_digits_value year = Some 2026
    /\ leading_digits_value month = Some (10 + 1)
    /\ leading_digits_value random = Some 42.
Proof.
  apply (order_number_format {| getFullYear := 2026; getMonth := 10 |} 42);
    simpl; lia.
Defined.

(** X9.  Two order numbers are equal only for the same year, month and
    draw: within a month the draw alone tells orders apart. *)
Theorem order_number_injective :
  forall date1 draw1 date2 draw2,
    0 <= getFullYear date1 -> 0 <= getFullYear date2 ->
    0 <= getMonth date1 <= 11 -> 0 <= getMonth date2 <= 11 ->
    0 <= draw1 <= 9999 -> 0 <= draw2 <= 9999 ->
    generateOrderNumber date1 draw1 = generateOrderNumber date2 draw2 ->
    getFullYear date1 = getFullYear date2
    /\ getMonth date1 = getMonth date2
    /\ draw1 = draw2.
Proof.
  intros date1 draw1 date2 draw2 Hy1 Hy2 Hm1 Hm2 Hd1 Hd2 H.
  unfold generateOrderNumber in H.
  injection H as H.
  pose proof (month_text_length date1 Hm1) as Lm1.
  pose proof (month_text_length date2 Hm2) as Lm2.
  assert (Lr1 : String.length (padStart 4 "0" (Number_toString draw1)) = 4%nat)
    by (apply (draw_text_length draw1 3);
        change (10 ^ Z.of_nat 4) with 10000; lia).
  assert (Lr2 : String.length (padStart 4 "0" (Number_toString draw2)) = 4%nat)
    by (apply (draw_text_length draw2 3);
        change (10 ^ Z.of_nat 4) with 10000; lia).
  pose proof (f_equal String.length H) as Hl.
  rewrite !length_app in Hl. simpl String.length in Hl.
  rewrite Lm1, Lm2, Lr1, Lr2 in Hl.
  apply app_inj_length in H as [Hyear H]; [|lia].
  apply app_inj_length in H as [Hmonth H]; [|congruence].
  injection H as Hrandom.
  split_all.
  - now apply Number_toString_inj.
  - pose proof (padded_value 2 (getMonth date1 + 1) ltac:(lia)) as P1.
    pose proof (padded_value 2 (getMonth date2 + 1) ltac:(lia)) as P2.
    rewrite Hmonth, P2 in P1. injection P1 as P1. lia.
  - pose proof (padded_value 4 draw1 ltac:(lia)) as P1.
    pose proof (padded_value 4 draw2 ltac:(lia)) as P2.
    rewrite Hrandom, P2 in P1. now injection P1.
Qed.

Lemma order_number_injective_witness :
  2026 = 2026 /\ 10 = 10 /\ 42 = 42.
Proof.
  apply (order_number_injective
           {| getFullYear := 2026; getMonth := 10 |} 42
           {| getFullYear := 2026; getMonth := 10 |} 42);
    simpl; (lia || reflexivity).
Defined.

(** X10.  A tracking number is [CF], the draw on six digits and [SA]: ten
    characters whose digits read back as the draw, so that two tracking
    numbers are equal only for the same draw. *)
Theorem tracking_number_format :
  forall draw,
    0 <= draw <= 999999 ->
    String.length (generateTrackingNumber draw) = 10%nat
    /\ (exists random,
           generateTrackingNumber draw = "CF" ++ random ++ "SA"
           /\ String.length random = 6%nat
           /\ all_decimal random = true
           /\ leading_digits_value random = Some draw)
    /\ (forall draw',
           0 <= draw' <= 999999 ->
           generateTrackingNumber draw = generateTrackingNumber draw' ->
           draw = draw').
Proof.
  intros draw Hd.
  assert (Len : forall d, 0 <= d <= 999999 ->
                  String.length (padStart 6 "0" (Number_toString d)) = 6%nat).
  { intros d H. apply (draw_text_length d 5).
    change (10 ^ Z.of_nat 6) with 1000000. lia. }
  split_all.
  - unfold generateTrackingNumber. simpl String.length.
    rewrite length_app, (Len draw Hd). reflexivity.
  - exists (padStart 6 "0" (Number_toString draw)). split_all.
    + reflexivity.
    + now apply Len.
    + apply padStart_decimal, Number_toString_decimal. lia.
    + apply padded_value. lia.
  - intros draw' Hd' H. unfold generateTrackingNumber in H.
    injection H as H.
    apply app_inj_length in H as [H _]; [|now rewrite !Len].
    pose proof (padded_value 6 draw ltac:(lia)) as P1.
    pose proof (padded_value 6 draw' ltac:(lia)) as P2.
    rewrite H, P2 in P1. now injection P1.
Qed.

Lemma tracking_number_format_witness :
  String.length (generateTrackingNumber 1234) = 10%nat
  /\ generateTrackingNumber 1234 = "CF001234SA".
Proof.
  split.
  - apply (proj1 (tracking_number_format 1234 ltac:(lia))).
  - reflexivity.
Defined.

(** ** Checkouts and webhook registration *)

Example JSON_stringify_example :
  JSON_stringify (Checkout.data_value example_checkout)
  = "{" ++ quote "amount" ++ ":2350," ++ quote "currency" ++ ":"
        ++ quote "ZAR" ++ "," ++ quote "metadata" ++ ":{"
        ++ quote "orderId" ++ ":" ++ quote "order-7" ++ ","
        ++ quote "orderNumber" ++ ":" ++ quote "ORD-202611-0042" ++ ","
        ++ quote "customerEmail" ++ ":" ++ quote "a@b.c" ++ "}}"
  /\ quote ("a" ++ double_quote ++ "b\c" ++ String "010" "d")
     = double_quote ++ "a\" ++ double_quote ++ "b\\c\nd" ++ double_quote
  /\ JSON_stringify_pretty (JObject [("n", JArray [JNumber 1; JNull]);
                                     ("e", JObject [])]) 2
     = "{" ++ String "010" "  " ++ quote "n" ++ ": ["
           ++ String "010" "    1," ++ String "010" "    null"
           ++ String "010" "  ]," ++ String "010" "  " ++ quote "e"
           ++ ": {}" ++ String "010" "}".
Proof. repeat split; vm_compute; reflexivity. Qed.

Example ToString_example :
  ToString (JArray [JNumber 1; JNull; JArray [JString "a"; JBool true];
                    JObject []])
  = Normal "1,,a,true,[object Object]"
  /\ ToString (JObject [("toString", JNull)]) = Throw not_primitive
  /\ ToString (JArray [JNumber 1; JObject [("toString", JString "x")]])
     = Throw not_primitive.
Proof. split_all; vm_compute; reflexivity. Qed.

Lemma all_decimal_no_dash s : all_decimal s = true -> occurs "-" s = false.
Proof.
  induction s as [|c s IH]; [reflexivity|].
  rewrite all_decimal_cons. intros H. apply andb_true_iff in H as [Hc Hs].
  simpl. rewrite (IH Hs), orb_false_r.
  destruct (Ascii.eqb_spec c "-") as [->|]; [discriminate Hc | reflexivity].
Qed.

(** A text, a dash and a dash-free tail determine the text and the tail. *)
Lemma dash_split (a a' d d' : string) :
  occurs "-" d = false -> occurs "-" d' = false ->
  a ++ String "-" d = a' ++ String "-" d' -> a = a' /\ d = d'.
Proof.
  intros Hd Hd'. revert a'.
  induction a as [|c a IH]; intros [|c' a'] H; simpl in H.
  - injection H as H. now split.
  - injection H as Hc H. subst d.
    rewrite occurs_app in Hd. simpl in Hd.
    rewrite orb_true_r in Hd. discriminate.
  - injection H as Hc H. subst d'.
    rewrite occurs_app in Hd'. simpl in Hd'.
    rewrite orb_true_r in Hd'. discriminate.
  - injection H as -> H. destruct (IH a' H) as [-> ->]. now split.
Qed.

(** X11.  [createYocoCheckout] sends exactly one request on every run, to
    the checkouts address; it is fulfilled, with the parsed body, exactly
    when the request succeeds with an ok response whose body parses; and a
    rejection is logged with [console.error] as the last effect and passed
    on to the caller unchanged. *)
Theorem checkout_contract :
  forall fetch config now checkoutData,
    fetch_calls (effects (createYocoCheckout fetch config now checkoutData))
    = [(checkouts_url, Some (checkout_init config now checkoutData))]
    /\ (forall checkout,
           outcome (createYocoCheckout fetch config now checkoutData)
           = Normal checkout
           <-> exists response,
                fetch checkouts_url
                  (Some (checkout_init config now checkoutData))
                = Normal response
                /\ Response.ok response = true
                /\ Response.json response = Normal checkout)
    /\ (forall e,
           outcome (createYocoCheckout fetch config now checkoutData)
           = Throw e ->
           last_effect
             (effects (createYocoCheckout fetch config now checkoutData))
           = Some (console to_error [text "❌ Failed to create Yoco checkout:";
                                  thrown e])).
Proof.
  intros fetch config now checkoutData. run_async.
  destruct (fetch _ _) as [response|e0]; simpl.
  2:{ split_all; [reflexivity | | now intros e [= ->]].
      intros checkout. split; [discriminate|].
      intros (r & H & _). discriminate. }
  destruct (Response.ok response) eqn:Hok; simpl.
  - destruct (Response.json response) as [v|e0] eqn:Hjson; simpl.
    + split_all; [reflexivity | | discriminate].
      intros checkout. split.
      * intros [= <-]. exists response. auto.
      * intros (r & [= <-] & _ & H). congruence.
    + split_all; [reflexivity | | now intros e [= ->]].
      intros checkout. split; [discriminate|].
      intros (r & [= <-] & _ & H). congruence.
  - destruct (Response.json response) as [v|e0]; simpl.
    + destruct (get v "message") as [m|e1]; simpl.
      * destruct (text_or m (Response.statusText response)) as [d|e2];
          simpl.
        -- split_all; [reflexivity | | now intros e [= <-]].
           intros checkout. split; [discriminate|].
           intros (r & [= <-] & H & _). congruence.
        -- split_all; [reflexivity | | now intros e [= ->]].
           intros checkout. split; [discriminate|].
           intros (r & [= <-] & H & _). congruence.
      * split_all; [reflexivity | | now intros e [= ->]].
        intros checkout. split; [discriminate|].
        intros (r & [= <-] & H & _). congruence.
    + split_all; [reflexivity | | now intros e [= ->]].
      intros checkout. split; [discriminate|].
      intros (r & [= <-] & H & _). congruence.
Qed.

Lemma checkout_contract_witness :
  outcome (createYocoCheckout (always_answers created_response)
             scenario_config 1700000000000 example_checkout)
  = Normal (JObject [("id", JString "ch_1")])
  /\ last_effect
       (effects (createYocoCheckout network_down scenario_config
                   1700000000000 example_checkout))
     = Some (console to_error [text "❌ Failed to create Yoco checkout:";
                            thrown (TypeError "fetch failed")]).
Proof.
  split.
  - apply (proj1 (proj2 (checkout_contract (always_answers created_response)
                           scenario_config 1700000000000 example_checkout))).
    exists created_response. repeat split.
  - apply (proj2 (proj2 (checkout_contract network_down scenario_config
                           1700000000000 example_checkout))).
    reflexivity.
Defined.

(** X12.  A response that is not ok never fulfils [createYocoCheckout].
    With an error body that is an object or any other non-null value, the
    rejection is an [Error] whose message is the fixed prefix followed by
    the text of the body's [message] when that is truthy, and by the status
    text otherwise: a [message] that is a non-empty string is written as it
    is.  When the [message] has no text, as an object with a property
    [toString], the rejection is the TypeError of the conversion.  With the
    body [null] it is the TypeError of reading [message], and with an
    unreadable body the error of reading it.  The numbers of the [message]
    are integers that doubles hold exactly. *)
Theorem checkout_refused :
  forall fetch config now checkoutData response,
    fetch checkouts_url (Some (checkout_init config now checkoutData))
    = Normal response ->
    Response.ok response = false ->
    (forall errorData message detail,
        Response.json response = Normal errorData ->
        get errorData "message" = Normal (Some message) ->
        safe_numbers message = true ->
        text_or (Some message) (Response.statusText response)
        = Normal detail ->
        outcome (createYocoCheckout fetch config now checkoutData)
        = Throw (Error ("Yoco checkout creation failed: " ++ detail)))
    /\ (forall errorData c s,
           Response.json response = Normal errorData ->
           get errorData "message" = Normal (Some (JString (String c s))) ->
           outcome (createYocoCheckout fetch config now checkoutData)
           = Throw (Error ("Yoco checkout creation failed: " ++ String c s)))
    /\ (forall errorData message,
           Response.json response = Normal errorData ->
           get errorData "message" = Normal message ->
           truthy message = false ->
           outcome (createYocoCheckout fetch config now checkoutData)
           = Throw (Error ("Yoco checkout creation failed: "
                           ++ Response.statusText response)))
    /\ (forall errorData properties,
           Response.json response = Normal errorData ->
           get errorData "message" = Normal (Some (JObject properties)) ->
           property "toString" properties <> None ->
           outcome (createYocoCheckout fetch config now checkoutData)
           = Throw not_primitive)
    /\ (Response.json response = Normal JNull ->
        exists e,
          get JNull "message" = Throw e
          /\ outcome (createYocoCheckout fetch config now checkoutData)
             = Throw e)
    /\ (forall e,
           Response.json response = Throw e ->
           outcome (createYocoCheckout fetch config now checkoutData)
           = Throw e).
Proof.
  intros fetch config now checkoutData response Hfetch Hok.
  assert (Hrun : forall errorData message,
             Response.json response = Normal errorData ->
             get errorData "message" = Normal message ->
             outcome (createYocoCheckout fetch config now checkoutData)
             = match text_or message (Response.statusText response) with
               | Normal detail =>
                   Throw (Error ("Yoco checkout creation failed: " ++ detail))
               | Throw e => Throw e
               end).
  { intros errorData message Hjson Hget. run_async.
    rewrite Hfetch. simpl. rewrite Hok. simpl. rewrite Hjson. simpl.
    rewrite Hget. simpl.
    now destruct (text_or message (Response.statusText response)). }
  split_all.
  - intros errorData message detail Hjson Hget _ Htext.
    now rewrite (Hrun _ _ Hjson Hget), Htext.
  - intros errorData c s Hjson Hget. now rewrite (Hrun _ _ Hjson Hget).
  - intros errorData message Hjson Hget Hfalsy.
    rewrite (Hrun _ _ Hjson Hget). unfold text_or.
    destruct message as [w|]; [|reflexivity]. now rewrite Hfalsy.
  - intros errorData properties Hjson Hget Hown.
    rewrite (Hrun _ _ Hjson Hget).
    change (text_or (Some (JObject properties))
              (Response.statusText response))
      with (match property "toString" properties with
            | Some _ => Throw not_primitive
            | None => Normal "[object Object]"
            end).
    now destruct (property "toString" properties).
  - intros Hjson. eexists. split; [reflexivity|]. run_async.
    rewrite Hfetch. simpl. rewrite Hok. simpl. rewrite Hjson. reflexivity.
  - intros e Hjson. run_async.
    rewrite Hfetch. simpl. rewrite Hok. simpl. now rewrite Hjson.
Qed.

Lemma checkout_refused_witness :
  outcome (createYocoCheckout (always_answers refused_response)
             scenario_config 1700000000000 example_checkout)
  = Throw (Error "Yoco checkout creation failed: Invalid API key")
  /\ outcome (createYocoCheckout (always_answers unprintable_response)
                scenario_config 1700000000000 example_checkout)
     = Throw not_primitive.
Proof.
  split.
  - apply (proj1 (proj2 (checkout_refused (always_answers refused_response)
                           scenario_config 1700000000000 example_checkout
                           refused_response eq_refl eq_refl))
             (JObject [("message", JString "Invalid API key")])
             "I"%char "nvalid API key"); reflexivity.
  - destruct (checkout_refused (always_answers unprintable_response)
                scenario_config 1700000000000 example_checkout
                unprintable_response eq_refl eq_refl)
      as (_ & _ & _ & Hown & _).
    apply (Hown (JObject [("message", JObject [("toString", JNull)])])
             [("toString", JNull)]).
    + reflexivity.
    + reflexivity.
    + intros H. discriminate H.
Defined.

(** X13.  The idempotency key of a checkout request is the order id, a
    dash and the clock in milliseconds: two requests carry the same key
    only for the same order id at the same millisecond, so that a repeated
    attempt for an order at a later time goes out under a new key. *)
Theorem idempotency_key :
  forall config now1 now2 data1 data2,
    0 <= now1 -> 0 <= now2 ->
    header "Idempotency-Key" (headers (checkout_init config now1 data1))
    = Some (Checkout.orderId (Checkout.metadata data1)
            ++ "-" ++ Number_toString now1)
    /\ (header "Idempotency-Key" (headers (checkout_init config now1 data1))
        = header "Idempotency-Key"
            (headers (checkout_init config now2 data2))
        <-> Checkout.orderId (Checkout.metadata data1)
            = Checkout.orderId (Checkout.metadata data2)
            /\ now1 = now2).
Proof.
  intros config now1 now2 data1 data2 H1 H2.
  split; [reflexivity|].
  change (header "Idempotency-Key"
            (headers (checkout_init config now1 data1)))
    with (Some (Checkout.orderId (Checkout.metadata data1)
                ++ String "-" (Number_toString now1))).
  change (header "Idempotency-Key"
            (headers (checkout_init config now2 data2)))
    with (Some (Checkout.orderId (Checkout.metadata data2)
                ++ String "-" (Number_toString now2))).
  split.
  - intros [= H].
    apply dash_split in H as [Hid Ht];
      try (apply all_decimal_no_dash, Number_toString_decimal; assumption).
    split; [exact Hid|]. now apply Number_toString_inj.
  - intros [-> ->]. reflexivity.
Qed.

Lemma idempotency_key_witness :
  header "Idempotency-Key"
    (headers (checkout_init scenario_config 1700000000000 example_checkout))
  = Some "order-7-1700000000000"
  /\ header "Idempotency-Key"
       (headers (checkout_init scenario_config 1700000000000
                   example_checkout))
     <> header "Idempotency-Key"
          (headers (checkout_init scenario_config 1700000000001
                      example_checkout)).
Proof.
  pose proof (idempotency_key scenario_config 1700000000000 1700000000001
                example_checkout example_checkout
                ltac:(lia) ltac:(lia)) as [Hkey Hiff].
  split; [exact Hkey|].
  intros H. apply Hiff in H. destruct H as [_ H]. discriminate H.
Defined.

(** X14.  [registerYocoWebhook] sends exactly one request on every run, to
    the webhooks address; it is fulfilled, with the parsed body, exactly
    when the request succeeds with an ok response whose body parses; and a
    rejection is logged with [console.error] as the last effect and passed
    on to the caller unchanged. *)
Theorem webhook_registration_contract :
  forall fetch config webhookUrl,
    fetch_calls (effects (registerYocoWebhook fetch config webhookUrl))
    = [(webhooks_url, Some (webhook_init config webhookUrl))]
    /\ (forall webhook,
           outcome (registerYocoWebhook fetch config webhookUrl)
           = Normal webhook
           <-> exists response,
                fetch webhooks_url (Some (webhook_init config webhookUrl))
                = Normal response
                /\ Response.ok response = true
                /\ Response.json response = Normal webhook)
    /\ (forall e,
           outcome (registerYocoWebhook fetch config webhookUrl) = Throw e ->
           last_effect (effects (registerYocoWebhook fetch config webhookUrl))
           = Some (console to_error
                     [text "❌ Failed to register Yoco webhook:"; thrown e])).
Proof.
  intros fetch config webhookUrl. run_async.
  destruct (fetch _ _) as [response|e0]; simpl.
  2:{ split_all; [reflexivity | | now intros e [= ->]].
      intros webhook. split; [discriminate|].
      intros (r & H & _). discriminate. }
  destruct (Response.ok response) eqn:Hok; simpl.
  - destruct (Response.json response) as [v|e0] eqn:Hjson; simpl.
    + split_all; [reflexivity | | discriminate].
      intros webhook. split.
      * intros [= <-]. exists response. auto.
      * intros (r & [= <-] & _ & H). congruence.
    + split_all; [reflexivity | | now intros e [= ->]].
      intros webhook. split; [discriminate|].
      intros (r & [= <-] & _ & H). congruence.
  - destruct (Response.json response) as [v|e0]; simpl.
    + destruct (get v "message") as [m|e1]; simpl.
      * destruct (text_or m (Response.statusText response)) as [d|e2];
          simpl.
        -- split_all; [reflexivity | | now intros e [= <-]].
           intros webhook. split; [discriminate|].
           intros (r & [= <-] & H & _). congruence.
        -- split_all; [reflexivity | | now intros e [= ->]].
           intros webhook. split; [discriminate|].
           intros (r & [= <-] & H & _). congruence.
      * split_all; [reflexivity | | now intros e [= ->]].
        intros webhook. split; [discriminate|].
        intros (r & [= <-] & H & _). congruence.
    + split_all; [reflexivity | | now intros e [= ->]].
      intros webhook. split; [discriminate|].
      intros (r & [= <-] & H & _). congruence.
Qed.

Lemma webhook_registration_contract_witness :
  outcome (registerYocoWebhook (always_answers created_response)
             scenario_config "https://shop.example/api/webhooks/yoco")
  = Normal (JObject [("id", JString "ch_1")])
  /\ last_effect
       (effects (registerYocoWebhook network_down scenario_config
                   "https://shop.example/api/webhooks/yoco"))
     = Some (console to_error [text "❌ Failed to register Yoco webhook:";
                            thrown (TypeError "fetch failed")]).
Proof.
  split.
  - apply (proj1 (proj2 (webhook_registration_contract
                           (always_answers created_response) scenario_config
                           "https://shop.example/api/webhooks/yoco"))).
    exists created_response. repeat split.
  - apply (proj2 (proj2 (webhook_registration_contract network_down
                           scenario_config
                           "https://shop.example/api/webhooks/yoco"))).
    reflexivity.
Defined.

(** ** The admin analytics route *)

Lemma not_admin_false r : not_admin r = false <-> r = Some "ADMIN".
Proof.
  destruct r as [s|]; simpl; [|split; discriminate].
  destruct (String.eqb_spec s "ADMIN") as [->|Hne]; simpl.
  - split; reflexivity.
  - split; [discriminate | intros [= H]; contradiction].
Qed.

Lemma not_admin_true r : r <> Some "ADMIN" -> not_admin r = true.
Proof.
  intros H. destruct (not_admin r) eqn:E; [reflexivity|].
  apply not_admin_false in E. contradiction.
Qed.

(** Reading a property fails on [null] alone, whatever the key. *)
Lemma get_again v key key' r :
  get v key = Normal r -> exists r', get v key' = Normal r'.
Proof.
  destruct v; try (intros _; eexists; reflexivity).
  discriminate.
Qed.

(** X15.  The backend is asked only on behalf of an administrator: with no
    session the handler answers 401, with a session whose role is not
    [ADMIN] it answers 403, in both cases without any request; and whenever
    a request is sent there is a session with the role [ADMIN]. *)
Theorem analytics_requires_admin :
  forall env getServerSession searchParams_get fetch request,
    (getServerSession = Normal None ->
     GET env getServerSession searchParams_get fetch request
     = ([console to_log
           [text "📊 GET /api/admin/visitors/analytics - Route hit!"];
         getServerSession_call],
        Normal unauthorized_response))
    /\ (forall session,
           getServerSession = Normal (Some session) ->
           session_role session <> Some "ADMIN" ->
           GET env getServerSession searchParams_get fetch request
           = ([console to_log
                 [text "📊 GET /api/admin/visitors/analytics - Route hit!"];
               getServerSession_call],
              Normal forbidden_response))
    /\ (fetch_calls
          (effects (GET env getServerSession searchParams_get fetch request))
        <> [] ->
        exists session,
          getServerSession = Normal (Some session)
          /\ session_role session = Some "ADMIN").
Proof.
  intros env gss sp fetch request. split_all.
  - intros ->. reflexivity.
  - intros session -> Hrole. run_async.
    now rewrite (not_admin_true _ Hrole).
  - run_async. destruct gss as [[session|]|e]; simpl;
      try (intros H; now contradiction H).
    destruct (not_admin (session_role session)) eqn:Hadmin; simpl;
      [intros H; now contradiction H|].
    intros _. exists session. split; [reflexivity|].
    now apply not_admin_false.
Qed.

(** X16.  The handler never rejects: on all inputs it is fulfilled with a
    response whose status is 200, 401, 403 or 500. *)
Theorem analytics_never_rejects :
  forall env getServerSession searchParams_get fetch request,
    exists response,
      outcome (GET env getServerSession searchParams_get fetch request)
      = Normal response
      /\ (NextResponse.status response = 200
          \/ NextResponse.status response = 401
          \/ NextResponse.status response = 403
          \/ NextResponse.status response = 500).
Proof.
  intros env gss sp fetch request.
  route_cases gss sp fetch; eexists; (split; [reflexivity|]); simpl; auto.
Qed.

Lemma analytics_failure_outcome env gss sp fetch request e :
  analytics_failure env gss sp fetch request e ->
  outcome (GET env gss sp fetch request) = Normal internal_error_response
  /\ last_effect (effects (GET env gss sp fetch request))
     = Some (console to_error [text "❌ Admin visitor analytics API error:";
                            thrown e]).
Proof.
  intros [H | s Hs Hr Hp | s p Hs Hr Hp Hf | s p r Hs Hr Hp Hf Hok Hj
          | s p r Hs Hr Hp Hf Hok Hj Hg];
    run_async; rewrite ?Hs; simpl;
    try (apply not_admin_false in Hr; rewrite Hr; simpl).
  - rewrite H. now split.
  - rewrite Hp. now split.
  - rewrite Hp. simpl.
    unfold analytics_url in Hf. simpl in Hf. rewrite Hf. now split.
  - rewrite Hp. simpl.
    unfold analytics_url in Hf. simpl in Hf. rewrite Hf. simpl.
    rewrite Hok. simpl. rewrite Hj. now split.
  - rewrite Hp. simpl.
    unfold analytics_url in Hf. simpl in Hf. rewrite Hf. simpl.
    rewrite Hok. simpl. rewrite Hj. simpl.
    cbv [get] in Hg. injection Hg as <-. now split.
Qed.

(** X17.  What goes wrong inside the handler stays inside: whichever
    exception is raised while reading the session, parsing the address,
    calling the backend or reading its body, the answer is the same fixed
    500 response and the exception goes to [console.error] only; and that
    response is given in no other case. *)
Theorem analytics_internal_errors :
  forall env getServerSession searchParams_get fetch request,
    (forall e,
        analytics_failure env getServerSession searchParams_get fetch
          request e ->
        outcome (GET env getServerSession searchParams_get fetch request)
        = Normal internal_error_response
        /\ last_effect
             (effects (GET env getServerSession searchParams_get fetch
                         request))
           = Some (console to_error
                     [text "❌ Admin visitor analytics API error:";
                      thrown e]))
    /\ (outcome (GET env getServerSession searchParams_get fetch request)
        = Normal internal_error_response ->
        exists e,
          analytics_failure env getServerSession searchParams_get fetch
            request e).
Proof.
  intros env gss sp fetch request.
  split; [intros e; apply analytics_failure_outcome|].
  route_cases gss sp fetch; try discriminate; intros _;
    try apply not_admin_false in Hadmin.
  - destruct v; cbv [get] in Hsuccess, Hdata; congruence.
  - destruct v; cbv [get] in Hsuccess, Hmessage; congruence.
  - assert (v = JNull) as ->
      by (destruct v; cbv [get] in Hsuccess; congruence).
    exists e. now apply (null_body_failure _ _ _ _ _ _ session p response).
  - exists e. now apply (body_failure _ _ _ _ _ _ session p response).
  - exists e. now apply (request_failure _ _ _ _ _ _ session p).
  - exists e. now apply (address_failure _ _ _ _ _ _ session).
  - exists e. now apply session_failure.
Qed.

Lemma analytics_internal_errors_witness :
  outcome (GET no_env (Throw (Error "session store unavailable"))
             no_parameters network_down {| url := "https://shop.example/a" |})
  = Normal internal_error_response
  /\ outcome (GET no_env (Normal (Some admin_session)) no_parameters
               network_down {| url := "https://shop.example/a" |})
     = Normal internal_error_response.
Proof.
  split.
  - apply (proj1 (analytics_internal_errors no_env _ no_parameters
                    network_down {| url := "https://shop.example/a" |})
             (Error "session store unavailable")).
    apply session_failure. reflexivity.
  - apply (proj1 (analytics_internal_errors no_env _ no_parameters
                    network_down {| url := "https://shop.example/a" |})
             (TypeError "fetch failed")).
    apply (request_failure _ _ _ _ _ _ admin_session None); reflexivity.
Defined.

Lemma analytics_requires_admin_witness :
  GET no_env (Normal None) no_parameters
    (always_answers analytics_answer) {| url := "https://shop.example/a" |}
  = ([console to_log
        [text "📊 GET /api/admin/visitors/analytics - Route hit!"];
      getServerSession_call],
     Normal unauthorized_response)
  /\ GET no_env
       (Normal (Some {| user := Some {| role := Some "CUSTOMER" |} |}))
       no_parameters (always_answers analytics_answer)
       {| url := "https://shop.example/a" |}
     = ([console to_log
           [text "📊 GET /api/admin/visitors/analytics - Route hit!"];
         getServerSession_call],
        Normal forbidden_response).
Proof.
  split.
  - apply (proj1 (analytics_requires_admin no_env (Normal None)
                    no_parameters (always_answers analytics_answer)
                    {| url := "https://shop.example/a" |})).
    reflexivity.
  - apply (proj1 (proj2 (analytics_requires_admin no_env _ no_parameters
                           (always_answers analytics_answer)
                           {| url := "https://shop.example/a" |}))
             {| user := Some {| role := Some "CUSTOMER" |} |}).
    + reflexivity.
    + intros H. discriminate H.
Defined.

(** X18.  The handler answers 200 exactly when an administrator's request
    reaches the backend, at the backend address followed by the [period]
    parameter as received (or [7d] when it is absent or empty), and the
    backend gives an ok response whose body has a truthy [success]; the
    answer then carries the backend's [data] unchanged. *)
Theorem analytics_success :
  forall env getServerSession searchParams_get fetch request,
    (forall response,
        outcome (GET env getServerSession searchParams_get fetch request)
        = Normal response ->
        NextResponse.status response = 200 ->
        exists data,
          backend_success env getServerSession searchParams_get fetch
            request data
          /\ response = success_response data)
    /\ (forall data,
           backend_success env getServerSession searchParams_get fetch
             request data ->
           outcome (GET env getServerSession searchParams_get fetch request)
           = Normal (success_response data)
           /\ fetch_calls
                (effects (GET env getServerSession searchParams_get fetch
                            request))
              = [(analytics_url env
                    match searchParams_get (url request) "period" with
                    | Normal p => p
                    | Throw _ => None
                    end, None)]).
Proof.
  intros env gss sp fetch request. split.
  - intros r. route_cases gss sp fetch; intros [= <-] Hstatus;
      try discriminate Hstatus.
    apply not_admin_false in Hadmin.
    exists data. split; [|reflexivity].
    exists session, p, response, v, success. now split_all.
  - intros data (s & p & r & v & success & Hs & Hr & Hp & Hf & Hok & Hj
                 & Hsc & Ht & Hd).
    apply not_admin_false in Hr. unfold analytics_url in Hf. simpl in Hf.
    run_async. rewrite Hs. simpl. rewrite Hr. simpl. rewrite Hp. simpl.
    rewrite Hf. simpl. rewrite Hok. simpl. rewrite Hj. simpl.
    rewrite Hsc. simpl. rewrite Ht. simpl. rewrite Hd. now split.
Qed.

Lemma analytics_success_witness :
  outcome (GET no_env (Normal (Some admin_session)) no_parameters
             (always_answers analytics_answer)
             {| url := "https://shop.example/a" |})
  = Normal (success_response (Some (JObject [("visits", JNumber 12)])))
  /\ fetch_calls
       (effects (GET no_env (Normal (Some admin_session)) no_parameters
                   (always_answers analytics_answer)
                   {| url := "https://shop.example/a" |}))
     = [("http://localhost:5000/api/visitors/analytics?period=7d", None)].
Proof.
  apply (proj2 (analytics_success no_env (Normal (Some admin_session))
                  no_parameters (always_answers analytics_answer)
                  {| url := "https://shop.example/a" |})).
  exists admin_session, None, analytics_answer,
    (JObject [("success", JBool true);
              ("data", JObject [("visits", JNumber 12)])]),
    (Some (JBool true)).
  repeat split.
Defined.
